(** * aws-tools: the Route53 bulk uploader and the EC2 reboot utility

    A shallow embedding of [src/aws_tools/dns_upload.py] and
    [src/aws_tools/reboot_ec2.py].

    Text is modelled by [string]; the development is about ASCII text, on
    which [str.endswith], [in], [split], [strip], [upper] and [int] are
    the functions defined below.  Calls of the cloud SDK are modelled by a
    provider that is a parameter of the drivers: it answers each call with
    a response or with an exception, and every call, every [print] and
    every [time.sleep] is recorded in a trace. *)

From stdpp Require Import gmap strings list.
From Stdlib Require Import ZArith Ascii Lia.

Local Open Scope Z_scope.

(** ** Python strings *)

Module PyStr.

(** [s.startswith(p)] *)
Fixpoint startswith (s p : string) {struct p} : bool :=
  match p with
  | EmptyString => true
  | String b p' =>
      match s with
      | EmptyString => false
      | String a s' => if decide (a = b) then startswith s' p' else false
      end
  end.

(** [s.endswith(suf)]: [s] is [suf], or [s] without its first character
    ends with [suf]. *)
Fixpoint endswith (s suf : string) : bool :=
  if decide (s = suf) then true
  else match s with
       | EmptyString => false
       | String _ s' => endswith s' suf
       end.

(** [sub in s] on strings: [sub] occurs in [s] at some position. *)
Fixpoint contains (sub s : string) : bool :=
  if startswith s sub then true
  else match s with
       | EmptyString => false
       | String _ s' => contains sub s'
       end.

(** [s[:-1]] *)
Fixpoint drop_last (s : string) : string :=
  match s with
  | EmptyString => EmptyString
  | String _ EmptyString => EmptyString
  | String a s' => String a (drop_last s')
  end.

(** [s.split(c)] for a separator of one character. *)
Fixpoint split (c : ascii) (s : string) : list string :=
  match s with
  | EmptyString => [EmptyString]
  | String a s' =>
      if decide (a = c) then EmptyString :: split c s'
      else match split c s' with
           | h :: t => String a h :: t
           | [] => [String a EmptyString]
           end
  end.

(** [l[-1]] on a list that [split] returned (never empty). *)
Definition last_item (l : list string) : string := List.last l EmptyString.

(** Whitespace of [str.strip()] and [int()] among ASCII characters:
    U+0009..U+000D, U+001C..U+001F and the space. *)
Definition isspace (a : ascii) : bool :=
  let n := nat_of_ascii a in
  ((9 <=? n) && (n <=? 13) || (28 <=? n) && (n <=? 32))%nat.

Fixpoint lstrip (s : string) : string :=
  match s with
  | EmptyString => EmptyString
  | String a s' => if isspace a then lstrip s' else s
  end.

Fixpoint rstrip (s : string) : string :=
  match s with
  | EmptyString => EmptyString
  | String a s' =>
      match rstrip s' with
      | EmptyString => if isspace a then EmptyString else String a EmptyString
      | r => String a r
      end
  end.

(** [s.strip()] *)
Definition strip (s : string) : string := rstrip (lstrip s).

Definition upper_char (a : ascii) : ascii :=
  let n := nat_of_ascii a in
  if ((97 <=? n) && (n <=? 122))%nat then ascii_of_nat (n - 32) else a.

(** [s.upper()] *)
Fixpoint upper (s : string) : string :=
  match s with
  | EmptyString => EmptyString
  | String a s' => String (upper_char a) (upper s')
  end.

Definition digit (a : ascii) : option Z :=
  let n := nat_of_ascii a in
  if ((48 <=? n) && (n <=? 57))%nat then Some (Z.of_nat (n - 48)) else None.

Definition underscore : ascii := "_"%char.

(** The digits of a decimal literal, most significant first; a single
    underscore may stand between two digits.  [acc] is the value read so
    far and [after_digit] tells whether the previous character was a
    digit. *)
Fixpoint digits (s : string) (acc : Z) (after_digit : bool) : option Z :=
  match s with
  | EmptyString => if after_digit then Some acc else None
  | String a s' =>
      match digit a with
      | Some d => digits s' (10 * acc + d) true
      | None =>
          if decide (a = underscore)
          then (if after_digit then digits s' acc false else None)
          else None
      end
  end.

(** [int(s)]: [Some z] is the integer, [None] is [ValueError].  The
    interpreter's bound on the number of digits of a literal is not
    modelled. *)
Definition int (s : string) : option Z :=
  match strip s with
  | String "+" r => digits r 0 false
  | String "-" r => Z.opp <$> digits r 0 false
  | r => digits r 0 false
  end.

End PyStr.

(** [suf] is a suffix of [s], and [sub] occurs in [s]. *)
Definition is_suffix (suf s : string) : Prop := exists p, s = p +:+ suf.
Definition occurs_in (sub s : string) : Prop := exists a b, s = a +:+ sub +:+ b.

(** ** Exceptions and the monad of the drivers *)

Inductive exn : Type :=
| KeyError
| ValueError
| AttributeError
| ClientError (code : string)
| NoCredentialsError
| WaiterError
| OtherError (name : string)
| SystemExit (code : Z).

Inductive outcome (A : Type) : Type :=
| Ok (a : A)
| Raise (e : exn).
Global Arguments Ok {A} a.
Global Arguments Raise {A} e.

(** A computation on a world [W] (provider state and trace) that returns
    or raises. *)
Definition Py (W A : Type) : Type := W -> outcome A * W.

Definition ret {W A} (a : A) : Py W A := fun w => (Ok a, w).
Definition raise {W A} (e : exn) : Py W A := fun w => (Raise e, w).
Definition bind {W A B} (m : Py W A) (k : A -> Py W B) : Py W B :=
  fun w => match m w with
           | (Ok a, w') => k a w'
           | (Raise e, w') => (Raise e, w')
           end.

(** [try: m except <caught> as e: h e] *)
Definition try_except {W A} (m : Py W A) (caught : exn -> bool) (h : exn -> Py W A)
  : Py W A :=
  fun w => match m w with
           | (Ok a, w') => (Ok a, w')
           | (Raise e, w') => if caught e then h e w' else (Raise e, w')
           end.

(** stdpp's monad notations: [x ← m; k] and [m;; k]. *)
Global Instance Py_ret {W} : MRet (Py W) := fun A => @ret W A.
Global Instance Py_bind {W} : MBind (Py W) := fun A B k m => @bind W A B m k.
Global Instance Py_fmap {W} : FMap (Py W) :=
  fun A B f m => @bind W A B m (fun a => ret (f a)).

(** [sys.exit(code)] *)
Definition sys_exit {W A} (code : Z) : Py W A := raise (SystemExit code).

(** [m] only adds events that satisfy [P] to the trace [tr] of the world,
    whether it returns or raises. *)
Definition only {W E A : Type} (tr : W -> list E) (P : E -> Prop) (m : Py W A) : Prop :=
  forall w, exists evs, tr (m w).2 = tr w ++ evs /\ Forall P evs.

(** [m] raises only exceptions that satisfy [E]. *)
Definition raises_only {W A : Type} (E : exn -> Prop) (m : Py W A) : Prop :=
  forall w e, (m w).1 = Raise e -> E e.

(** ** dns_upload.py *)

Module DnsUpload.
Import PyStr.

(** *** Data *)

Definition dot : string := ".".
Definition slash : ascii := "/"%char.
Definition dquote : string := String "034"%char EmptyString.

(** One entry of [response["HostedZones"]]. *)
Record HostedZone := { hz_Name : string; hz_Id : string }.

(** The change batch, a record for each dictionary of the literal. *)
Record ResourceRecord := { rr_Value : string }.
Record ResourceRecordSet := {
  rrs_Name : string;
  rrs_Type : string;
  rrs_TTL : Z;
  rrs_ResourceRecords : list ResourceRecord
}.
Record Change := { ch_Action : string; ch_ResourceRecordSet : ResourceRecordSet }.
Record ChangeBatch := { cb_Changes : list Change }.

(** What the tool prints, one constructor for each [print] of the
    source (colour codes left out). *)
Inductive msg : Type :=
| MsgHostedZoneError (e : exn)
| MsgSubmitted (change_id : string)
| MsgUploadError (record_name zone_name : string) (e : exn)
| MsgFileNotFound (csv_file : string)
| MsgBadHeader
| MsgProcessingRow (row_num : Z) (env zone record_type name value : string) (ttl : Z)
| MsgSkipUnsupported (record_type : string)
| MsgZoneNotFound (zone : string)
| MsgFoundZone (hosted_zone_id zone : string)
| MsgDryRunWouldApply
| MsgJson (change_batch : ChangeBatch)
| MsgRowError (row_num : Z) (e : exn)
| MsgSummary (successes failures skipped : Z).

Inductive event : Type :=
| Print (m : msg)
| ListHostedZones
| ChangeResourceRecordSets (HostedZoneId : string) (change_batch : ChangeBatch)
| Sleep (milliseconds : Z).

(** The Route53 client of the SDK: each call answers from the state of
    the provider, with a response or an exception, and moves that
    state. *)
Record Route53Client (S : Type) := {
  list_hosted_zones : S -> outcome (list HostedZone) * S;
  change_resource_record_sets : string -> ChangeBatch -> S -> outcome string * S
}.
Global Arguments list_hosted_zones {S} _ _.
Global Arguments change_resource_record_sets {S} _ _ _ _.

Record world (S : Type) := { provider : S; trace : list event }.
Global Arguments provider {S} _.
Global Arguments trace {S} _.
Global Arguments Build_world {S} _ _.

Section Uploader.
Context {S : Type}.
Variable self : Route53Client S.

Definition emit (e : event) : Py (world S) unit :=
  fun w => (Ok tt, {| provider := provider w; trace := trace w ++ [e] |}).

Definition print (m : msg) : Py (world S) unit := emit (Print m).

Definition call_list_hosted_zones : Py (world S) (list HostedZone) :=
  fun w =>
    let '(r, s) := list_hosted_zones self (provider w) in
    (r, {| provider := s; trace := trace w ++ [ListHostedZones] |}).

Definition call_change_resource_record_sets
    (HostedZoneId : string) (change_batch : ChangeBatch) : Py (world S) string :=
  fun w =>
    let '(r, s) := change_resource_record_sets self HostedZoneId change_batch (provider w) in
    (r, {| provider := s;
           trace := trace w ++ [ChangeResourceRecordSets HostedZoneId change_batch] |}).

(** *** Route53Uploader.get_hosted_zone_id *)

Definition zone_name_search (zone_name : string) : list string :=
  if endswith zone_name dot
  then [zone_name; drop_last zone_name]
  else [zone_name +:+ dot; zone_name].

(** [hosted_zone["Id"].split("/")[-1]] *)
Definition id_part (hosted_zone : HostedZone) : string :=
  last_item (split slash (hz_Id hosted_zone)).

(** [hosted_zone["Name"] in zone_name_search] *)
Definition exact_match (search : list string) (hosted_zone : HostedZone) : bool :=
  bool_decide (hz_Name hosted_zone ∈ search).

(** [any(name in hosted_zone["Name"] for name in zone_name_search)] *)
Definition broad_match (search : list string) (hosted_zone : HostedZone) : bool :=
  existsb (fun name => contains name (hz_Name hosted_zone)) search.

Definition caught_zone_error (e : exn) : bool :=
  match e with
  | ClientError _ | NoCredentialsError => true
  | _ => false
  end.

Definition get_hosted_zone_id (zone_name : string) : Py (world S) (option string) :=
  try_except
    (let search := zone_name_search zone_name in
     response ← call_list_hosted_zones;
     match List.find (exact_match search) response with
     | Some hosted_zone => ret (Some (id_part hosted_zone))
     | None =>
         match List.find (broad_match search) response with
         | Some hosted_zone => ret (Some (id_part hosted_zone))
         | None => ret None
         end
     end)
    caught_zone_error
    (fun e => print (MsgHostedZoneError e);; ret None).

(** *** Route53Uploader.create_change_batch *)

Definition create_change_batch
    (record_type record_name zone_name value : string) (ttl : Z) : ChangeBatch :=
  let fqdn :=
    if negb (endswith record_name zone_name)
    then record_name +:+ dot +:+ zone_name
    else record_name in
  let fqdn := if negb (endswith fqdn dot) then fqdn +:+ dot else fqdn in
  let records : list ResourceRecord := [] in
  let records :=
    if decide (record_type = "TXT")
    then records ++ [{| rr_Value := dquote +:+ value +:+ dquote |}]
    else records ++ [{| rr_Value := value |}] in
  {| cb_Changes :=
       [{| ch_Action := "UPSERT";
           ch_ResourceRecordSet :=
             {| rrs_Name := fqdn;
                rrs_Type := record_type;
                rrs_TTL := ttl;
                rrs_ResourceRecords := records |} |}] |}.

(** The values of the resource records of a batch, and the names of
    its record sets, in order. *)
Definition values (change_batch : ChangeBatch) : list string :=
  change ← cb_Changes change_batch;
  record ← rrs_ResourceRecords (ch_ResourceRecordSet change);
  [rr_Value record].

Definition names (change_batch : ChangeBatch) : list string :=
  (fun change => rrs_Name (ch_ResourceRecordSet change)) <$> cb_Changes change_batch.

(** *** Route53Uploader.upload_record *)

Definition caught_client_error (e : exn) : bool :=
  match e with
  | ClientError _ => true
  | _ => false
  end.

Definition upload_record
    (hosted_zone_id record_type record_name zone_name value : string) (ttl : Z)
  : Py (world S) bool :=
  try_except
    (let change_batch :=
       create_change_batch record_type record_name zone_name value ttl in
     change_id ← call_change_resource_record_sets hosted_zone_id change_batch;
     print (MsgSubmitted change_id);;
     ret true)
    caught_client_error
    (fun e => print (MsgUploadError record_name zone_name e);; ret false).

(** *** csv.DictReader *)

(** A file is the list of rows that [csv.reader] yields from it.
    [reader.fieldnames] is the first of them, if any. *)
Definition fieldnames (rows : list (list string)) : option (list string) :=
  head rows.

(** The dictionary of one data row: [dict(zip(fieldnames, row))], then
    [restval = None] under each field name the row is too short for.
    Items of the row beyond the field names go under the key [None],
    which the driver never reads, and are left out. *)
Definition dict_row (fieldnames row : list string) : gmap string (option string) :=
  foldl (fun d kv => <[kv.1 := kv.2]> d) ∅
    (zip fieldnames
       ((Some <$> row) ++ replicate (length fieldnames - length row) None)).

(** The rows [DictReader] yields: empty rows are passed over. *)
Definition dict_rows (rows : list (list string)) : list (gmap string (option string)) :=
  match rows with
  | [] => []
  | fieldnames :: data =>
      dict_row fieldnames <$> filter (fun row => row ≠ []) data
  end.

(** *** process_csv *)

Definition expected_header : gset string :=
  list_to_set ["env"; "zone"; "type"; "name"; "value"; "ttl"].

Definition supported_types : gset string :=
  list_to_set ["CNAME"; "TXT"; "A"; "AAAA"; "MX"; "NS"; "PTR"; "SRV"; "SOA"].

(** The local variables of [process_csv] that the loop updates. *)
Record locals := {
  successes : Z;
  failures : Z;
  skipped : Z;
  zone_id_cache : gmap string string
}.

(** The driver runs on the world and its local variables. *)
Abbreviation Driver := (Py (world S * locals)).

Definition lift {A} (m : Py (world S) A) : Driver A :=
  fun '(w, l) => let '(r, w') := m w in (r, (w', l)).

Definition get_locals : Driver locals := fun '(w, l) => (Ok l, (w, l)).

Definition modify (f : locals -> locals) : Driver unit :=
  fun '(w, l) => (Ok tt, (w, f l)).

Definition incr_successes (l : locals) : locals :=
  {| successes := successes l + 1; failures := failures l;
     skipped := skipped l; zone_id_cache := zone_id_cache l |}.
Definition incr_failures (l : locals) : locals :=
  {| successes := successes l; failures := failures l + 1;
     skipped := skipped l; zone_id_cache := zone_id_cache l |}.
Definition incr_skipped (l : locals) : locals :=
  {| successes := successes l; failures := failures l;
     skipped := skipped l + 1; zone_id_cache := zone_id_cache l |}.
Definition cache_zone (zone hosted_zone_id : string) (l : locals) : locals :=
  {| successes := successes l; failures := failures l;
     skipped := skipped l;
     zone_id_cache := <[zone := hosted_zone_id]> (zone_id_cache l) |}.

(** [row[key]] *)
Definition subscript (row : gmap string (option string)) (key : string)
  : Driver (option string) :=
  match row !! key with
  | Some v => ret v
  | None => raise KeyError
  end.

(** [v.strip()], where [v] may be [None] *)
Definition str_strip (v : option string) : Driver string :=
  match v with
  | Some s => ret (strip s)
  | None => raise AttributeError
  end.

(** [row[key].strip()] *)
Definition field (row : gmap string (option string)) (key : string) : Driver string :=
  v ← subscript row key; str_strip v.

(** [int(s)] *)
Definition py_int (s : string) : Driver Z :=
  match int s with
  | Some z => ret z
  | None => raise ValueError
  end.

(** [if hosted_zone_id:] *)
Definition truthy (hosted_zone_id : option string) : bool :=
  match hosted_zone_id with
  | Some s => negb (bool_decide (s = EmptyString))
  | None => false
  end.

Definition caught_row_error (e : exn) : bool :=
  match e with
  | KeyError | ValueError => true
  | _ => false
  end.

(** The body of the [for] loop, for one row. *)
Definition process_row (dry_run : bool) (row_num : Z)
    (row : gmap string (option string)) : Driver unit :=
  try_except
    (env ← field row "env";
     zone ← field row "zone";
     record_type ← upper <$> field row "type";
     name ← field row "name";
     value ← field row "value";
     ttl ← field row "ttl" ≫= py_int;
     lift (print (MsgProcessingRow row_num env zone record_type name value ttl));;
     if bool_decide (record_type ∉ supported_types) then
       lift (print (MsgSkipUnsupported record_type));;
       modify incr_skipped
     else
       l ← get_locals;
       hosted_zone_id ←
         match zone_id_cache l !! zone with
         | Some cached => ret (Some cached)
         | None =>
             hosted_zone_id ← lift (get_hosted_zone_id zone);
             match hosted_zone_id with
             | Some found =>
                 if truthy hosted_zone_id
                 then modify (cache_zone zone found);; ret hosted_zone_id
                 else ret hosted_zone_id
             | None => ret hosted_zone_id
             end
         end;
       match hosted_zone_id with
       | Some found =>
           if truthy hosted_zone_id then
             lift (print (MsgFoundZone found zone));;
             if dry_run then
               let change_batch :=
                 create_change_batch record_type name zone value ttl in
               lift (print MsgDryRunWouldApply);;
               lift (print (MsgJson change_batch));;
               modify incr_successes
             else
               result ← lift (upload_record found record_type name zone value ttl);
               (if result : bool then modify incr_successes
                else modify incr_failures);;
               lift (emit (Sleep 500))
           else
             lift (print (MsgZoneNotFound zone));;
             modify incr_failures
       | None =>
           lift (print (MsgZoneNotFound zone));;
           modify incr_failures
       end)
    caught_row_error
    (fun e => lift (print (MsgRowError row_num e));; modify incr_failures).

(** [for row_num, row in enumerate(reader, start=...)] *)
Fixpoint process_rows (dry_run : bool) (row_num : Z)
    (rows : list (gmap string (option string))) : Driver unit :=
  match rows with
  | [] => ret tt
  | row :: rest =>
      process_row dry_run row_num row;;
      process_rows dry_run (row_num + 1) rest
  end.

Definition initial_locals : locals :=
  {| successes := 0; failures := 0; skipped := 0; zone_id_cache := ∅ |}.

(** [not reader.fieldnames or set(reader.fieldnames) != {...}] *)
Definition bad_header (fieldnames : option (list string)) : bool :=
  match fieldnames with
  | None => true
  | Some [] => true
  | Some names =>
      bool_decide ((list_to_set names : gset string) ≠ expected_header)
  end.

(** The file system maps a path to the rows of the CSV file there. *)
Definition process_csv_driver (fs : gmap string (list (list string)))
    (csv_file : string) (dry_run : bool) : Driver unit :=
  match fs !! csv_file with
  | None =>
      lift (print (MsgFileNotFound csv_file));;
      sys_exit 1
  | Some rows =>
      if bad_header (fieldnames rows) then
        lift (print MsgBadHeader);;
        sys_exit 1
      else
        process_rows dry_run 2 (dict_rows rows);;
        l ← get_locals;
        lift (print (MsgSummary (successes l) (failures l) (skipped l)))
  end.

Definition process_csv (fs : gmap string (list (list string)))
    (csv_file : string) (dry_run : bool) : Py (world S) unit :=
  fun w =>
    let '(r, (w', _)) := process_csv_driver fs csv_file dry_run (w, initial_locals) in
    (r, w').

(** *** Observations on traces *)

(** The change batch that an event shows: the one printed in a dry
    run, or the one submitted to the provider. *)
Definition batches_of (e : event) : list ChangeBatch :=
  match e with
  | Print (MsgJson change_batch) => [change_batch]
  | ChangeResourceRecordSets _ change_batch => [change_batch]
  | _ => []
  end.

Definition batches (evs : list event) : list ChangeBatch := evs ≫= batches_of.

Definition no_batch (e : event) : Prop := batches_of e = [].

Definition types (change_batch : ChangeBatch) : list string :=
  (fun change => rrs_Type (ch_ResourceRecordSet change)) <$> cb_Changes change_batch.

Definition ttls (change_batch : ChangeBatch) : list Z :=
  (fun change => rrs_TTL (ch_ResourceRecordSet change)) <$> cb_Changes change_batch.

(** [change_batch] is the batch of the fields of [row], stripped, with
    the type in upper case and the TTL read by [int]. *)
Definition built_from (row : gmap string (option string))
    (change_batch : ChangeBatch) : Prop :=
  exists zone record_type name value ttl z,
    row !! "zone" = Some (Some zone) /\
    row !! "type" = Some (Some record_type) /\
    row !! "name" = Some (Some name) /\
    row !! "value" = Some (Some value) /\
    row !! "ttl" = Some (Some ttl) /\
    int (strip ttl) = Some z /\
    upper (strip record_type) ∈ supported_types /\
    change_batch =
      create_change_batch (upper (strip record_type)) (strip name) (strip zone)
        (strip value) z.

Definition driver_trace (wl : world S * locals) : list event := trace wl.1.

End Uploader.
(** *** The counters of the run *)

Definition tally (l : locals) : Z := successes l + failures l + skipped l.

Definition same_counts (l l' : locals) : Prop :=
  successes l' = successes l /\ failures l' = failures l /\ skipped l' = skipped l.

(** One of the three counters went up by one. *)
Definition one_more (l l' : locals) : Prop :=
  (successes l' = successes l + 1 /\ failures l' = failures l /\ skipped l' = skipped l)
  \/ (successes l' = successes l /\ failures l' = failures l + 1 /\ skipped l' = skipped l)
  \/ (successes l' = successes l /\ failures l' = failures l /\ skipped l' = skipped l + 1).

(** [m] leaves the counters as they are when it raises; when it returns it
    has counted one row if [counted], and none otherwise. *)
Definition counts {S A : Type} (counted : bool) (m : Py (world S * locals) A) : Prop :=
  forall w l,
    match (m (w, l)).1 with
    | Ok _ => if counted then one_more l (m (w, l)).2.2
              else same_counts l (m (w, l)).2.2
    | Raise _ => same_counts l (m (w, l)).2.2
    end.

(** A row that has a string under each of the six columns. *)
Definition complete (row : gmap string (option string)) : Prop :=
  forall key, key ∈ expected_header -> exists v, row !! key = Some (Some v).

(** The fields of a row that the driver builds a request from. *)
Definition valid (row : gmap string (option string)) : Prop :=
  complete row /\
  (exists ttl z, row !! "ttl" = Some (Some ttl) /\ int (strip ttl) = Some z) /\
  (exists record_type,
     row !! "type" = Some (Some record_type) /\
     upper (strip record_type) ∈ supported_types).

Definition is_provider_call (e : event) : Prop :=
  match e with
  | ListHostedZones | ChangeResourceRecordSets _ _ => True
  | _ => False
  end.

Definition is_print (e : event) : Prop :=
  match e with
  | Print _ => True
  | _ => False
  end.

(** The exceptions of the provider that the uploader catches. *)
Definition well_behaved {S : Type} (self : Route53Client S) : Prop :=
  (forall s e, (list_hosted_zones self s).1 = Raise e -> caught_zone_error e = true) /\
  (forall id b s e,
     (change_resource_record_sets self id b s).1 = Raise e ->
     caught_client_error e = true).

(** *** create_template and main *)

Inductive main_msg : Type :=
| SayRule
| SayTitle
| SayTemplateCreated (template_file : string)
| SayFillTemplate
| SayHelp
| SayNoCsvFile.

(** What [main] does besides [process_csv]: its own lines, and the file
    that [create_template] writes. *)
Inductive main_event : Type :=
| Core (e : event)
| Say (m : main_msg)
| WriteFile (path content : string).

Record shell (S : Type) := { sh_provider : S; sh_trace : list main_event }.
Global Arguments sh_provider {S} _.
Global Arguments sh_trace {S} _.
Global Arguments Build_shell {S} _ _.

(** The parsed command line. *)
Record Args := {
  a_csv_file : option string;
  a_dry_run : bool;
  a_create_template : bool
}.

Definition newline : string := String "010"%char EmptyString.

Definition template_file : string := "dns_records_template.csv".

(** The three [f.write] of [create_template], in order. *)
Definition template_content : string :=
  ("env,zone,type,name,value,ttl" +:+ newline)
  +:+ ("prod,example.com,CNAME,www,target.example.com,300" +:+ newline)
  +:+ ("prod,example.com,TXT,_verification,verification-code-here,300" +:+ newline).

Section Main.
Context {S : Type}.
Variable self : Route53Client S.

Definition say (m : main_msg) : Py (shell S) unit :=
  fun sh => (Ok tt, {| sh_provider := sh_provider sh;
                       sh_trace := sh_trace sh ++ [Say m] |}).

Definition write_file (path content : string) : Py (shell S) unit :=
  fun sh => (Ok tt, {| sh_provider := sh_provider sh;
                       sh_trace := sh_trace sh ++ [WriteFile path content] |}).

Definition create_template : Py (shell S) unit :=
  write_file template_file template_content;;
  say (SayTemplateCreated template_file);;
  say SayFillTemplate.

(** Runs a computation of the uploader from [main]: its events follow
    the ones of [main]. *)
Definition run {A} (m : Py (world S) A) : Py (shell S) A :=
  fun sh =>
    let '(r, w) := m {| provider := sh_provider sh; trace := [] |} in
    (r, {| sh_provider := provider w;
           sh_trace := sh_trace sh ++ (Core <$> trace w) |}).

Definition main (fs : gmap string (list (list string))) (args : Args)
  : Py (shell S) unit :=
  say SayRule;;
  say SayTitle;;
  say SayRule;;
  if a_create_template args then create_template
  else if negb (truthy (a_csv_file args)) then
    say SayHelp;;
    say SayNoCsvFile;;
    sys_exit 1
  else
    run (process_csv self fs (default EmptyString (a_csv_file args)) (a_dry_run args)).

End Main.

(** Events that are lines of [main] itself: no provider call, no file
    read or written. *)
Definition quiet (e : main_event) : Prop :=
  match e with
  | Say _ => True
  | _ => False
  end.

(** The three lines that [main] prints first. *)
Definition banner : list main_event := [Say SayRule; Say SayTitle; Say SayRule].

End DnsUpload.

(** ** reboot_ec2.py *)

Module RebootEc2.

(** *** Data *)

Record Filter := { f_Name : string; f_Values : list string }.

(** The arguments of [describe_instances], as the tool passes them.  An
    instance identifier is [None] when [main] passes on an unset
    [args.instance_id]. *)
Inductive DescribeRequest : Type :=
| Filters (filters : list Filter)
| InstanceIds (ids : list (option string)).

(** The response of [describe_instances]; a key read with [.get] may be
    absent. *)
Record InstanceState := { st_Name : option string }.
Record Instance := { i_InstanceId : string; i_State : option InstanceState }.
Record Reservation := { r_Instances : option (list Instance) }.
Record DescribeResponse := { d_Reservations : option (list Reservation) }.

(** [response.get("ResponseMetadata", {})] of [reboot_instances] *)
Record ResponseMetadata := {
  HTTPStatusCode : option Z;
  RequestId : option string
}.

Inductive msg : Type :=
| MsgNoInstances (name : string)
| MsgMultipleInstances (name : string)
| MsgListItem (instance_id : string)
| MsgSearchError (e : exn)
| MsgRebooting (instance_id : option string) (region : string)
| MsgNotFound (instance_id : option string)
| MsgCurrentState (instance_state : option string)
| MsgStateWarning (instance_state : option string)
| MsgDryRunWouldReboot (instance_id : option string)
| MsgInitiated (instance_id : option string)
| MsgApiRequestId (request_id : string)
| MsgCloudTrailIntro
| MsgCloudTrailOpen (region : string)
| MsgCloudTrailSelect
| MsgCloudTrailFilter
| MsgCloudTrailLook (request_id : string)
| MsgVerifying
| MsgPostState (post_state : option string)
| MsgNoteRunning
| MsgNoteInProgress
| MsgUnableToVerify (e : exn)
| MsgUnexpectedCode (status_code : option Z)
| MsgRebootError (instance_id : option string) (e : exn)
| MsgErrorCode (code : string)
| MsgWaiting (instance_id : option string)
| MsgWillCheck (delay timeout : Z)
| MsgInstanceOk (instance_id : option string)
| MsgWaitError (instance_id : option string) (e : exn)
| MsgRule
| MsgTitle
| MsgCompleted
| MsgHintVerbose.

Inductive event : Type :=
| Print (m : msg)
| DescribeInstances (request : DescribeRequest)
| RebootInstances (ids : list (option string)) (DryRun : bool)
| WaitInstanceStatusOk (ids : list (option string)) (Delay MaxAttempts : Z)
| Sleep (seconds : Z).

(** The EC2 client of the SDK. *)
Record EC2Client (S : Type) := {
  describe_instances : DescribeRequest -> S -> outcome DescribeResponse * S;
  reboot_instances : list (option string) -> bool -> S -> outcome ResponseMetadata * S;
  instance_status_ok_wait : list (option string) -> Z -> Z -> S -> outcome unit * S
}.
Global Arguments describe_instances {S} _ _ _.
Global Arguments reboot_instances {S} _ _ _ _.
Global Arguments instance_status_ok_wait {S} _ _ _ _ _.

Record world (S : Type) := { provider : S; trace : list event }.
Global Arguments provider {S} _.
Global Arguments trace {S} _.
Global Arguments Build_world {S} _ _.

(** The fields of an [EC2Rebooter]. *)
Record EC2Rebooter (S : Type) := {
  ec2 : EC2Client S;
  region : string;
  verbose : bool
}.
Global Arguments ec2 {S} _.
Global Arguments region {S} _.
Global Arguments verbose {S} _.

(** Truth value of an optional string: [None] and the empty string are
    false. *)
Definition truthy (v : option string) : bool :=
  match v with
  | Some s => negb (bool_decide (s = EmptyString))
  | None => false
  end.

(** [EC2Rebooter.__init__]: [region or boto3.Session().region_name or
    "us-west-2"]. *)
Definition init {S} (client : EC2Client S) (session_region : option string)
    (region : option string) (verbose : bool) : EC2Rebooter S :=
  {| ec2 := client;
     region :=
       match region with
       | Some r => if truthy region then r
                   else match session_region with
                        | Some sr => if truthy session_region then sr else "us-west-2"
                        | None => "us-west-2"
                        end
       | None => match session_region with
                 | Some sr => if truthy session_region then sr else "us-west-2"
                 | None => "us-west-2"
                 end
       end;
     verbose := verbose |}.

Section Rebooter.
Context {S : Type}.
Variable self : EC2Rebooter S.

Definition emit (e : event) : Py (world S) unit :=
  fun w => (Ok tt, {| provider := provider w; trace := trace w ++ [e] |}).

Definition print (m : msg) : Py (world S) unit := emit (Print m).

Definition sleep (seconds : Z) : Py (world S) unit := emit (Sleep seconds).

Definition call_describe_instances (request : DescribeRequest)
  : Py (world S) DescribeResponse :=
  fun w =>
    let '(r, s) := describe_instances (ec2 self) request (provider w) in
    (r, {| provider := s; trace := trace w ++ [DescribeInstances request] |}).

Definition call_reboot_instances (ids : list (option string)) (DryRun : bool)
  : Py (world S) ResponseMetadata :=
  fun w =>
    let '(r, s) := reboot_instances (ec2 self) ids DryRun (provider w) in
    (r, {| provider := s; trace := trace w ++ [RebootInstances ids DryRun] |}).

Definition call_waiter_wait (ids : list (option string)) (Delay MaxAttempts : Z)
  : Py (world S) unit :=
  fun w =>
    let '(r, s) := instance_status_ok_wait (ec2 self) ids Delay MaxAttempts (provider w) in
    (r, {| provider := s;
           trace := trace w ++ [WaitInstanceStatusOk ids Delay MaxAttempts] |}).

Definition caught_client_error (e : exn) : bool :=
  match e with
  | ClientError _ => true
  | _ => false
  end.

(** *** EC2Rebooter.get_instance_by_name *)

Definition name_filters (name : string) : list Filter :=
  [ {| f_Name := "tag:Name"; f_Values := [name] |};
    {| f_Name := "instance-state-name";
       f_Values := ["pending"; "running"; "stopping"; "stopped"] |} ].

(** The two nested loops that collect [instance["InstanceId"]]. *)
Definition instance_ids (response : DescribeResponse) : list string :=
  reservation ← default [] (d_Reservations response);
  instance ← default [] (r_Instances reservation);
  [i_InstanceId instance].

(** [for instance_id in instances: print(...)] *)
Fixpoint print_each (instances : list string) : Py (world S) unit :=
  match instances with
  | [] => ret tt
  | instance_id :: rest => print (MsgListItem instance_id);; print_each rest
  end.

Definition get_instance_by_name (name : string) : Py (world S) (option string) :=
  try_except
    (response ← call_describe_instances (Filters (name_filters name));
     let instances := instance_ids response in
     match instances with
     | [] => print (MsgNoInstances name);; ret None
     | first :: others =>
         if (1 <? length instances)%nat then
           print (MsgMultipleInstances name);;
           print_each instances;;
           ret None
         else ret (Some first)
     end)
    caught_client_error
    (fun e => print (MsgSearchError e);; ret None).

(** *** EC2Rebooter.reboot_instance *)

(** [response["Reservations"][0]["Instances"][0]], when
    [response.get("Reservations")] and
    [response["Reservations"][0].get("Instances")] are both true. *)
Definition first_instance (response : DescribeResponse) : option Instance :=
  match d_Reservations response with
  | Some (reservation :: _) =>
      match r_Instances reservation with
      | Some (instance :: _) => Some instance
      | _ => None
      end
  | _ => None
  end.

(** [instance.get("State", {}).get("Name")] *)
Definition state_name (instance : Instance) : option string :=
  match i_State instance with
  | Some state => st_Name state
  | None => None
  end.

(** [instance_state not in ["running", "stopping", "stopped"]] *)
Definition unexpected_state (instance_state : option string) : bool :=
  match instance_state with
  | Some s => bool_decide (s ∉ ["running"; "stopping"; "stopped"])
  | None => true
  end.

(** [except Exception]: everything but [SystemExit]. *)
Definition caught_exception (e : exn) : bool :=
  match e with
  | SystemExit _ => false
  | _ => true
  end.

(** The inner [try] of [reboot_instance]: the state after the reboot
    request. *)
Definition post_check (instance_id : option string) (instance_state : option string)
  : Py (world S) unit :=
  try_except
    (post_response ← call_describe_instances (InstanceIds [instance_id]);
     match first_instance post_response with
     | Some instance =>
         let post_state := state_name instance in
         print (MsgPostState post_state);;
         if bool_decide (post_state = Some "running")
            && bool_decide (instance_state = Some "running")
         then print MsgNoteRunning;; print MsgNoteInProgress
         else ret tt
     | None => ret tt
     end)
    caught_exception
    (fun e => print (MsgUnableToVerify e)).

Definition reboot_instance (instance_id : option string) (dry_run : bool)
  : Py (world S) bool :=
  try_except
    (print (MsgRebooting instance_id (region self));;
     describe_response ← call_describe_instances (InstanceIds [instance_id]);
     match first_instance describe_response with
     | None => print (MsgNotFound instance_id);; ret false
     | Some instance =>
         let instance_state := state_name instance in
         print (MsgCurrentState instance_state);;
         (if unexpected_state instance_state
          then print (MsgStateWarning instance_state)
          else ret tt);;
         response ← call_reboot_instances [instance_id] dry_run;
         let status_code := HTTPStatusCode response in
         let request_id := default "Unknown" (RequestId response) in
         if dry_run then
           print (MsgDryRunWouldReboot instance_id);;
           ret true
         else if bool_decide (status_code = Some 200) then
           print (MsgInitiated instance_id);;
           (if verbose self then
              print (MsgApiRequestId request_id);;
              print MsgCloudTrailIntro;;
              print (MsgCloudTrailOpen (region self));;
              print MsgCloudTrailSelect;;
              print MsgCloudTrailFilter;;
              print (MsgCloudTrailLook request_id)
            else ret tt);;
           print MsgVerifying;;
           sleep 5;;
           post_check instance_id instance_state;;
           ret true
         else
           print (MsgUnexpectedCode status_code);;
           ret false
     end)
    caught_client_error
    (fun e =>
       match e with
       | ClientError code =>
           if bool_decide (code = "DryRunOperation") then
             print (MsgDryRunWouldReboot instance_id);;
             ret true
           else
             print (MsgRebootError instance_id e);;
             print (MsgErrorCode code);;
             ret false
       | _ => raise e
       end).

(** *** EC2Rebooter.wait_for_instance_ok *)

Definition caught_waiter_error (e : exn) : bool :=
  match e with
  | WaiterError => true
  | _ => false
  end.

Definition wait_for_instance_ok (instance_id : option string) (timeout : Z)
  : Py (world S) bool :=
  try_except
    (let attempts := timeout `div` 15 in
     let delay := 15 in
     print (MsgWaiting instance_id);;
     print (MsgWillCheck delay timeout);;
     call_waiter_wait [instance_id] delay attempts;;
     print (MsgInstanceOk instance_id);;
     ret true)
    caught_waiter_error
    (fun e => print (MsgWaitError instance_id e);; ret false).

End Rebooter.

(** *** main *)

(** The parsed command line. *)
Record Args := {
  a_instance_id : option string;
  a_name : option string;
  a_region : string;
  a_profile : option string;
  a_wait : bool;
  a_timeout : Z;
  a_dry_run : bool;
  a_verbose : bool
}.

(** [client] is the client that [session.client("ec2", ...)] returns and
    [session_region] the region name of the default session. *)
Definition main {S} (client : EC2Client S) (session_region : option string)
    (args : Args) : Py (world S) unit :=
  let rebooter := init client session_region (Some (a_region args)) (a_verbose args) in
  print MsgRule;;
  print MsgTitle;;
  print MsgRule;;
  instance_id ←
    (if truthy (a_name args) then
       instance_id ← get_instance_by_name rebooter (default EmptyString (a_name args));
       if negb (truthy instance_id) then sys_exit 1 else ret instance_id
     else ret (a_instance_id args));
  result ← reboot_instance rebooter instance_id (a_dry_run args);
  (if negb result then sys_exit 1 else ret tt);;
  (if a_wait args && negb (a_dry_run args) then
     wait_result ← wait_for_instance_ok rebooter instance_id (a_timeout args);
     if negb wait_result then sys_exit 1 else ret tt
   else ret tt);;
  print MsgCompleted;;
  if negb (a_dry_run args) && negb (a_verbose args)
  then print MsgHintVerbose
  else ret tt.

(** *** Observations on traces *)

(** Events that only observe: a print or a describe call. *)
Definition plain (e : event) : Prop :=
  match e with
  | Print _ | DescribeInstances _ => True
  | _ => False
  end.

Definition is_reboot (e : event) : Prop :=
  match e with
  | RebootInstances _ _ => True
  | _ => False
  end.


(** The world after the three lines that [main] prints first. *)
Definition after_banner {S} (w : world S) : world S :=
  ((print MsgRule;; print MsgTitle;; print MsgRule) w).2.

Definition is_wait (e : event) : Prop :=
  match e with
  | WaitInstanceStatusOk _ _ _ => True
  | _ => False
  end.

Definition is_print (e : event) : Prop :=
  match e with
  | Print _ => True
  | _ => False
  end.

(** A provider whose describe and reboot calls raise only [ClientError]
    and whose waiter raises only [WaiterError]. *)
Definition well_behaved {S : Type} (client : EC2Client S) : Prop :=
  (forall request s e,
     (describe_instances client request s).1 = Raise e -> exists code, e = ClientError code) /\
  (forall ids dry s e,
     (reboot_instances client ids dry s).1 = Raise e -> exists code, e = ClientError code) /\
  (forall ids delay attempts s e,
     (instance_status_ok_wait client ids delay attempts s).1 = Raise e -> e = WaiterError).


(** The events of [reboot_instance] before its reboot call, when the
    describe call has found [instance]. *)
Definition pre_check_events {S} (self : EC2Rebooter S) (instance_id : option string)
    (instance : Instance) : list event :=
  [Print (MsgRebooting instance_id (region self));
   DescribeInstances (InstanceIds [instance_id]);
   Print (MsgCurrentState (state_name instance))]
  ++ (if unexpected_state (state_name instance)
      then [Print (MsgStateWarning (state_name instance))] else []).

(** The lines between the reboot call and the pause, when the call was
    answered with status 200. *)
Definition initiated_msgs {S} (self : EC2Rebooter S) (instance_id : option string)
    (response : ResponseMetadata) : list msg :=
  let request_id := default "Unknown" (RequestId response) in
  [MsgInitiated instance_id]
  ++ (if verbose self then
        [MsgApiRequestId request_id; MsgCloudTrailIntro;
         MsgCloudTrailOpen (region self); MsgCloudTrailSelect;
         MsgCloudTrailFilter; MsgCloudTrailLook request_id]
      else [])
  ++ [MsgVerifying].

(** The shape of the requests that [main] may send for [args]. *)
Definition expected_request (args : Args) (e : event) : Prop :=
  match e with
  | Print _ => True
  | DescribeInstances (Filters filters) =>
      exists name, a_name args = Some name /\ filters = name_filters name
  | DescribeInstances (InstanceIds ids) => length ids = 1%nat
  | RebootInstances ids dry => length ids = 1%nat /\ dry = a_dry_run args
  | WaitInstanceStatusOk ids delay attempts =>
      length ids = 1%nat /\ a_wait args = true /\ a_dry_run args = false /\
      delay = 15 /\ attempts * 15 <= a_timeout args < attempts * 15 + 15
  | Sleep seconds => seconds = 5 /\ a_dry_run args = false
  end.

End RebootEc2.

(** ** Concrete inputs *)

Module Examples.

Module Dns.
Import DnsUpload.

(** A provider that always lists [zones] and accepts every change. *)
Definition static_client (zones : list HostedZone) : Route53Client unit :=
  {| list_hosted_zones := fun s => (Ok zones, s);
     change_resource_record_sets := fun _ _ s => (Ok "C123", s) |}.

Definition w0 : world unit := {| provider := tt; trace := [] |}.

Definition w0l : world unit * locals := (w0, initial_locals).

Definition example_zone : HostedZone :=
  {| hz_Name := "example.com."; hz_Id := "/hostedzone/Z1" |}.

Definition header : list string := ["env"; "zone"; "type"; "name"; "value"; "ttl"].

(** A row whose ttl reads as a negative integer. *)
Definition fs_negative_ttl : gmap string (list (list string)) :=
  {[ "records.csv" :=
       [header; ["prod"; "example.com"; "TXT"; "_verification"; "code"; "-5"]] ]}.

(** A header without the [ttl] column. *)
Definition bad_rows : list (list string) :=
  [["env"; "zone"; "type"; "name"; "value"];
   ["prod"; "example.com"; "CNAME"; "www"; "target.example.com"]].

Definition fs_bad_header : gmap string (list (list string)) :=
  {[ "records.csv" := bad_rows ]}.

(** A data row that lacks its last field, before a complete row. *)
Definition fs_short_row : gmap string (list (list string)) :=
  {[ "records.csv" :=
       [header;
        ["prod"; "example.com"; "CNAME"; "www"; "target.example.com"];
        ["prod"; "example.com"; "CNAME"; "www"; "target.example.com"; "300"]] ]}.

(** The first record of the template, and a record of an unknown type. *)
Definition fs_template : gmap string (list (list string)) :=
  {[ "records.csv" :=
       [header;
        ["prod"; "example.com"; "CNAME"; "www"; "target.example.com"; "300"];
        ["prod"; "example.com"; "BOGUS"; "www"; "target.example.com"; "300"]] ]}.

(** The row of the template, with its type in lower case. *)
Definition example_row : gmap string (option string) :=
  dict_row header ["prod"; "example.com"; "cname"; "www"; "target.example.com"; "300"].

(** A row whose ttl is not a number. *)
Definition unparsed_row : gmap string (option string) :=
  dict_row header ["prod"; "example.com"; "A"; "www"; "192.0.2.1"; "soon"].
(** A provider that refuses every call. *)
Definition denied_client : Route53Client unit :=
  {| list_hosted_zones := fun s => (Raise (ClientError "AccessDenied"), s);
     change_resource_record_sets := fun _ _ s => (Raise (ClientError "AccessDenied"), s) |}.

(** The template file, as the rows of its three lines. *)
Definition fs_two_rows : gmap string (list (list string)) :=
  {[ "records.csv" :=
       [header;
        ["prod"; "example.com"; "CNAME"; "www"; "target.example.com"; "300"];
        ["prod"; "example.com"; "TXT"; "_verification"; "verification-code-here"; "300"]] ]}.

Definition s0 : shell unit := {| sh_provider := tt; sh_trace := [] |}.

(** Locals in which the zone of the examples is cached. *)
Definition cached_locals : locals :=
  {| successes := 0; failures := 0; skipped := 0;
     zone_id_cache := {[ "example.com" := "Z1" ]} |}.

(** A provider that lists [zones] and has no credentials for a change. *)
Definition no_credentials_client (zones : list HostedZone) : Route53Client unit :=
  {| list_hosted_zones := fun s => (Ok zones, s);
     change_resource_record_sets := fun _ _ s => (Raise NoCredentialsError, s) |}.

Definition short_row : list string :=
  ["prod"; "example.com"; "CNAME"; "www"; "target.example.com"].

Definition full_row : list string :=
  ["prod"; "example.com"; "CNAME"; "www"; "target.example.com"; "300"].

Definition args_template : Args :=
  {| a_csv_file := Some "records.csv"; a_dry_run := false; a_create_template := true |}.

Definition args_upload (dry_run : bool) : Args :=
  {| a_csv_file := Some "records.csv"; a_dry_run := dry_run;
     a_create_template := false |}.

Definition args_nothing : Args :=
  {| a_csv_file := None; a_dry_run := false; a_create_template := false |}.

End Dns.

Module Ec2.
Import RebootEc2.

(** A provider in which every describe call finds [instances], and
    every reboot and wait succeeds. *)
Definition static_ec2 (instances : list Instance) : EC2Client unit :=
  {| describe_instances := fun _ s =>
       (Ok {| d_Reservations := Some [{| r_Instances := Some instances |}] |}, s);
     reboot_instances := fun _ _ s =>
       (Ok {| HTTPStatusCode := Some 200; RequestId := Some "req-1" |}, s);
     instance_status_ok_wait := fun _ _ _ s => (Ok tt, s) |}.

Definition running (instance_id : string) : Instance :=
  {| i_InstanceId := instance_id;
     i_State := Some {| st_Name := Some "running" |} |}.

Definition e0 : world unit := {| provider := tt; trace := [] |}.

Definition args_by_name (name : string) (dry_run : bool) : Args :=
  {| a_instance_id := None; a_name := Some name; a_region := "us-west-2";
     a_profile := None; a_wait := true; a_timeout := 600;
     a_dry_run := dry_run; a_verbose := false |}.


(** A provider that finds [instances] and answers a reboot call with
    [status]. *)
Definition answering_ec2 (instances : list Instance) (status : option Z)
  : EC2Client unit :=
  {| describe_instances := fun _ s =>
       (Ok {| d_Reservations := Some [{| r_Instances := Some instances |}] |}, s);
     reboot_instances := fun _ _ s =>
       (Ok {| HTTPStatusCode := status; RequestId := None |}, s);
     instance_status_ok_wait := fun _ _ _ s => (Ok tt, s) |}.

(** A provider that finds [instances] and refuses a reboot call with
    [code]. *)
Definition refusing_ec2 (instances : list Instance) (code : string) : EC2Client unit :=
  {| describe_instances := fun _ s =>
       (Ok {| d_Reservations := Some [{| r_Instances := Some instances |}] |}, s);
     reboot_instances := fun _ _ s => (Raise (ClientError code), s);
     instance_status_ok_wait := fun _ _ _ s => (Ok tt, s) |}.

Definition found (instances : list Instance) : DescribeResponse :=
  {| d_Reservations := Some [{| r_Instances := Some instances |}] |}.

End Ec2.

End Examples.

(** * Properties *)

(** ** Python strings *)

Module PyStrFacts.
Import PyStr.
Local Arguments String.append !_ _ / : simpl nomatch.

Lemma startswith_spec (s p : string) :
  startswith s p = true <-> exists r, s = p +:+ r.
Proof.
  revert s. induction p as [|b p IH]; intros s; simpl.
  - split; [intros _; exists s; reflexivity | done].
  - destruct s as [|a s].
    + split; [done | intros [r Hr]; discriminate].
    + destruct (decide (a = b)) as [->|Hne].
      * rewrite IH. split; intros [r Hr]; exists r; [by rewrite Hr | by injection Hr].
      * split; [done | intros [r Hr]; injection Hr; intros; congruence].
Qed.

(** [endswith] decides the suffix relation. *)
Lemma endswith_spec (s suf : string) :
  endswith s suf = true <-> is_suffix suf s.
Proof.
  unfold is_suffix. induction s as [|a s IH]; simpl.
  - destruct (decide (EmptyString = suf)) as [<-|Hne].
    + split; [intros _; exists EmptyString; reflexivity | done].
    + split; [done |]. intros [[|b p] Hp]; simpl in Hp; [done | discriminate].
  - destruct (decide (String a s = suf)) as [<-|Hne].
    + split; [intros _; exists EmptyString; reflexivity | done].
    + rewrite IH. split.
      * intros [p ->]. exists (String a p). reflexivity.
      * intros [[|b p] Hp]; simpl in Hp; [done |].
        injection Hp as _ ->. by exists p.
Qed.

Lemma endswith_false (s suf : string) :
  endswith s suf = false <-> ~ is_suffix suf s.
Proof.
  rewrite <- endswith_spec. destruct (endswith s suf); split; done.
Qed.

(** [contains] decides the occurrence of a substring. *)
Lemma contains_spec (sub s : string) :
  contains sub s = true <-> occurs_in sub s.
Proof.
  unfold occurs_in. induction s as [|a s IH]; simpl.
  - destruct (startswith EmptyString sub) eqn:Hst.
    + apply startswith_spec in Hst as [r Hr].
      split; [intros _; exists EmptyString, r; exact Hr | done].
    + split; [done |]. intros [[|c x] [b Hb]]; simpl in Hb; [|discriminate].
      assert (startswith EmptyString sub = true) as Hst'
        by (apply startswith_spec; eauto).
      congruence.
  - destruct (startswith (String a s) sub) eqn:Hst.
    + apply startswith_spec in Hst as [r Hr].
      split; [intros _; exists EmptyString, r; exact Hr | done].
    + rewrite IH. split.
      * intros (x & b & ->). exists (String a x), b. reflexivity.
      * intros ([|c x] & b & Hb); simpl in Hb.
        -- assert (startswith (String a s) sub = true) as Hst'
             by (apply startswith_spec; eauto).
           congruence.
        -- injection Hb as _ ->. by exists x, b.
Qed.

Lemma drop_last_snoc (p : string) (a : ascii) :
  drop_last (p +:+ String a EmptyString) = p.
Proof.
  induction p as [|b p IH]; [reflexivity |].
  simpl. rewrite IH. by destruct p.
Qed.

Lemma upper_char_idempotent (a : ascii) : upper_char (upper_char a) = upper_char a.
Proof. destruct a as [[] [] [] [] [] [] [] []]; reflexivity. Qed.

Lemma isspace_upper_char (a : ascii) : isspace (upper_char a) = isspace a.
Proof. destruct a as [[] [] [] [] [] [] [] []]; reflexivity. Qed.

Lemma upper_idempotent (s : string) : upper (upper s) = upper s.
Proof.
  induction s as [|a s IH]; simpl; [reflexivity |].
  by rewrite upper_char_idempotent, IH.
Qed.

Lemma lstrip_upper (s : string) : lstrip (upper s) = upper (lstrip s).
Proof.
  induction s as [|a s IH]; simpl; [reflexivity |].
  rewrite isspace_upper_char. by destruct (isspace a).
Qed.

Lemma rstrip_upper (s : string) : rstrip (upper s) = upper (rstrip s).
Proof.
  induction s as [|a s IH]; simpl; [reflexivity |].
  rewrite IH. destruct (rstrip s); simpl; [|reflexivity].
  rewrite isspace_upper_char. by destruct (isspace a).
Qed.

(** Stripping and upper-casing commute. *)
Lemma strip_upper (s : string) : strip (upper s) = upper (strip s).
Proof. unfold strip. by rewrite lstrip_upper, rstrip_upper. Qed.

End PyStrFacts.

(** ** The monad and the traces *)

Module MonadFacts.

Lemma bind_ret_l {W A B} (a : A) (k : A -> Py W B) : (ret a ≫= k) = k a.
Proof. reflexivity. Qed.

Lemma bind_raise_l {W A B} (e : exn) (k : A -> Py W B) : (raise e ≫= k) = raise e.
Proof. reflexivity. Qed.

Lemma fmap_ret {W A B} (f : A -> B) (a : A) : f <$> (@ret W A a) = ret (f a).
Proof. reflexivity. Qed.

Lemma fmap_raise {W A B} (f : A -> B) (e : exn) : f <$> (@raise W A e) = raise e.
Proof. reflexivity. Qed.

Section Logic.
Context {W E : Type} (tr : W -> list E) (P : E -> Prop).

Lemma only_ret {A} (a : A) : only tr P (ret a).
Proof. intros w. exists []. by rewrite app_nil_r. Qed.

Lemma only_raise {A} (e : exn) : only tr P (@raise W A e).
Proof. intros w. exists []. by rewrite app_nil_r. Qed.

Lemma only_bind {A B} (m : Py W A) (k : A -> Py W B) :
  only tr P m -> (forall a, only tr P (k a)) -> only tr P (m ≫= k).
Proof.
  intros Hm Hk w. unfold mbind, Py_bind, bind.
  destruct (Hm w) as (evs1 & Htr1 & HP1).
  destruct (m w) as [[a|e] w1]; simpl in *.
  - destruct (Hk a w1) as (evs2 & Htr2 & HP2).
    exists (evs1 ++ evs2). rewrite Htr2, Htr1, app_assoc.
    split; [done | by apply Forall_app].
  - by exists evs1.
Qed.

Lemma only_try_except {A} (m : Py W A) (caught : exn -> bool) (h : exn -> Py W A) :
  only tr P m -> (forall e, only tr P (h e)) -> only tr P (try_except m caught h).
Proof.
  intros Hm Hh w. unfold try_except.
  destruct (Hm w) as (evs1 & Htr1 & HP1).
  destruct (m w) as [[a|e] w1]; simpl in *.
  - by exists evs1.
  - destruct (caught e); simpl; [|by exists evs1].
    destruct (Hh e w1) as (evs2 & Htr2 & HP2).
    exists (evs1 ++ evs2). rewrite Htr2, Htr1, app_assoc.
    split; [done | by apply Forall_app].
Qed.

Lemma only_if {A} (b : bool) (m1 m2 : Py W A) :
  only tr P m1 -> only tr P m2 -> only tr P (if b then m1 else m2).
Proof. by destruct b. Qed.
End Logic.

End MonadFacts.

Module ListFacts.

(** [find] returns the first element that satisfies the test. *)
Lemma find_first {A} (f : A -> bool) (l : list A) (x : A) :
  List.find f l = Some x ->
  exists before after,
    l = before ++ x :: after /\ f x = true /\ forall y, y ∈ before -> f y = false.
Proof.
  induction l as [|a l IH]; simpl; [done |].
  destruct (f a) eqn:Hfa.
  - intros [= ->]. exists [], l. repeat split; [done |].
    intros y Hy. by apply not_elem_of_nil in Hy.
  - intros (before & after & -> & Hx & Hbefore)%IH.
    exists (a :: before), after. repeat split; [done |].
    intros y [->|Hy]%elem_of_cons; auto.
Qed.

Lemma find_nothing {A} (f : A -> bool) (l : list A) :
  List.find f l = None -> forall y, y ∈ l -> f y = false.
Proof.
  intros H y Hy. apply list_elem_of_In in Hy. by apply (find_none f l).
Qed.

End ListFacts.

(** ** The change-batch builder *)

Module Builder.
Import PyStr PyStrFacts DnsUpload.

(** C2.  For every input of [create_change_batch], when the record type
    is TXT the batch holds one resource-record value, the input value
    between two double-quote characters; for every other record type it
    holds one value, the input value unchanged. *)
Theorem create_change_batch_value
    (record_type record_name zone_name value : string) (ttl : Z) :
  (record_type = "TXT" ->
   values (create_change_batch record_type record_name zone_name value ttl)
     = [dquote +:+ value +:+ dquote]) /\
  (record_type <> "TXT" ->
   values (create_change_batch record_type record_name zone_name value ttl)
     = [value]).
Proof.
  unfold create_change_batch, values. split; intros Hty.
  - rewrite decide_True by exact Hty. reflexivity.
  - rewrite decide_False by exact Hty. reflexivity.
Qed.

Lemma create_change_batch_value_witness :
  values (create_change_batch "TXT" "_verification" "example.com" "code" 300)
    = [dquote +:+ "code" +:+ dquote] /\
  values (create_change_batch "CNAME" "www" "example.com" "target.example.com" 300)
    = ["target.example.com"].
Proof.
  split.
  - apply (proj1 (create_change_batch_value
                    "TXT" "_verification" "example.com" "code" 300)).
    reflexivity.
  - apply (proj2 (create_change_batch_value
                    "CNAME" "www" "example.com" "target.example.com" 300)).
    discriminate.
Defined.

(** C3.  For every record name and zone name, the Name of the batch of
    [create_change_batch] comes from a name [fqdn] that is the record
    name, a dot and the zone name when the zone name is not a suffix of
    the record name, and the record name itself when it is; the Name is
    [fqdn] with a dot appended when [fqdn] does not end with a dot, and
    [fqdn] itself when it does; so the Name always ends with a dot. *)
Theorem create_change_batch_name
    (record_type record_name zone_name value : string) (ttl : Z) :
  exists fqdn,
    (~ is_suffix zone_name record_name -> fqdn = record_name +:+ dot +:+ zone_name) /\
    (is_suffix zone_name record_name -> fqdn = record_name) /\
    (~ is_suffix dot fqdn ->
     names (create_change_batch record_type record_name zone_name value ttl)
       = [fqdn +:+ dot]) /\
    (is_suffix dot fqdn ->
     names (create_change_batch record_type record_name zone_name value ttl)
       = [fqdn]) /\
    (forall name,
       name ∈ names (create_change_batch record_type record_name zone_name value ttl) ->
       is_suffix dot name).
Proof.
  unfold create_change_batch, names.
  set (fqdn := if negb (endswith record_name zone_name)
               then record_name +:+ dot +:+ zone_name else record_name).
  exists fqdn. simpl.
  repeat split.
  - intros H%endswith_false. subst fqdn. by rewrite H.
  - intros H%endswith_spec. subst fqdn. by rewrite H.
  - intros H%endswith_false. by rewrite H.
  - intros H%endswith_spec. by rewrite H.
  - intros name ->%list_elem_of_singleton.
    destruct (endswith fqdn dot) eqn:He; simpl.
    + by apply endswith_spec.
    + by exists fqdn.
Qed.

Lemma create_change_batch_name_witness :
  names (create_change_batch "CNAME" "www" "example.com" "target.example.com" 300)
    = ["www.example.com."] /\
  names (create_change_batch "CNAME" "www.example.com" "example.com"
           "target.example.com" 300)
    = ["www.example.com."].
Proof.
  split.
  - destruct (create_change_batch_name
                "CNAME" "www" "example.com" "target.example.com" 300)
      as (fqdn & Hjoin & _ & Hdot & _).
    rewrite Hdot; rewrite Hjoin; try reflexivity.
    + by apply endswith_false.
    + by apply endswith_false.
    + by apply endswith_false.
  - destruct (create_change_batch_name
                "CNAME" "www.example.com" "example.com" "target.example.com" 300)
      as (fqdn & _ & Hsame & Hdot & _).
    rewrite Hdot; rewrite Hsame; try reflexivity.
    + by apply endswith_spec.
    + by apply endswith_false.
    + by apply endswith_spec.
Defined.

(** C4.  For every input, the batch of [create_change_batch] holds one
    change, whose action is UPSERT and whose record set holds one
    resource record; and equal inputs give equal batches. *)
Theorem create_change_batch_single_upsert
    (record_type record_name zone_name value : string) (ttl : Z) :
  (exists change record,
     cb_Changes (create_change_batch record_type record_name zone_name value ttl)
       = [change] /\
     ch_Action change = "UPSERT" /\
     rrs_ResourceRecords (ch_ResourceRecordSet change) = [record]) /\
  (forall record_type' record_name' zone_name' value' ttl',
     record_type = record_type' -> record_name = record_name' ->
     zone_name = zone_name' -> value = value' -> ttl = ttl' ->
     create_change_batch record_type record_name zone_name value ttl
       = create_change_batch record_type' record_name' zone_name' value' ttl').
Proof.
  split.
  - unfold create_change_batch. destruct (decide (record_type = "TXT")); eauto.
  - by intros ? ? ? ? ? -> -> -> -> ->.
Qed.

Lemma create_change_batch_single_upsert_witness :
  (exists change record,
     cb_Changes (create_change_batch "A" "www" "example.com" "192.0.2.1" 60)
       = [change] /\
     ch_Action change = "UPSERT" /\
     rrs_ResourceRecords (ch_ResourceRecordSet change) = [record]) /\
  create_change_batch "A" "www" "example.com" "192.0.2.1" 60
    = create_change_batch "A" "www" "example.com" "192.0.2.1" (30 + 30).
Proof.
  split.
  - apply (proj1 (create_change_batch_single_upsert
                    "A" "www" "example.com" "192.0.2.1" 60)).
  - apply (proj2 (create_change_batch_single_upsert
                    "A" "www" "example.com" "192.0.2.1" 60));
      reflexivity.
Defined.

End Builder.

(** ** The zone resolver *)

Module ZoneResolver.
Import PyStr PyStrFacts DnsUpload ListFacts.

(** The two candidates are a name with its trailing dot and the same
    name without it, and the zone name is one of them. *)
Lemma zone_name_search_forms (zone_name : string) :
  exists base,
    (zone_name = base \/ zone_name = base +:+ dot) /\
    forall c, c ∈ zone_name_search zone_name <-> c = base +:+ dot \/ c = base.
Proof.
  unfold zone_name_search. destruct (endswith zone_name dot) eqn:He.
  - apply endswith_spec in He as [base ->]. exists base. split; [by right |].
    intros c. unfold dot. rewrite drop_last_snoc.
    by rewrite elem_of_cons, list_elem_of_singleton.
  - exists zone_name. split; [by left |]. intros c.
    by rewrite elem_of_cons, list_elem_of_singleton.
Qed.

Lemma exact_match_spec (search : list string) (hz : HostedZone) :
  exact_match search hz = true <-> hz_Name hz ∈ search.
Proof. unfold exact_match. by rewrite bool_decide_eq_true. Qed.

Lemma exact_match_false (search : list string) (hz : HostedZone) :
  exact_match search hz = false <-> hz_Name hz ∉ search.
Proof. unfold exact_match. by rewrite bool_decide_eq_false. Qed.

Lemma broad_match_spec (search : list string) (hz : HostedZone) :
  broad_match search hz = true <->
  exists c, c ∈ search /\ occurs_in c (hz_Name hz).
Proof.
  unfold broad_match. rewrite existsb_exists. split.
  - intros (c & Hin & Hc). exists c. split; [by apply list_elem_of_In |].
    by apply contains_spec.
  - intros (c & Hin & Hc). exists c. split; [by apply list_elem_of_In |].
    by apply contains_spec.
Qed.

Lemma broad_match_false (search : list string) (hz : HostedZone) :
  broad_match search hz = false <->
  forall c, c ∈ search -> ~ occurs_in c (hz_Name hz).
Proof.
  rewrite <- not_true_iff_false, broad_match_spec. split.
  - intros H c Hc Ho. apply H. eauto.
  - intros H (c & Hc & Ho). by apply (H c).
Qed.

Section Client.
Context {S : Type}.
Variable self : Route53Client S.

(** The run of the resolver when the listing call answers [zones]. *)
Lemma get_hosted_zone_id_listed (zone_name : string) (w : world S)
    (zones : list HostedZone) (s' : S) :
  list_hosted_zones self (provider w) = (Ok zones, s') ->
  get_hosted_zone_id self zone_name w =
    (Ok match List.find (exact_match (zone_name_search zone_name)) zones with
        | Some hosted_zone => Some (id_part hosted_zone)
        | None =>
            match List.find (broad_match (zone_name_search zone_name)) zones with
            | Some hosted_zone => Some (id_part hosted_zone)
            | None => None
            end
        end,
     {| provider := s'; trace := trace w ++ [ListHostedZones] |}).
Proof.
  intros Hlist.
  unfold get_hosted_zone_id, try_except, mbind, Py_bind, bind, call_list_hosted_zones.
  rewrite Hlist.
  destruct (List.find (exact_match _) zones); [reflexivity |].
  destruct (List.find (broad_match _) zones); reflexivity.
Qed.

(** C1, as amended.  For every zone name, with or without a trailing
    dot, [get_hosted_zone_id] searches for both forms of the name.
    When the listing call answers, it returns the identifier of the
    first listed zone whose name is one of the two forms; when there
    is none, the identifier of the first listed zone whose name
    contains one of the two forms as a substring; it returns not-found
    only when no listed zone's name is, or contains, either form.  A
    listed name that is itself contained in a candidate is no match. *)
Theorem get_hosted_zone_id_scans (zone_name : string) (w : world S)
    (zones : list HostedZone) (s' : S) :
  list_hosted_zones self (provider w) = (Ok zones, s') ->
  let search := zone_name_search zone_name in
  (exists base,
     (zone_name = base \/ zone_name = base +:+ dot) /\
     forall c, c ∈ search <-> c = base +:+ dot \/ c = base) /\
  exists r,
    (get_hosted_zone_id self zone_name w).1 = Ok r /\
    match r with
    | Some id =>
        exists before hosted_zone after,
          zones = before ++ hosted_zone :: after /\
          id = id_part hosted_zone /\
          ((hz_Name hosted_zone ∈ search /\
            forall h, h ∈ before -> hz_Name h ∉ search)
           \/
           ((forall h, h ∈ zones -> hz_Name h ∉ search) /\
            (exists c, c ∈ search /\ occurs_in c (hz_Name hosted_zone)) /\
            forall h c, h ∈ before -> c ∈ search -> ~ occurs_in c (hz_Name h)))
    | None =>
        forall h c, h ∈ zones -> c ∈ search ->
                    hz_Name h <> c /\ ~ occurs_in c (hz_Name h)
    end.
Proof.
  intros Hlist search. split; [apply zone_name_search_forms |].
  rewrite (get_hosted_zone_id_listed _ _ _ _ Hlist). fold search.
  eexists; split; [reflexivity |].
  destruct (List.find (exact_match search) zones) as [hz|] eqn:Hexact.
  - apply find_first in Hexact as (before & after & -> & Hhz & Hbefore).
    exists before, hz, after. repeat split. left. split.
    + by apply exact_match_spec.
    + intros h Hh. by apply exact_match_false, Hbefore.
  - pose proof (find_nothing _ _ Hexact) as Hnone.
    destruct (List.find (broad_match search) zones) as [hz|] eqn:Hbroad.
    + apply find_first in Hbroad as (before & after & -> & Hhz & Hbefore).
      exists before, hz, after. repeat split. right. repeat split.
      * intros h Hh. by apply exact_match_false, Hnone.
      * by apply broad_match_spec.
      * intros h c Hh Hc. by apply (proj1 (broad_match_false search h)); auto.
    + pose proof (find_nothing _ _ Hbroad) as Hnone'.
      intros h c Hh Hc. split.
      * intros Heq. apply (proj1 (exact_match_false search h) (Hnone h Hh)).
        by rewrite Heq.
      * by apply (proj1 (broad_match_false search h)); auto.
Qed.
End Client.

Import Examples.Dns.

Lemma get_hosted_zone_id_scans_witness :
  let zones := [example_zone] in
  let search := zone_name_search "example.com" in
  (exists base,
     ("example.com" = base \/ "example.com" = base +:+ dot) /\
     forall c, c ∈ search <-> c = base +:+ dot \/ c = base) /\
  exists r,
    (get_hosted_zone_id (static_client zones) "example.com" w0).1 = Ok r /\
    match r with
    | Some id =>
        exists before hosted_zone after,
          zones = before ++ hosted_zone :: after /\
          id = id_part hosted_zone /\
          ((hz_Name hosted_zone ∈ search /\
            forall h, h ∈ before -> hz_Name h ∉ search)
           \/
           ((forall h, h ∈ zones -> hz_Name h ∉ search) /\
            (exists c, c ∈ search /\ occurs_in c (hz_Name hosted_zone)) /\
            forall h c, h ∈ before -> c ∈ search -> ~ occurs_in c (hz_Name h)))
    | None =>
        forall h c, h ∈ zones -> c ∈ search ->
                    hz_Name h <> c /\ ~ occurs_in c (hz_Name h)
    end.
Proof.
  apply (get_hosted_zone_id_scans (static_client [example_zone])
           "example.com" w0 [example_zone] tt).
  reflexivity.
Defined.

(** The zone name [sub.example.com] against the one listed zone
    [example.com.]: the listed name occurs in the candidate
    [sub.example.com.], and the resolver reports not-found. *)
Lemma get_hosted_zone_id_no_reverse_containment :
  "sub.example.com." ∈ zone_name_search "sub.example.com" /\
  occurs_in (hz_Name example_zone) "sub.example.com." /\
  (get_hosted_zone_id (static_client [example_zone]) "sub.example.com" w0).1 = Ok None.
Proof.
  split; [vm_compute; left |].
  split; [by exists "sub.", EmptyString | reflexivity].
Qed.

End ZoneResolver.

(** ** The upload driver *)

Module UploadDriver.
Import PyStr PyStrFacts DnsUpload MonadFacts.

Section Client.
Context {S : Type}.
Variable self : Route53Client S.

Lemma only_emit (P : event -> Prop) (e : event) :
  P e -> only (@trace S) P (emit e).
Proof. intros He w. exists [e]. split; [done | by apply Forall_singleton]. Qed.

Lemma only_lift {A} (P : event -> Prop) (m : Py (world S) A) :
  only trace P m -> only driver_trace P (lift m).
Proof.
  intros Hm [w l]. destruct (Hm w) as (evs & Htr & HP).
  exists evs. unfold lift, driver_trace. by destruct (m w).
Qed.

Lemma only_modify (P : event -> Prop) (f : locals -> locals) :
  only (@driver_trace S) P (modify f).
Proof. intros [w l]. exists []. by rewrite app_nil_r. Qed.

Lemma only_get_locals (P : event -> Prop) :
  only (@driver_trace S) P get_locals.
Proof. intros [w l]. exists []. by rewrite app_nil_r. Qed.

Lemma only_call_list_hosted_zones (P : event -> Prop) :
  P ListHostedZones -> only trace P (call_list_hosted_zones self).
Proof.
  intros HP w. exists [ListHostedZones]. unfold call_list_hosted_zones.
  destruct (list_hosted_zones self (provider w)).
  split; [done | by apply Forall_singleton].
Qed.

Lemma only_call_change_resource_record_sets (P : event -> Prop)
    (id : string) (b : ChangeBatch) :
  P (ChangeResourceRecordSets id b) ->
  only trace P (call_change_resource_record_sets self id b).
Proof.
  intros HP w. exists [ChangeResourceRecordSets id b].
  unfold call_change_resource_record_sets.
  destruct (change_resource_record_sets self id b (provider w)).
  split; [done | by apply Forall_singleton].
Qed.

Lemma get_hosted_zone_id_only (P : event -> Prop) (zone_name : string) :
  (forall e, no_batch e -> P e) ->
  only trace P (get_hosted_zone_id self zone_name).
Proof.
  intros HP. unfold get_hosted_zone_id.
  apply only_try_except.
  - apply only_bind; [by apply only_call_list_hosted_zones, HP |].
    intros zones. repeat case_match; apply only_ret.
  - intros e. apply only_bind; [by apply only_emit, HP | intros; apply only_ret].
Qed.

Lemma upload_record_only (P : event -> Prop)
    (hosted_zone_id record_type record_name zone_name value : string) (ttl : Z) :
  (forall e, no_batch e -> P e) ->
  P (ChangeResourceRecordSets hosted_zone_id
       (create_change_batch record_type record_name zone_name value ttl)) ->
  only trace P
    (upload_record self hosted_zone_id record_type record_name zone_name value ttl).
Proof.
  intros HP Hb. unfold upload_record.
  apply only_try_except.
  - apply only_bind; [by apply only_call_change_resource_record_sets |].
    intros id. apply only_bind; [by apply only_emit, HP | intros; apply only_ret].
  - intros e. apply only_bind; [by apply only_emit, HP | intros; apply only_ret].
Qed.

Lemma field_present (row : gmap string (option string)) (key v : string) :
  row !! key = Some (Some v) -> @field S row key = ret (strip v).
Proof. intros H. unfold field, subscript, str_strip. by rewrite H. Qed.

Lemma field_is_None (row : gmap string (option string)) (key : string) :
  row !! key = Some None -> @field S row key = raise AttributeError.
Proof. intros H. unfold field, subscript, str_strip. by rewrite H. Qed.

Lemma field_absent (row : gmap string (option string)) (key : string) :
  row !! key = None -> @field S row key = raise KeyError.
Proof. intros H. unfold field, subscript, str_strip. by rewrite H. Qed.

Tactic Notation "read_field" constr(row) constr(key) ident(v) ident(H) :=
  destruct (row !! key) as [[v|]|] eqn:H;
  [ rewrite (field_present row key v H), bind_ret_l
  | rewrite (field_is_None row key H), bind_raise_l
  | rewrite (field_absent row key H), bind_raise_l ].

(** Every batch that the processing of a row prints or submits is the
    one built from the fields of that row. *)
Lemma process_row_only (dry_run : bool) (row_num : Z)
    (row : gmap string (option string)) :
  only driver_trace (fun e => forall b, b ∈ batches_of e -> built_from row b)
    (process_row self dry_run row_num row).
Proof.
  set (P := fun e => forall b, b ∈ batches_of e -> built_from row b).
  assert (HP : forall e, no_batch e -> P e).
  { intros e He b Hb. rewrite He in Hb. by apply not_elem_of_nil in Hb. }
  assert (Hhandler : forall e, only driver_trace P
            (lift (S:=S) (print (MsgRowError row_num e));; modify incr_failures)).
  { intros e. apply only_bind; [by apply only_lift, only_emit, HP |].
    intros; apply only_modify. }
  unfold process_row. apply only_try_except; [|exact Hhandler].
  read_field row "env" env Henv; [|apply only_raise..].
  read_field row "zone" zone Hzone; [|apply only_raise..].
  destruct (row !! "type") as [[type|]|] eqn:Htype;
    [ rewrite (field_present row "type" type Htype), fmap_ret, bind_ret_l
    | rewrite (field_is_None row "type" Htype), fmap_raise, bind_raise_l;
      apply only_raise
    | rewrite (field_absent row "type" Htype), fmap_raise, bind_raise_l;
      apply only_raise ].
  read_field row "name" name Hname; [|apply only_raise..].
  read_field row "value" value Hvalue; [|apply only_raise..].
  destruct (row !! "ttl") as [[ttl|]|] eqn:Httl;
    [ rewrite (field_present row "ttl" ttl Httl), bind_ret_l
    | rewrite (field_is_None row "ttl" Httl), !bind_raise_l; apply only_raise
    | rewrite (field_absent row "ttl" Httl), !bind_raise_l; apply only_raise ].
  unfold py_int. destruct (int (strip ttl)) as [z|] eqn:Hint;
    [rewrite bind_ret_l | rewrite bind_raise_l; apply only_raise].
  apply only_bind; [by apply only_lift, only_emit, HP | intros _].
  case_bool_decide as Hsupported.
  { apply only_bind; [by apply only_lift, only_emit, HP | intros _].
    apply only_modify. }
  assert (Hbuilt : built_from row
            (create_change_batch (upper (strip type)) (strip name) (strip zone)
               (strip value) z)).
  { exists zone, type, name, value, ttl, z.
    repeat split; try done; by apply dec_stable. }
  apply only_bind; [apply only_get_locals | intros l].
  apply only_bind.
  { destruct (zone_id_cache l !! strip zone); [apply only_ret |].
    apply only_bind; [by apply only_lift, get_hosted_zone_id_only |].
    intros [found|]; [|apply only_ret].
    apply only_if; [|apply only_ret].
    apply only_bind; [apply only_modify | intros; apply only_ret]. }
  intros [found|].
  - apply only_if.
    + apply only_bind; [by apply only_lift, only_emit, HP | intros _].
      destruct dry_run.
      * apply only_bind; [by apply only_lift, only_emit, HP | intros _].
        apply only_bind; [|intros; apply only_modify].
        apply only_lift, only_emit. intros b ->%list_elem_of_singleton.
        exact Hbuilt.
      * apply only_bind.
        { apply only_lift, upload_record_only; [exact HP |].
          intros b ->%list_elem_of_singleton. exact Hbuilt. }
        intros result. apply only_bind.
        { destruct result; apply only_modify. }
        intros _. by apply only_lift, only_emit, HP.
    + apply only_bind; [by apply only_lift, only_emit, HP | intros _].
      apply only_modify.
  - apply only_bind; [by apply only_lift, only_emit, HP | intros _].
    apply only_modify.
Qed.

Lemma batches_only (Q : ChangeBatch -> Prop) (evs : list event) :
  Forall (fun e => forall b, b ∈ batches_of e -> Q b) evs ->
  forall b, b ∈ batches evs -> Q b.
Proof.
  intros Hall b (e & Hb & He)%list_elem_of_bind.
  rewrite Forall_forall in Hall. eauto.
Qed.

Lemma process_row_batches (dry_run : bool) (row_num : Z)
    (row : gmap string (option string)) (w : world S) (l : locals) :
  exists evs,
    trace (process_row self dry_run row_num row (w, l)).2.1 = trace w ++ evs /\
    forall b, b ∈ batches evs -> built_from row b.
Proof.
  destruct (process_row_only dry_run row_num row (w, l)) as (evs & Htr & Hall).
  exists evs. split; [exact Htr |]. by apply batches_only.
Qed.

(** A row with its six fields whose ttl is not read by [int]: the
    [ValueError] is caught, the row is counted as failed and nothing
    else happens. *)
Lemma process_row_bad_ttl (dry_run : bool) (row_num : Z)
    (row : gmap string (option string)) (w : world S) (l : locals)
    (env zone record_type name value ttl : string) :
  row !! "env" = Some (Some env) ->
  row !! "zone" = Some (Some zone) ->
  row !! "type" = Some (Some record_type) ->
  row !! "name" = Some (Some name) ->
  row !! "value" = Some (Some value) ->
  row !! "ttl" = Some (Some ttl) ->
  int (strip ttl) = None ->
  process_row self dry_run row_num row (w, l) =
    (Ok tt,
     ({| provider := provider w;
         trace := trace w ++ [Print (MsgRowError row_num ValueError)] |},
      incr_failures l)).
Proof.
  intros Henv Hzone Htype Hname Hvalue Httl Hint.
  unfold process_row.
  rewrite (field_present _ _ _ Henv), (field_present _ _ _ Hzone),
    (field_present _ _ _ Htype), (field_present _ _ _ Hname),
    (field_present _ _ _ Hvalue), (field_present _ _ _ Httl).
  rewrite fmap_ret, !bind_ret_l.
  unfold py_int. rewrite Hint. reflexivity.
Qed.

(** After such a row the loop goes on with the rows that remain. *)
Lemma process_rows_bad_ttl_continues (dry_run : bool) (row_num : Z)
    (row : gmap string (option string)) (rest : list (gmap string (option string)))
    (w : world S) (l : locals)
    (env zone record_type name value ttl : string) :
  row !! "env" = Some (Some env) ->
  row !! "zone" = Some (Some zone) ->
  row !! "type" = Some (Some record_type) ->
  row !! "name" = Some (Some name) ->
  row !! "value" = Some (Some value) ->
  row !! "ttl" = Some (Some ttl) ->
  int (strip ttl) = None ->
  process_rows self dry_run row_num (row :: rest) (w, l) =
    process_rows self dry_run (row_num + 1) rest
      ({| provider := provider w;
          trace := trace w ++ [Print (MsgRowError row_num ValueError)] |},
       incr_failures l).
Proof.
  intros Henv Hzone Htype Hname Hvalue Httl Hint.
  cbn [process_rows]. unfold mbind, Py_bind, bind.
  by rewrite (process_row_bad_ttl dry_run row_num row w l
                env zone record_type name value ttl).
Qed.

(** C5, as amended.  For every row that the driver processes, the TTL
    of every change batch built for it is the integer that [int] reads
    from the stripped ttl field, which may be negative; a row whose
    ttl field does not denote an integer is not turned into a change
    batch: it is counted as failed and nothing else happens. *)
Theorem process_row_ttl (dry_run : bool) (row_num : Z)
    (row : gmap string (option string)) (w : world S) (l : locals) :
  (exists evs,
     trace (process_row self dry_run row_num row (w, l)).2.1 = trace w ++ evs /\
     forall b, b ∈ batches evs ->
       exists ttl z,
         row !! "ttl" = Some (Some ttl) /\ int (strip ttl) = Some z /\
         ttls b = [z]) /\
  (forall env zone record_type name value ttl,
     row !! "env" = Some (Some env) ->
     row !! "zone" = Some (Some zone) ->
     row !! "type" = Some (Some record_type) ->
     row !! "name" = Some (Some name) ->
     row !! "value" = Some (Some value) ->
     row !! "ttl" = Some (Some ttl) ->
     int (strip ttl) = None ->
     process_row self dry_run row_num row (w, l) =
       (Ok tt,
        ({| provider := provider w;
            trace := trace w ++ [Print (MsgRowError row_num ValueError)] |},
         incr_failures l))).
Proof.
  split; [|apply process_row_bad_ttl].
  destruct (process_row_batches dry_run row_num row w l) as (evs & Htr & Hb).
  exists evs. split; [exact Htr |].
  intros b (zone & ty & name & value & ttl & z & _ & _ & _ & _ & Httl & Hint & _ & ->)%Hb.
  exists ttl, z. repeat split; done.
Qed.

(** *** The header *)

Lemma expected_header_nonempty : (∅ : gset string) ≠ expected_header.
Proof.
  intros H. apply (not_elem_of_empty (C:=gset string) "env").
  rewrite H. unfold expected_header. set_solver.
Qed.

Lemma bad_header_spec (names : option (list string)) :
  bad_header names = true <->
  from_option list_to_set (∅ : gset string) names ≠ expected_header.
Proof.
  destruct names as [[|name names]|]; simpl.
  - split; [intros _; apply expected_header_nonempty | done].
  - apply bool_decide_eq_true.
  - split; [intros _; apply expected_header_nonempty | done].
Qed.

Lemma bad_header_perm (names names' : list string) :
  names ≡ₚ names' -> bad_header (Some names) = bad_header (Some names').
Proof.
  intros Hperm.
  assert (from_option list_to_set (∅ : gset string) (Some names)
          = from_option list_to_set ∅ (Some names')) as Hset
    by (simpl; by apply list_to_set_perm_L).
  pose proof (bad_header_spec (Some names)) as H1.
  pose proof (bad_header_spec (Some names')) as H2.
  rewrite Hset in H1.
  destruct (bad_header (Some names)), (bad_header (Some names')); try done.
  - symmetry. apply H2, H1. done.
  - apply H1, H2. done.
Qed.

(** C6.  For every CSV file whose header row, read as a set of column
    names, is not the set of env, zone, type, name, value and ttl, the
    driver prints the header error and exits with code 1: no row is
    processed, no change batch is built and the provider is not
    called.  The order of the header does not matter. *)
Theorem process_csv_bad_header (fs : gmap string (list (list string)))
    (csv_file : string) (rows : list (list string)) (dry_run : bool) (w : world S) :
  fs !! csv_file = Some rows ->
  from_option list_to_set (∅ : gset string) (fieldnames rows) ≠ expected_header ->
  process_csv self fs csv_file dry_run w =
    (Raise (SystemExit 1),
     {| provider := provider w; trace := trace w ++ [Print MsgBadHeader] |}) /\
  (forall names names',
     names ≡ₚ names' -> bad_header (Some names) = bad_header (Some names')).
Proof.
  intros Hfs Hbad%bad_header_spec. split; [|apply bad_header_perm].
  unfold process_csv, process_csv_driver. rewrite Hfs, Hbad. reflexivity.
Qed.

(** *** The case of the type *)

Lemma field_insert_eq (row : gmap string (option string)) (key v : string) :
  @field S (<[key := Some v]> row) key = ret (strip v).
Proof. apply field_present, lookup_insert_eq. Qed.

Lemma field_insert_ne (row : gmap string (option string)) (key key' : string)
    (v : option string) :
  key <> key' -> @field S (<[key := v]> row) key' = field row key'.
Proof. intros Hne. unfold field, subscript. by rewrite lookup_insert_ne. Qed.

Lemma process_row_type_upper (dry_run : bool) (row_num : Z)
    (row : gmap string (option string)) (record_type : string)
    (wl : world S * locals) :
  process_row self dry_run row_num (<["type" := Some record_type]> row) wl =
  process_row self dry_run row_num (<["type" := Some (upper record_type)]> row) wl.
Proof.
  unfold process_row.
  rewrite !(field_insert_ne row "type" "env"), !(field_insert_ne row "type" "zone"),
    !(field_insert_ne row "type" "name"), !(field_insert_ne row "type" "value"),
    !(field_insert_ne row "type" "ttl") by done.
  rewrite !field_insert_eq, !fmap_ret.
  rewrite strip_upper, upper_idempotent. reflexivity.
Qed.

(** C10.  For every row, the driver upper-cases the type field before
    the supported-type check and before the batch is built: a row is
    processed as the same row with its type in upper case is, and the
    Type of every change batch built for a row is the stripped type
    field in upper case, which is a supported type. *)
Theorem process_row_type_case (dry_run : bool) (row_num : Z)
    (row : gmap string (option string)) (w : world S) (l : locals) :
  (forall record_type,
     process_row self dry_run row_num (<["type" := Some record_type]> row) (w, l) =
     process_row self dry_run row_num
       (<["type" := Some (upper record_type)]> row) (w, l)) /\
  (exists evs,
     trace (process_row self dry_run row_num row (w, l)).2.1 = trace w ++ evs /\
     forall b, b ∈ batches evs ->
       exists record_type,
         row !! "type" = Some (Some record_type) /\
         types b = [upper (strip record_type)] /\
         upper (strip record_type) ∈ supported_types /\
         upper (upper (strip record_type)) = upper (strip record_type)).
Proof.
  split; [intros record_type; apply process_row_type_upper |].
  destruct (process_row_batches dry_run row_num row w l) as (evs & Htr & Hb).
  exists evs. split; [exact Htr |].
  intros b (zone & ty & name & value & ttl & z & _ & Hty & _ & _ & _ & _ & Hsup & ->)%Hb.
  exists ty. repeat split; try done. apply upper_idempotent.
Qed.

End Client.

Import Examples.Dns.

Lemma process_csv_bad_header_witness :
  process_csv (static_client [example_zone]) fs_bad_header "records.csv" false w0 =
    (Raise (SystemExit 1), {| provider := tt; trace := [Print MsgBadHeader] |}) /\
  (forall names names',
     names ≡ₚ names' -> bad_header (Some names) = bad_header (Some names')).
Proof.
  apply (process_csv_bad_header (static_client [example_zone]) fs_bad_header
           "records.csv" bad_rows false w0).
  - reflexivity.
  - apply (bool_decide_unpack _). vm_compute. exact I.
Defined.

(** C7.  On a file whose first data row lacks its last field and whose
    second row is complete, the run stops with an uncaught
    [AttributeError]: the short row is not counted as failed, the
    complete row is not processed and no summary is printed. *)
Theorem process_csv_short_row_aborts :
  process_csv (static_client [example_zone]) fs_short_row "records.csv" true w0 =
    (Raise AttributeError, w0).
Proof. vm_compute. reflexivity. Qed.

Lemma process_row_type_case_witness :
  exists evs,
    trace (process_row (static_client [example_zone]) true 2 example_row w0l).2.1
      = trace w0 ++ evs /\
    forall b, b ∈ batches evs ->
      exists record_type,
        example_row !! "type" = Some (Some record_type) /\
        types b = [upper (strip record_type)] /\
        upper (strip record_type) ∈ supported_types /\
        upper (upper (strip record_type)) = upper (strip record_type).
Proof.
  exact (proj2 (process_row_type_case (static_client [example_zone]) true 2
                  example_row w0 initial_locals)).
Defined.

Lemma process_row_ttl_witness :
  process_row (static_client [example_zone]) true 2
    unparsed_row w0l =
    (Ok tt,
     ({| provider := tt; trace := [Print (MsgRowError 2 ValueError)] |},
      incr_failures initial_locals)).
Proof.
  apply (proj2 (process_row_ttl (static_client [example_zone]) true 2
    unparsed_row
    w0 initial_locals) "prod" "example.com" "A" "www" "192.0.2.1" "soon");
    vm_compute; reflexivity.
Defined.

(** The dry run of the template record and of a record of the type BOGUS:
    one batch, for [www.example.com.], and the counters 1, 0 and 1. *)
Example process_csv_template_dry_run :
  process_csv (static_client [example_zone]) fs_template "records.csv" true w0 =
    (Ok tt,
     {| provider := tt;
        trace :=
          [Print (MsgProcessingRow 2 "prod" "example.com" "CNAME" "www"
                    "target.example.com" 300);
           ListHostedZones;
           Print (MsgFoundZone "Z1" "example.com");
           Print MsgDryRunWouldApply;
           Print (MsgJson
                    {| cb_Changes :=
                         [{| ch_Action := "UPSERT";
                             ch_ResourceRecordSet :=
                               {| rrs_Name := "www.example.com.";
                                  rrs_Type := "CNAME";
                                  rrs_TTL := 300;
                                  rrs_ResourceRecords :=
                                    [{| rr_Value := "target.example.com" |}] |} |}] |});
           Print (MsgProcessingRow 3 "prod" "example.com" "BOGUS" "www"
                    "target.example.com" 300);
           Print (MsgSkipUnsupported "BOGUS");
           Print (MsgSummary 1 0 1)] |}).
Proof. vm_compute. reflexivity. Qed.

(** A file whose one data row has the ttl [-5], in a dry run: a batch
    with the TTL -5 is printed and the row is counted as succeeded. *)
Lemma process_csv_negative_ttl :
  exists b,
    batches (trace (process_csv (static_client [example_zone]) fs_negative_ttl
                      "records.csv" true w0).2) = [b] /\
    ttls b = [-5] /\
    Print (MsgSummary 1 0 0) ∈
      trace (process_csv (static_client [example_zone]) fs_negative_ttl
               "records.csv" true w0).2.
Proof.
  eexists. split; [vm_compute; reflexivity |].
  split; [reflexivity |]. vm_compute. do 5 right. left.
Qed.

End UploadDriver.

(** ** The instance locator *)

Module Locator.
Import RebootEc2 MonadFacts.

Section Rebooter.
Context {S : Type}.
Variable self : EC2Rebooter S.

Lemma print_each_run (instances : list string) (w : world S) :
  print_each instances w =
    (Ok tt,
     {| provider := provider w;
        trace := trace w ++ ((fun id => Print (MsgListItem id)) <$> instances) |}).
Proof.
  revert w. induction instances as [|id rest IH]; intros w; simpl.
  - rewrite app_nil_r. by destruct w.
  - unfold mbind, Py_bind, bind, print, emit. rewrite IH. simpl.
    by rewrite <- app_assoc.
Qed.

Lemma get_instance_by_name_described (name : string) (w : world S)
    (response : DescribeResponse) (s' : S) :
  describe_instances (ec2 self) (Filters (name_filters name)) (provider w)
    = (Ok response, s') ->
  get_instance_by_name self name w =
    match instance_ids response with
    | [] =>
        (Ok None,
         {| provider := s';
            trace := trace w ++ [DescribeInstances (Filters (name_filters name));
                                 Print (MsgNoInstances name)] |})
    | [instance_id] =>
        (Ok (Some instance_id),
         {| provider := s';
            trace := trace w ++ [DescribeInstances (Filters (name_filters name))] |})
    | instances =>
        (Ok None,
         {| provider := s';
            trace := trace w ++ [DescribeInstances (Filters (name_filters name));
                                 Print (MsgMultipleInstances name)]
                       ++ ((fun id => Print (MsgListItem id)) <$> instances) |})
    end.
Proof.
  intros Hd.
  unfold get_instance_by_name, try_except, mbind, Py_bind, bind,
    call_describe_instances.
  rewrite Hd.
  destruct (instance_ids response) as [|id1 [|id2 rest]]; cbn -[print_each].
  - by rewrite <- app_assoc.
  - reflexivity.
  - rewrite print_each_run. cbn. by rewrite <- !app_assoc.
Qed.

Lemma only_emit_event (P : event -> Prop) (e : event) :
  P e -> only (@trace S) P (emit e).
Proof. intros He w. exists [e]. split; [done | by apply Forall_singleton]. Qed.

Lemma only_call_describe_instances (P : event -> Prop) (request : DescribeRequest) :
  P (DescribeInstances request) ->
  only trace P (call_describe_instances self request).
Proof.
  intros HP w. exists [DescribeInstances request]. unfold call_describe_instances.
  destruct (describe_instances (ec2 self) request (provider w)).
  split; [done | by apply Forall_singleton].
Qed.

Lemma only_print_each (P : event -> Prop) (instances : list string) :
  (forall id, P (Print (MsgListItem id))) ->
  only (@trace S) P (print_each instances).
Proof.
  intros HP. induction instances as [|id rest IH]; simpl.
  - apply only_ret.
  - apply only_bind; [apply only_emit_event, HP | intros _; exact IH].
Qed.

(** The locator only describes and prints. *)
Lemma get_instance_by_name_only (name : string) :
  only trace plain (get_instance_by_name self name).
Proof.
  unfold get_instance_by_name. apply only_try_except.
  - apply only_bind; [by apply only_call_describe_instances |].
    intros response. destruct (instance_ids response) as [|first others].
    + apply only_bind; [by apply only_emit_event | intros; apply only_ret].
    + apply only_if; [|apply only_ret].
      apply only_bind; [by apply only_emit_event | intros _].
      apply only_bind; [by apply only_print_each | intros; apply only_ret].
  - intros e. apply only_bind; [by apply only_emit_event | intros; apply only_ret].
Qed.
End Rebooter.

Lemma plain_not_reboot (e : event) : plain e -> ~ is_reboot e.
Proof. destruct e; simpl; tauto. Qed.

Lemma after_banner_trace {S} (w : world S) :
  trace (after_banner w) = trace w ++ [Print MsgRule; Print MsgTitle; Print MsgRule].
Proof.
  unfold after_banner, mbind, Py_bind, bind, print, emit. simpl.
  by rewrite <- !app_assoc.
Qed.

Lemma truthy_nonempty (s : string) : s <> EmptyString -> truthy (Some s) = true.
Proof. intros Hne. unfold truthy. by rewrite bool_decide_eq_false_2. Qed.

(** When the locator gives no identifier, [main] exits with code 1 in
    the world the locator left. *)
Lemma main_locator_fails {S} (client : EC2Client S) (session_region : option string)
    (args : Args) (name : string) (w w' : world S) (r : option string) :
  a_name args = Some name ->
  name <> EmptyString ->
  get_instance_by_name
    (init client session_region (Some (a_region args)) (a_verbose args)) name
    (after_banner w) = (Ok r, w') ->
  truthy r = false ->
  main client session_region args w = (Raise (SystemExit 1), w').
Proof.
  intros Hname Hne Hloc Hr.
  unfold main, after_banner, mbind, Py_bind, bind, print, emit in *.
  rewrite Hname, (truthy_nonempty name Hne).
  cbn -[get_instance_by_name init] in *.
  rewrite Hloc. rewrite Hr. reflexivity.
Qed.

(** C8.  For every name tag, when the describe call filtered on the tag
    and on the states pending, running, stopping and stopped answers,
    [get_instance_by_name] returns no identifier if no instance matches,
    and returns no identifier if more than one matches, after printing
    every matching identifier; and whenever the locator gives no
    identifier, [main] exits with code 1 in the world that the locator
    left, in which the reboot operation was never called. *)
Theorem locator_fails_without_reboot {S} (client : EC2Client S)
    (session_region : option string) (args : Args) (name : string) (w : world S) :
  let rebooter := init client session_region (Some (a_region args)) (a_verbose args) in
  (forall w0 response s',
     describe_instances client
       (Filters [ {| f_Name := "tag:Name"; f_Values := [name] |};
                  {| f_Name := "instance-state-name";
                     f_Values := ["pending"; "running"; "stopping"; "stopped"] |} ])
       (provider w0) = (Ok response, s') ->
     (instance_ids response = [] ->
      (get_instance_by_name rebooter name w0).1 = Ok None) /\
     ((1 < length (instance_ids response))%nat ->
      (get_instance_by_name rebooter name w0).1 = Ok None /\
      exists evs,
        trace (get_instance_by_name rebooter name w0).2 =
          trace w0 ++ evs ++ ((fun id => Print (MsgListItem id)) <$> instance_ids response))) /\
  (forall r w',
     a_name args = Some name ->
     name <> EmptyString ->
     get_instance_by_name rebooter name (after_banner w) = (Ok r, w') ->
     truthy r = false ->
     main client session_region args w = (Raise (SystemExit 1), w') /\
     exists evs, trace w' = trace w ++ evs /\ Forall (fun e => ~ is_reboot e) evs).
Proof.
  intros rebooter. split.
  - intros w0 response s' Hd.
    pose proof (get_instance_by_name_described rebooter name w0 response s' Hd) as Hrun.
    split.
    + intros Hnone. rewrite Hrun, Hnone. reflexivity.
    + intros Hmany. rewrite Hrun.
      destruct (instance_ids response) as [|id1 [|id2 rest]]; simpl in Hmany; [lia..|].
      split; [reflexivity |]. eexists. cbn [snd trace]. reflexivity.
  - intros r w' Hname Hne Hloc Hr. split.
    + by eapply main_locator_fails.
    + destruct (get_instance_by_name_only rebooter name (after_banner w))
        as (evs & Htr & Hall).
      rewrite Hloc in Htr. change (trace w' = trace (after_banner w) ++ evs) in Htr.
      exists ([Print MsgRule; Print MsgTitle; Print MsgRule] ++ evs).
      rewrite Htr, after_banner_trace, <- app_assoc. split; [done |].
      apply Forall_app. split.
      * repeat constructor; by intros [].
      * eapply Forall_impl; [exact Hall | apply plain_not_reboot].
Qed.

Import Examples.Ec2.

Lemma locator_fails_without_reboot_witness :
  main (static_ec2 [running "i-1"; running "i-2"]) None (args_by_name "web" false) e0 =
    (Raise (SystemExit 1),
     (get_instance_by_name
        (init (static_ec2 [running "i-1"; running "i-2"]) None (Some "us-west-2") false)
        "web" (after_banner e0)).2) /\
  exists evs,
    trace (get_instance_by_name
             (init (static_ec2 [running "i-1"; running "i-2"]) None
                (Some "us-west-2") false)
             "web" (after_banner e0)).2 = trace e0 ++ evs /\
    Forall (fun e => ~ is_reboot e) evs.
Proof.
  apply (proj2 (locator_fails_without_reboot
                  (static_ec2 [running "i-1"; running "i-2"]) None
                  (args_by_name "web" false) "web" e0) None).
  - reflexivity.
  - discriminate.
  - reflexivity.
  - reflexivity.
Defined.

End Locator.


(** ** The reboot driver in dry-run mode *)

Module DryRun.
Import RebootEc2 MonadFacts Locator.




Section Rebooter.
Context {S : Type}.
Variable self : EC2Rebooter S.

End Rebooter.









Import Examples.Ec2.



End DryRun.

(** * Further properties *)

(** ** Exceptions that leave a computation *)

Module Raising.

Section Rules.
Context {W : Type} (E : exn -> Prop).

Lemma raises_only_ret {A} (a : A) : raises_only E (@ret W A a).
Proof. intros w e H. discriminate H. Qed.

Lemma raises_only_raise {A} (e : exn) : E e -> raises_only E (@raise W A e).
Proof. intros He w e' [= <-]. exact He. Qed.

Lemma raises_only_bind {A B} (m : Py W A) (k : A -> Py W B) :
  raises_only E m -> (forall a, raises_only E (k a)) -> raises_only E (m ≫= k).
Proof.
  intros Hm Hk w e. unfold mbind, Py_bind, bind.
  specialize (Hm w). destruct (m w) as [[a|e'] w1]; simpl in *.
  - apply Hk.
  - intros [= <-]. by apply Hm.
Qed.

Lemma raises_only_fmap {A B} (f : A -> B) (m : Py W A) :
  raises_only E m -> raises_only E (f <$> m).
Proof.
  intros Hm. apply (raises_only_bind m (fun a => ret (f a))); [exact Hm |].
  intros a. apply raises_only_ret.
Qed.

(** A [try] lets through what its body raises and no clause catches, and
    what the handler raises. *)
Lemma raises_only_try_except {A} (E0 : exn -> Prop) (m : Py W A)
    (caught : exn -> bool) (h : exn -> Py W A) :
  raises_only E0 m ->
  (forall e, E0 e -> caught e = false -> E e) ->
  (forall e, E0 e -> caught e = true -> raises_only E (h e)) ->
  raises_only E (try_except m caught h).
Proof.
  intros Hm Hpass Hh w e. unfold try_except.
  specialize (Hm w). destruct (m w) as [[a|e'] w1]; simpl in *; [done |].
  specialize (Hm e' eq_refl).
  destruct (caught e') eqn:Hc.
  - by apply Hh.
  - intros [= <-]. by apply Hpass.
Qed.

Lemma raises_only_if {A} (b : bool) (m1 m2 : Py W A) :
  raises_only E m1 -> raises_only E m2 -> raises_only E (if b then m1 else m2).
Proof. by destruct b. Qed.
End Rules.

Lemma raises_only_mono {W A} (E E' : exn -> Prop) (m : Py W A) :
  (forall e, E e -> E' e) -> raises_only E m -> raises_only E' m.
Proof. intros HE Hm w e H. by apply HE, (Hm w). Qed.

End Raising.

(** ** More on strings *)

Module PyStrMore.
Import PyStr PyStrFacts.
Local Arguments String.append !_ _ / : simpl nomatch.

Lemma app_assoc_str (s t u : string) : (s +:+ t) +:+ u = s +:+ t +:+ u.
Proof. induction s as [|a s IH]; simpl; [reflexivity | by rewrite IH]. Qed.

Lemma app_nil_r_str (s : string) : s +:+ EmptyString = s.
Proof. induction s as [|a s IH]; simpl; [reflexivity | by rewrite IH]. Qed.

Lemma is_suffix_trans (s t u : string) : is_suffix s t -> is_suffix t u -> is_suffix s u.
Proof.
  intros [p ->] [q ->]. exists (q +:+ p). by rewrite app_assoc_str.
Qed.

Lemma is_suffix_app (p s : string) : is_suffix s (p +:+ s).
Proof. by exists p. Qed.

Lemma snoc_inj (p q : string) (c d : ascii) :
  p +:+ String c EmptyString = q +:+ String d EmptyString -> p = q /\ c = d.
Proof.
  revert q. induction p as [|a p IH]; intros [|b q] H; simpl in H.
  - by injection H.
  - injection H as _ H. destruct q; discriminate.
  - injection H as _ H. destruct p; discriminate.
  - injection H as -> H. apply IH in H as [-> ->]. done.
Qed.

Lemma snoc_exists (s : string) :
  s <> EmptyString -> exists p c, s = p +:+ String c EmptyString.
Proof.
  induction s as [|a s IH]; [done |]. intros _.
  destruct s as [|b s].
  - by exists EmptyString, a.
  - destruct IH as (p & c & Hp); [done |]. exists (String a p), c.
    simpl. by rewrite Hp.
Qed.

(** A string that ends with [c] has no suffix that ends with another
    character. *)
Lemma is_suffix_last (s t : string) (c : ascii) :
  is_suffix (String c EmptyString) s -> is_suffix t s -> t <> EmptyString ->
  is_suffix (String c EmptyString) t.
Proof.
  intros [p ->] [q Hq] Ht.
  destruct (snoc_exists t Ht) as (t' & d & ->).
  rewrite <- app_assoc_str in Hq. apply snoc_inj in Hq as [_ ->].
  by exists t'.
Qed.

Lemma split_not_nil (c : ascii) (s : string) : split c s <> [].
Proof.
  induction s as [|a s IH]; simpl; [done |].
  destruct (decide (a = c)); [done |]. by destruct (split c s).
Qed.

(** A string without the separator is not split. *)
Lemma split_without (c : ascii) (s : string) :
  ~ occurs_in (String c EmptyString) s -> split c s = [s].
Proof.
  induction s as [|a s IH]; intros Hno; simpl; [done |].
  destruct (decide (a = c)) as [->|Hne].
  - exfalso. apply Hno. by exists EmptyString, s.
  - rewrite IH; [done |]. intros (x & y & ->). apply Hno.
    by exists (String a x), y.
Qed.

Lemma split_sep_length (c : ascii) (p z : string) :
  (2 <= length (split c (p +:+ String c z)))%nat.
Proof.
  induction p as [|a p IH]; simpl.
  - rewrite decide_True by done. simpl.
    pose proof (split_not_nil c z). destruct (split c z); [done | simpl; lia].
  - destruct (decide (a = c)).
    + simpl. lia.
    + destruct (split c (p +:+ String c z)); simpl in *; lia.
Qed.

Lemma last_cons_cons {A} (x y : A) (l : list A) (d : A) :
  List.last (x :: y :: l) d = List.last (y :: l) d.
Proof. reflexivity. Qed.

(** The last item of a split is what follows the last separator. *)
Lemma last_item_split_sep (c : ascii) (p z : string) :
  last_item (split c (p +:+ String c z)) = last_item (split c z).
Proof.
  unfold last_item. induction p as [|a p IH]; simpl.
  - rewrite decide_True by done.
    pose proof (split_not_nil c z). by destruct (split c z).
  - pose proof (split_sep_length c p z) as Hlen.
    destruct (decide (a = c)).
    + destruct (split c (p +:+ String c z)) as [|h t] eqn:Hs; [simpl in Hlen; lia |].
      by rewrite last_cons_cons.
    + destruct (split c (p +:+ String c z)) as [|h [|h' t]] eqn:Hs;
        [simpl in Hlen; lia.. |].
      rewrite last_cons_cons. rewrite last_cons_cons in IH. exact IH.
Qed.

End PyStrMore.

(** ** More on the zone resolver *)

Module ResolverMore.
Import PyStr PyStrFacts PyStrMore DnsUpload.
Local Arguments String.append !_ _ / : simpl nomatch.

(** X1.  When the listing call raises [ClientError] or
    [NoCredentialsError], [get_hosted_zone_id] prints the error and
    returns not-found after that one call; any other exception of the call
    leaves the function. *)
Theorem get_hosted_zone_id_error {S} (self : Route53Client S) (zone_name : string)
    (w : world S) (e : exn) (s' : S) :
  list_hosted_zones self (provider w) = (Raise e, s') ->
  (e = NoCredentialsError \/ (exists code, e = ClientError code) ->
   get_hosted_zone_id self zone_name w =
     (Ok None,
      {| provider := s';
         trace := trace w ++ [ListHostedZones; Print (MsgHostedZoneError e)] |})) /\
  (e <> NoCredentialsError -> (forall code, e <> ClientError code) ->
   get_hosted_zone_id self zone_name w =
     (Raise e, {| provider := s'; trace := trace w ++ [ListHostedZones] |})).
Proof.
  intros Hlist.
  unfold get_hosted_zone_id, try_except, mbind, Py_bind, bind, call_list_hosted_zones,
    print, emit, ret.
  rewrite Hlist. split.
  - intros [-> | [code ->]]; simpl; by rewrite <- app_assoc.
  - intros Hn Hc. destruct e; simpl; try reflexivity.
    + by destruct (Hc code).
    + done.
Qed.

(** X2.  A trailing dot on the zone name makes no difference to the
    resolver: it searches for the same two names, in the same order. *)
Theorem get_hosted_zone_id_trailing_dot {S} (self : Route53Client S) (base : string)
    (w : world S) :
  ~ is_suffix dot base ->
  zone_name_search (base +:+ dot) = zone_name_search base /\
  get_hosted_zone_id self (base +:+ dot) w = get_hosted_zone_id self base w.
Proof.
  intros Hno.
  assert (Hsearch : zone_name_search (base +:+ dot) = zone_name_search base).
  { unfold zone_name_search.
    rewrite (proj2 (endswith_spec (base +:+ dot) dot)) by apply is_suffix_app.
    rewrite (proj2 (endswith_false base dot)) by exact Hno.
    unfold dot. by rewrite drop_last_snoc. }
  split; [exact Hsearch |].
  unfold get_hosted_zone_id. by rewrite Hsearch.
Qed.

(** X3.  The identifier that the resolver returns for a zone is what
    follows the last slash of the zone's Id, and the whole Id when it has
    no slash. *)
Theorem id_part_after_last_slash (name z : string) :
  ~ occurs_in "/" z ->
  id_part {| hz_Name := name; hz_Id := z |} = z /\
  forall p, id_part {| hz_Name := name; hz_Id := p +:+ String slash z |} = z.
Proof.
  intros Hno.
  assert (Hz : last_item (split slash z) = z).
  { unfold last_item. by rewrite (split_without slash z Hno). }
  split; [exact Hz |].
  intros p. unfold id_part. simpl hz_Id. by rewrite last_item_split_sep.
Qed.

Import Examples.Dns.

Lemma get_hosted_zone_id_error_witness :
  get_hosted_zone_id denied_client "example.com" w0 =
    (Ok None,
     {| provider := tt;
        trace := trace w0 ++
          [ListHostedZones; Print (MsgHostedZoneError (ClientError "AccessDenied"))] |}).
Proof.
  apply (proj1 (get_hosted_zone_id_error denied_client "example.com" w0
                  (ClientError "AccessDenied") tt eq_refl)).
  right. by exists "AccessDenied".
Defined.

Lemma get_hosted_zone_id_trailing_dot_witness :
  zone_name_search ("example.com" +:+ dot) = zone_name_search "example.com" /\
  get_hosted_zone_id (static_client [example_zone]) ("example.com" +:+ dot) w0 =
    get_hosted_zone_id (static_client [example_zone]) "example.com" w0.
Proof.
  apply (get_hosted_zone_id_trailing_dot (static_client [example_zone]) "example.com" w0).
  by apply endswith_false.
Defined.

Lemma id_part_after_last_slash_witness :
  id_part {| hz_Name := "example.com."; hz_Id := "Z1" |} = "Z1" /\
  forall p,
    id_part {| hz_Name := "example.com."; hz_Id := p +:+ String slash "Z1" |} = "Z1".
Proof.
  apply (id_part_after_last_slash "example.com." "Z1").
  intros H. apply contains_spec in H. vm_compute in H. discriminate H.
Defined.

End ResolverMore.

(** ** More on the change-batch builder *)

Module BuilderMore.
Import PyStr PyStrFacts PyStrMore DnsUpload.
Local Arguments String.append !_ _ / : simpl nomatch.

(** The Name of the batch, as a function of the record and zone names. *)
Lemma names_create_change_batch
    (record_type record_name zone_name value : string) (ttl : Z) :
  names (create_change_batch record_type record_name zone_name value ttl) =
    [let fqdn := if negb (endswith record_name zone_name)
                 then record_name +:+ dot +:+ zone_name else record_name in
     if negb (endswith fqdn dot) then fqdn +:+ dot else fqdn].
Proof. reflexivity. Qed.

(** X4.  With a zone name that ends with a dot, qualifying is idempotent:
    the Name that the builder gives a record is a name that the builder
    leaves as it is. *)
Theorem create_change_batch_name_idempotent
    (record_type record_name zone_name value : string) (ttl : Z) (fqdn : string) :
  is_suffix dot zone_name ->
  names (create_change_batch record_type record_name zone_name value ttl) = [fqdn] ->
  names (create_change_batch record_type fqdn zone_name value ttl) = [fqdn].
Proof.
  intros Hzone. rewrite !names_create_change_batch. cbv zeta.
  destruct (endswith record_name zone_name) eqn:Hend; cbn [negb].
  - assert (Hdot : endswith record_name dot = true).
    { apply endswith_spec. apply (is_suffix_trans _ zone_name); [done |].
      by apply endswith_spec. }
    rewrite Hdot. cbn [negb]. intros Heq.
    assert (record_name = fqdn) as <- by congruence.
    rewrite Hend. cbn [negb]. by rewrite Hdot.
  - assert (Hdot : endswith (record_name +:+ dot +:+ zone_name) dot = true).
    { apply endswith_spec. apply (is_suffix_trans _ zone_name); [done |].
      exists (record_name +:+ dot). by rewrite app_assoc_str. }
    rewrite Hdot. cbn [negb]. intros Heq.
    assert (record_name +:+ dot +:+ zone_name = fqdn) as <- by congruence.
    assert (Hz : endswith (record_name +:+ dot +:+ zone_name) zone_name = true).
    { apply endswith_spec. exists (record_name +:+ dot). by rewrite app_assoc_str. }
    rewrite Hz. cbn [negb]. by rewrite Hdot.
Qed.

(** X5.  With a zone name that is not empty and does not end with a dot, a
    record name that ends with a dot is qualified again, even when it is
    the fully qualified name already: the Name is the record name, a dot,
    the zone name and a dot. *)
Theorem create_change_batch_requalifies_dotted_name
    (record_type record_name zone_name value : string) (ttl : Z) :
  is_suffix dot record_name ->
  zone_name <> EmptyString ->
  ~ is_suffix dot zone_name ->
  names (create_change_batch record_type record_name zone_name value ttl) =
    [record_name +:+ dot +:+ zone_name +:+ dot].
Proof.
  intros Hname Hne Hzone. rewrite names_create_change_batch. cbv zeta.
  assert (Hend : endswith record_name zone_name = false).
  { apply endswith_false. intros Hsuf. apply Hzone.
    by apply (is_suffix_last record_name). }
  rewrite Hend. cbn [negb].
  assert (Hdot : endswith (record_name +:+ dot +:+ zone_name) dot = false).
  { apply endswith_false. intros Hsuf. apply Hzone.
    apply (is_suffix_last (record_name +:+ dot +:+ zone_name)); [done | | done].
    exists (record_name +:+ dot). by rewrite app_assoc_str. }
  rewrite Hdot. cbn [negb]. by rewrite !app_assoc_str.
Qed.

Lemma create_change_batch_name_idempotent_witness :
  names (create_change_batch "CNAME" "www.example.com." "example.com."
           "target.example.com" 300) = ["www.example.com."].
Proof.
  apply (create_change_batch_name_idempotent "CNAME" "www" "example.com."
           "target.example.com" 300 "www.example.com.").
  - by exists "example.com".
  - reflexivity.
Defined.

Lemma create_change_batch_requalifies_dotted_name_witness :
  names (create_change_batch "CNAME" "www.example.com." "example.com"
           "target.example.com" 300) =
    ["www.example.com." +:+ dot +:+ "example.com" +:+ dot].
Proof.
  apply (create_change_batch_requalifies_dotted_name "CNAME" "www.example.com."
           "example.com" "target.example.com" 300).
  - by exists "www.example.com".
  - done.
  - by apply endswith_false.
Defined.

End BuilderMore.

(** ** More on the upload driver: what is called and when *)

Module DriverCalls.
Import PyStr PyStrFacts DnsUpload MonadFacts UploadDriver.

Section Client.
Context {S : Type}.
Variable self : Route53Client S.

Lemma get_hosted_zone_id_emits (P : event -> Prop) (zone_name : string) :
  P ListHostedZones -> (forall m, P (Print m)) ->
  only trace P (get_hosted_zone_id self zone_name).
Proof.
  intros Hlist Hprint. unfold get_hosted_zone_id. apply only_try_except.
  - apply only_bind; [by apply only_call_list_hosted_zones |].
    intros zones. repeat case_match; apply only_ret.
  - intros e. apply only_bind; [by apply only_emit | intros; apply only_ret].
Qed.

Lemma upload_record_emits (P : event -> Prop)
    (hosted_zone_id record_type record_name zone_name value : string) (ttl : Z) :
  (forall m, P (Print m)) ->
  P (ChangeResourceRecordSets hosted_zone_id
       (create_change_batch record_type record_name zone_name value ttl)) ->
  only trace P
    (upload_record self hosted_zone_id record_type record_name zone_name value ttl).
Proof.
  intros Hprint Hb. unfold upload_record. apply only_try_except.
  - apply only_bind; [by apply only_call_change_resource_record_sets |].
    intros id. apply only_bind; [by apply only_emit | intros; apply only_ret].
  - intros e. apply only_bind; [by apply only_emit | intros; apply only_ret].
Qed.

Lemma valid_intro (row : gmap string (option string))
    (env zone record_type name value ttl : string) (z : Z) :
  row !! "env" = Some (Some env) ->
  row !! "zone" = Some (Some zone) ->
  row !! "type" = Some (Some record_type) ->
  row !! "name" = Some (Some name) ->
  row !! "value" = Some (Some value) ->
  row !! "ttl" = Some (Some ttl) ->
  int (strip ttl) = Some z ->
  upper (strip record_type) ∈ supported_types ->
  valid row.
Proof.
  intros Henv Hzone Htype Hname Hvalue Httl Hint Hsup.
  split; [|split; eauto].
  intros key Hkey. unfold expected_header in Hkey.
  rewrite elem_of_list_to_set in Hkey.
  repeat (apply elem_of_cons in Hkey as [-> | Hkey]; [eauto |]).
  by apply not_elem_of_nil in Hkey.
Qed.

(** The events of the processing of a row: prints at any time; calls of
    the provider and the pause only for a valid row, and the change and
    the pause only outside a dry run. *)
Lemma process_row_events (P : event -> Prop) (dry_run : bool) (row_num : Z)
    (row : gmap string (option string)) :
  (forall m, P (Print m)) ->
  (valid row -> P ListHostedZones) ->
  (valid row -> dry_run = false ->
   (forall id b, P (ChangeResourceRecordSets id b)) /\ P (Sleep 500)) ->
  only driver_trace P (process_row self dry_run row_num row).
Proof.
  intros Hprint Hlist Hlive.
  assert (Hsay : forall m, only driver_trace P (lift (S:=S) (print m)))
    by (intros m; by apply only_lift, only_emit).
  unfold process_row. apply only_try_except.
  2: { intros e. apply only_bind; [apply Hsay | intros; apply only_modify]. }
  destruct (row !! "env") as [[env|]|] eqn:Henv;
    [ rewrite (field_present row "env" env Henv), bind_ret_l
    | rewrite (field_is_None row "env" Henv), bind_raise_l; apply only_raise
    | rewrite (field_absent row "env" Henv), bind_raise_l; apply only_raise ].
  destruct (row !! "zone") as [[zone|]|] eqn:Hzone;
    [ rewrite (field_present row "zone" zone Hzone), bind_ret_l
    | rewrite (field_is_None row "zone" Hzone), bind_raise_l; apply only_raise
    | rewrite (field_absent row "zone" Hzone), bind_raise_l; apply only_raise ].
  destruct (row !! "type") as [[type|]|] eqn:Htype;
    [ rewrite (field_present row "type" type Htype), fmap_ret, bind_ret_l
    | rewrite (field_is_None row "type" Htype), fmap_raise, bind_raise_l;
      apply only_raise
    | rewrite (field_absent row "type" Htype), fmap_raise, bind_raise_l;
      apply only_raise ].
  destruct (row !! "name") as [[name|]|] eqn:Hname;
    [ rewrite (field_present row "name" name Hname), bind_ret_l
    | rewrite (field_is_None row "name" Hname), bind_raise_l; apply only_raise
    | rewrite (field_absent row "name" Hname), bind_raise_l; apply only_raise ].
  destruct (row !! "value") as [[value|]|] eqn:Hvalue;
    [ rewrite (field_present row "value" value Hvalue), bind_ret_l
    | rewrite (field_is_None row "value" Hvalue), bind_raise_l; apply only_raise
    | rewrite (field_absent row "value" Hvalue), bind_raise_l; apply only_raise ].
  destruct (row !! "ttl") as [[ttl|]|] eqn:Httl;
    [ rewrite (field_present row "ttl" ttl Httl), bind_ret_l
    | rewrite (field_is_None row "ttl" Httl), !bind_raise_l; apply only_raise
    | rewrite (field_absent row "ttl" Httl), !bind_raise_l; apply only_raise ].
  unfold py_int. destruct (int (strip ttl)) as [z|] eqn:Hint;
    [rewrite bind_ret_l | rewrite bind_raise_l; apply only_raise].
  apply only_bind; [apply Hsay | intros _].
  case_bool_decide as Hsupported.
  { apply only_bind; [apply Hsay | intros _]. apply only_modify. }
  assert (Hvalid : valid row).
  { apply (valid_intro row env zone type name value ttl z); try done;
      by apply dec_stable. }
  apply only_bind; [apply only_get_locals | intros l].
  apply only_bind.
  { destruct (zone_id_cache l !! strip zone); [apply only_ret |].
    apply only_bind; [by apply only_lift, get_hosted_zone_id_emits; auto |].
    intros [found|]; [|apply only_ret].
    apply only_if; [|apply only_ret].
    apply only_bind; [apply only_modify | intros; apply only_ret]. }
  intros [found|].
  - apply only_if.
    + apply only_bind; [apply Hsay | intros _].
      destruct dry_run.
      * apply only_bind; [apply Hsay | intros _].
        apply only_bind; [apply Hsay | intros; apply only_modify].
      * destruct (Hlive Hvalid eq_refl) as [Hchange Hsleep].
        apply only_bind.
        { apply only_lift, upload_record_emits; [exact Hprint | apply Hchange]. }
        intros result. apply only_bind.
        { destruct result; apply only_modify. }
        intros _. by apply only_lift, only_emit.
    + apply only_bind; [apply Hsay | intros _]. apply only_modify.
  - apply only_bind; [apply Hsay | intros _]. apply only_modify.
Qed.

Lemma process_rows_events (P : event -> Prop) (dry_run : bool) (row_num : Z)
    (rows : list (gmap string (option string))) :
  (forall m, P (Print m)) ->
  P ListHostedZones ->
  (dry_run = false ->
   (forall id b, P (ChangeResourceRecordSets id b)) /\ P (Sleep 500)) ->
  only driver_trace P (process_rows self dry_run row_num rows).
Proof.
  intros Hprint Hlist Hlive. revert row_num.
  induction rows as [|row rest IH]; intros row_num; simpl.
  - apply only_ret.
  - apply only_bind; [by apply process_row_events; auto | intros _; apply IH].
Qed.

Lemma process_csv_events (P : event -> Prop) (fs : gmap string (list (list string)))
    (csv_file : string) (dry_run : bool) :
  (forall m, P (Print m)) ->
  P ListHostedZones ->
  (dry_run = false ->
   (forall id b, P (ChangeResourceRecordSets id b)) /\ P (Sleep 500)) ->
  only trace P (process_csv self fs csv_file dry_run).
Proof.
  intros Hprint Hlist Hlive.
  assert (Hdriver : only driver_trace P (process_csv_driver self fs csv_file dry_run)).
  { unfold process_csv_driver. destruct (fs !! csv_file) as [rows|].
    - apply only_if.
      + apply only_bind; [by apply only_lift, only_emit | intros; apply only_raise].
      + apply only_bind; [by apply process_rows_events | intros _].
        apply only_bind; [apply only_get_locals | intros l].
        by apply only_lift, only_emit.
    - apply only_bind; [by apply only_lift, only_emit | intros; apply only_raise]. }
  intros w. destruct (Hdriver (w, initial_locals)) as (evs & Htr & Hall).
  exists evs. unfold process_csv.
  destruct (process_csv_driver self fs csv_file dry_run (w, initial_locals))
    as [r [w' l']].
  by split.
Qed.

(** X6.  When the CSV file does not exist, [process_csv] prints that it
    was not found and exits with code 1: the provider is not called. *)
Theorem process_csv_missing_file (fs : gmap string (list (list string)))
    (csv_file : string) (dry_run : bool) (w : world S) :
  fs !! csv_file = None ->
  process_csv self fs csv_file dry_run w =
    (Raise (SystemExit 1),
     {| provider := provider w;
        trace := trace w ++ [Print (MsgFileNotFound csv_file)] |}).
Proof.
  intros Hfs. unfold process_csv, process_csv_driver. rewrite Hfs. reflexivity.
Qed.

(** X7.  Validation comes before any call: the processing of a row calls
    the provider only if the row has its six fields, its ttl is read by
    [int] and its type, in upper case, is supported. *)
Theorem process_row_validates_first (dry_run : bool) (row_num : Z)
    (row : gmap string (option string)) (w : world S) (l : locals) :
  exists evs,
    trace (process_row self dry_run row_num row (w, l)).2.1 = trace w ++ evs /\
    ((exists e, e ∈ evs /\ is_provider_call e) -> valid row).
Proof.
  destruct (process_row_events (fun e => is_provider_call e -> valid row)
              dry_run row_num row) with (w := (w, l)) as (evs & Htr & Hall);
    try (simpl; tauto).
  exists evs. split; [exact Htr |].
  intros (e & He & Hcall). rewrite Forall_forall in Hall. by apply (Hall e).
Qed.

(** X8.  In a dry run [process_csv] never submits a change and never
    pauses: it only prints and lists the hosted zones. *)
Theorem process_csv_dry_run_calls (fs : gmap string (list (list string)))
    (csv_file : string) (w : world S) :
  exists evs,
    trace (process_csv self fs csv_file true w).2 = trace w ++ evs /\
    Forall (fun e => is_print e \/ e = ListHostedZones) evs.
Proof.
  apply (process_csv_events (fun e => is_print e \/ e = ListHostedZones));
    [by left | by right | done].
Qed.

End Client.
Import Examples.Dns.

Lemma process_csv_missing_file_witness :
  process_csv (static_client [example_zone]) fs_two_rows "missing.csv" false w0 =
    (Raise (SystemExit 1),
     {| provider := provider w0;
        trace := trace w0 ++ [Print (MsgFileNotFound "missing.csv")] |}).
Proof.
  apply (process_csv_missing_file (static_client [example_zone]) fs_two_rows
           "missing.csv" false w0).
  reflexivity.
Defined.

End DriverCalls.

(** ** More on the upload driver: the zone cache *)

Module DriverCache.
Import PyStr PyStrFacts DnsUpload MonadFacts ListFacts ZoneResolver UploadDriver DriverCalls.

Lemma find_nothing_intro {A} (f : A -> bool) (l : list A) :
  (forall y, y ∈ l -> f y = false) -> List.find f l = None.
Proof.
  induction l as [|a l IH]; intros H; simpl; [done |].
  rewrite (H a) by by left. apply IH. intros y Hy. apply H. by right.
Qed.

Section Client.
Context {S : Type}.
Variable self : Route53Client S.

(** X9.  A zone that is in the cache is not looked up again: for a valid
    row whose zone is cached, the provider is not asked for the hosted
    zones, and the cache stays as it is. *)
Theorem process_row_cache_hit (dry_run : bool) (row_num : Z)
    (row : gmap string (option string)) (w : world S) (l : locals)
    (env zone record_type name value ttl : string) (z : Z) (cached : string) :
  row !! "env" = Some (Some env) ->
  row !! "zone" = Some (Some zone) ->
  row !! "type" = Some (Some record_type) ->
  row !! "name" = Some (Some name) ->
  row !! "value" = Some (Some value) ->
  row !! "ttl" = Some (Some ttl) ->
  int (strip ttl) = Some z ->
  upper (strip record_type) ∈ supported_types ->
  zone_id_cache l !! strip zone = Some cached ->
  exists evs,
    trace (process_row self dry_run row_num row (w, l)).2.1 = trace w ++ evs /\
    Forall (fun e => e <> ListHostedZones) evs /\
    zone_id_cache (process_row self dry_run row_num row (w, l)).2.2 = zone_id_cache l.
Proof.
  intros Henv Hzone Htype Hname Hvalue Httl Hint Hsup Hcache.
  unfold process_row.
  rewrite (field_present _ _ _ Henv), (field_present _ _ _ Hzone),
    (field_present _ _ _ Htype), (field_present _ _ _ Hname),
    (field_present _ _ _ Hvalue), (field_present _ _ _ Httl).
  rewrite fmap_ret, !bind_ret_l. unfold py_int. rewrite Hint, bind_ret_l.
  rewrite bool_decide_eq_false_2 by (by intros Hn).
  unfold try_except, mbind, Py_bind, bind, lift, print, emit, get_locals, modify, ret.
  cbn -[upload_record create_change_batch truthy]. rewrite Hcache.
  cbn -[upload_record create_change_batch truthy].
  destruct (truthy (Some cached)); [destruct dry_run |];
    cbn -[upload_record create_change_batch].
  - eexists. split; [rewrite <- ?app_assoc; reflexivity |].
    split; [by repeat constructor | reflexivity].
  - match goal with
    | |- context [upload_record self ?id ?t ?n ?zn ?v ?ttl ?w2] =>
        destruct (upload_record_emits self (fun e => e <> ListHostedZones)
                    id t n zn v ttl) with (w := w2) as (evs & Htr & Hall);
          [done | done |];
        destruct (upload_record self id t n zn v ttl w2) as [[[|]|e] w3]
    end; cbn in *; try destruct (caught_row_error e); cbn;
      rewrite Htr, <- ?app_assoc;
      (eexists; split; [reflexivity |]; split; [|reflexivity]);
      repeat first [ apply Forall_app; split | apply Forall_cons; split
                   | apply Forall_nil | done ].
  - eexists. split; [rewrite <- ?app_assoc; reflexivity |].
    split; [by repeat constructor | reflexivity].
Qed.


(** X10.  A zone that the resolver does not find is counted as a failure
    and is not remembered: when the zone is not cached and no listed zone
    has a name that is or contains a candidate, the row fails after the
    listing call, nothing is submitted and the cache stays as it is. *)
Theorem process_row_zone_not_found (dry_run : bool) (row_num : Z)
    (row : gmap string (option string)) (w : world S) (l : locals)
    (env zone record_type name value ttl : string) (z : Z)
    (zones : list HostedZone) (s' : S) :
  row !! "env" = Some (Some env) ->
  row !! "zone" = Some (Some zone) ->
  row !! "type" = Some (Some record_type) ->
  row !! "name" = Some (Some name) ->
  row !! "value" = Some (Some value) ->
  row !! "ttl" = Some (Some ttl) ->
  int (strip ttl) = Some z ->
  upper (strip record_type) ∈ supported_types ->
  zone_id_cache l !! strip zone = None ->
  list_hosted_zones self (provider w) = (Ok zones, s') ->
  (forall h c, h ∈ zones -> c ∈ zone_name_search (strip zone) ->
               ~ occurs_in c (hz_Name h)) ->
  process_row self dry_run row_num row (w, l) =
    (Ok tt,
     ({| provider := s';
         trace := trace w ++
                  [Print (MsgProcessingRow row_num (strip env) (strip zone)
                            (upper (strip record_type)) (strip name) (strip value) z);
                   ListHostedZones;
                   Print (MsgZoneNotFound (strip zone))] |},
      incr_failures l)).
Proof.
  intros Henv Hzone Htype Hname Hvalue Httl Hint Hsup Hcache Hlist Hnone.
  assert (Hbroad : List.find (broad_match (zone_name_search (strip zone))) zones = None).
  { apply find_nothing_intro. intros h Hh. apply broad_match_false. intros c Hc.
    by apply Hnone. }
  assert (Hexact : List.find (exact_match (zone_name_search (strip zone))) zones = None).
  { apply find_nothing_intro. intros h Hh. apply exact_match_false. intros Hin.
    apply (Hnone h (hz_Name h)); [done | done |].
    exists EmptyString, EmptyString. by rewrite PyStrMore.app_nil_r_str. }
  unfold process_row.
  rewrite (field_present _ _ _ Henv), (field_present _ _ _ Hzone),
    (field_present _ _ _ Htype), (field_present _ _ _ Hname),
    (field_present _ _ _ Hvalue), (field_present _ _ _ Httl).
  rewrite fmap_ret, !bind_ret_l. unfold py_int. rewrite Hint, bind_ret_l.
  rewrite bool_decide_eq_false_2 by (by intros Hn).
  unfold try_except at 1.
  unfold mbind, Py_bind, bind, lift, print, emit, get_locals, modify, ret.
  cbn -[get_hosted_zone_id upload_record create_change_batch truthy]. rewrite Hcache.
  cbn -[get_hosted_zone_id upload_record create_change_batch truthy].
  rewrite (get_hosted_zone_id_listed self (strip zone) _ zones s') by exact Hlist.
  rewrite Hexact, Hbroad. cbn. by rewrite <- !app_assoc.
Qed.

(** X11.  A zone that the resolver finds is remembered under the name the
    row gives it: when the zone is not cached and the resolver returns an
    identifier that is not empty, the cache holds that identifier for the
    zone after the row, whatever becomes of the submission. *)
Theorem process_row_caches_zone (dry_run : bool) (row_num : Z)
    (row : gmap string (option string)) (w : world S) (l : locals)
    (env zone record_type name value ttl : string) (z : Z)
    (id : string) (w2 : world S) :
  row !! "env" = Some (Some env) ->
  row !! "zone" = Some (Some zone) ->
  row !! "type" = Some (Some record_type) ->
  row !! "name" = Some (Some name) ->
  row !! "value" = Some (Some value) ->
  row !! "ttl" = Some (Some ttl) ->
  int (strip ttl) = Some z ->
  upper (strip record_type) ∈ supported_types ->
  zone_id_cache l !! strip zone = None ->
  get_hosted_zone_id self (strip zone)
    {| provider := provider w;
       trace := trace w ++
                [Print (MsgProcessingRow row_num (strip env) (strip zone)
                          (upper (strip record_type)) (strip name) (strip value) z)] |}
    = (Ok (Some id), w2) ->
  id <> EmptyString ->
  zone_id_cache (process_row self dry_run row_num row (w, l)).2.2 =
    <[strip zone := id]> (zone_id_cache l).
Proof.
  intros Henv Hzone Htype Hname Hvalue Httl Hint Hsup Hcache Hget Hid.
  unfold process_row.
  rewrite (field_present _ _ _ Henv), (field_present _ _ _ Hzone),
    (field_present _ _ _ Htype), (field_present _ _ _ Hname),
    (field_present _ _ _ Hvalue), (field_present _ _ _ Httl).
  rewrite fmap_ret, !bind_ret_l. unfold py_int. rewrite Hint, bind_ret_l.
  rewrite bool_decide_eq_false_2 by (by intros Hn).
  unfold try_except at 1.
  unfold mbind, Py_bind, bind, lift, print, emit, get_locals, modify, ret.
  cbn -[get_hosted_zone_id upload_record create_change_batch truthy]. rewrite Hcache.
  cbn -[get_hosted_zone_id upload_record create_change_batch truthy].
  rewrite Hget.
  assert (Htruthy : truthy (Some id) = true)
    by (unfold truthy; by rewrite bool_decide_eq_false_2).
  rewrite Htruthy. cbn -[upload_record create_change_batch truthy]. rewrite Htruthy.
  destruct dry_run; cbn -[upload_record create_change_batch]; [reflexivity |].
  match goal with
  | |- context [upload_record self ?a ?t ?n ?zn ?v ?ttl ?w3] =>
      destruct (upload_record self a t n zn v ttl w3) as [[[|]|e] w4]
  end; cbn; try destruct (caught_row_error e); reflexivity.
Qed.

End Client.
Import Examples.Dns.

Lemma process_row_cache_hit_witness :
  exists evs,
    trace (process_row (static_client [example_zone]) true 2 example_row
             (w0, cached_locals)).2.1 = trace w0 ++ evs /\
    Forall (fun e => e <> ListHostedZones) evs /\
    zone_id_cache (process_row (static_client [example_zone]) true 2 example_row
                     (w0, cached_locals)).2.2 = zone_id_cache cached_locals.
Proof.
  apply (process_row_cache_hit (static_client [example_zone]) true 2 example_row
           w0 cached_locals "prod" "example.com" "cname" "www" "target.example.com"
           "300" 300 "Z1"); reflexivity.
Defined.

Lemma process_row_zone_not_found_witness :
  process_row (static_client []) false 2 example_row (w0, initial_locals) =
    (Ok tt,
     ({| provider := tt;
         trace := trace w0 ++
                  [Print (MsgProcessingRow 2 (strip "prod") (strip "example.com")
                            (upper (strip "cname")) (strip "www")
                            (strip "target.example.com") 300);
                   ListHostedZones;
                   Print (MsgZoneNotFound (strip "example.com"))] |},
      incr_failures initial_locals)).
Proof.
  apply (process_row_zone_not_found (static_client []) false 2 example_row
           w0 initial_locals "prod" "example.com" "cname" "www" "target.example.com"
           "300" 300 [] tt); try reflexivity.
  intros h c Hh. by apply not_elem_of_nil in Hh.
Defined.

Lemma process_row_caches_zone_witness :
  zone_id_cache (process_row (static_client [example_zone]) true 2 example_row
                   (w0, initial_locals)).2.2 =
    <[strip "example.com" := "Z1"]> (zone_id_cache initial_locals).
Proof.
  apply (process_row_caches_zone (static_client [example_zone]) true 2 example_row
           w0 initial_locals "prod" "example.com" "cname" "www" "target.example.com"
           "300" 300 "Z1"
           {| provider := tt;
              trace := [Print (MsgProcessingRow 2 "prod" "example.com" "CNAME" "www"
                                 "target.example.com" 300);
                        ListHostedZones] |}); try reflexivity.
  done.
Defined.

End DriverCache.

Module Uploading.
Import PyStr DnsUpload MonadFacts UploadDriver.

Section Client.
Context {S : Type}.
Variable self : Route53Client S.

(** [upload_record], by the answer of its one call. *)
Lemma upload_record_run
    (hosted_zone_id record_type record_name zone_name value : string) (ttl : Z)
    (w : world S) (r : outcome string) (s' : S) :
  let change_batch := create_change_batch record_type record_name zone_name value ttl in
  change_resource_record_sets self hosted_zone_id change_batch (provider w) = (r, s') ->
  upload_record self hosted_zone_id record_type record_name zone_name value ttl w =
    match r with
    | Ok change_id =>
        (Ok true,
         {| provider := s';
            trace := trace w ++ [ChangeResourceRecordSets hosted_zone_id change_batch;
                                 Print (MsgSubmitted change_id)] |})
    | Raise e =>
        if caught_client_error e then
          (Ok false,
           {| provider := s';
              trace := trace w ++ [ChangeResourceRecordSets hosted_zone_id change_batch;
                                   Print (MsgUploadError record_name zone_name e)] |})
        else
          (Raise e,
           {| provider := s';
              trace := trace w ++ [ChangeResourceRecordSets hosted_zone_id change_batch] |})
    end.
Proof.
  intros change_batch Hcall.
  unfold upload_record, try_except, mbind, Py_bind, bind, print, emit,
    call_change_resource_record_sets.
  fold change_batch. rewrite Hcall. destruct r as [change_id|e]; cbn.
  - by rewrite <- app_assoc.
  - destruct (caught_client_error e); cbn; [by rewrite <- app_assoc | done].
Qed.

(** A valid row whose zone is cached, up to the upload. *)
Lemma process_row_live_cached (row_num : Z) (row : gmap string (option string))
    (w : world S) (l : locals)
    (env zone record_type name value ttl : string) (z : Z) (cached : string) :
  row !! "env" = Some (Some env) ->
  row !! "zone" = Some (Some zone) ->
  row !! "type" = Some (Some record_type) ->
  row !! "name" = Some (Some name) ->
  row !! "value" = Some (Some value) ->
  row !! "ttl" = Some (Some ttl) ->
  int (strip ttl) = Some z ->
  upper (strip record_type) ∈ supported_types ->
  zone_id_cache l !! strip zone = Some cached ->
  cached <> EmptyString ->
  process_row self false row_num row (w, l) =
    try_except
      (result ← lift (upload_record self cached (upper (strip record_type))
                        (strip name) (strip zone) (strip value) z);
       (if result : bool then modify incr_successes else modify incr_failures);;
       lift (emit (Sleep 500)))
      caught_row_error
      (fun e => lift (print (MsgRowError row_num e));; modify incr_failures)
      ({| provider := provider w;
          trace := trace w ++
            [Print (MsgProcessingRow row_num (strip env) (strip zone)
                      (upper (strip record_type)) (strip name) (strip value) z);
             Print (MsgFoundZone cached (strip zone))] |}, l).
Proof.
  intros Henv Hzone Htype Hname Hvalue Httl Hint Hsup Hcache Hne.
  unfold process_row.
  rewrite (field_present _ _ _ Henv), (field_present _ _ _ Hzone),
    (field_present _ _ _ Htype), (field_present _ _ _ Hname),
    (field_present _ _ _ Hvalue), (field_present _ _ _ Httl).
  rewrite fmap_ret, !bind_ret_l. unfold py_int. rewrite Hint, bind_ret_l.
  rewrite bool_decide_eq_false_2 by (by intros Hn).
  assert (Htruthy : truthy (Some cached) = true).
  { unfold truthy. by rewrite bool_decide_eq_false_2. }
  unfold try_except, mbind, Py_bind, bind, lift, print, emit, get_locals, modify, ret.
  cbn -[upload_record create_change_batch truthy]. rewrite Hcache.
  cbn -[upload_record create_change_batch truthy]. rewrite Htruthy.
  cbn -[upload_record create_change_batch]. by rewrite <- !app_assoc.
Qed.

(** X12.  A live upload for a row whose zone is cached: the change is
    submitted under the cached identifier with the batch of the row's
    fields; the row counts as succeeded when the call returns and as
    failed when it raises [ClientError], and the half second of pause
    follows in both cases. *)
Theorem process_row_live_upload (row_num : Z) (row : gmap string (option string))
    (w : world S) (l : locals)
    (env zone record_type name value ttl : string) (z : Z) (cached : string)
    (r : outcome string) (s' : S) :
  let change_batch :=
    create_change_batch (upper (strip record_type)) (strip name) (strip zone)
      (strip value) z in
  row !! "env" = Some (Some env) ->
  row !! "zone" = Some (Some zone) ->
  row !! "type" = Some (Some record_type) ->
  row !! "name" = Some (Some name) ->
  row !! "value" = Some (Some value) ->
  row !! "ttl" = Some (Some ttl) ->
  int (strip ttl) = Some z ->
  upper (strip record_type) ∈ supported_types ->
  zone_id_cache l !! strip zone = Some cached ->
  cached <> EmptyString ->
  change_resource_record_sets self cached change_batch (provider w) = (r, s') ->
  (forall e, r = Raise e -> caught_client_error e = true) ->
  process_row self false row_num row (w, l) =
    (Ok tt,
     ({| provider := s';
         trace := trace w ++
           [Print (MsgProcessingRow row_num (strip env) (strip zone)
                     (upper (strip record_type)) (strip name) (strip value) z);
            Print (MsgFoundZone cached (strip zone));
            ChangeResourceRecordSets cached change_batch;
            Print (match r with
                   | Ok change_id => MsgSubmitted change_id
                   | Raise e => MsgUploadError (strip name) (strip zone) e
                   end);
            Sleep 500] |},
      match r with
      | Ok _ => incr_successes l
      | Raise _ => incr_failures l
      end)).
Proof.
  intros change_batch Henv Hzone Htype Hname Hvalue Httl Hint Hsup Hcache Hne Hcall Hcaught.
  rewrite (process_row_live_cached row_num row w l env zone record_type name value ttl z
             cached) by done.
  unfold try_except, mbind, Py_bind, bind, lift.
  match goal with
  | |- context [upload_record self _ _ _ _ _ _ ?w2] =>
      rewrite (upload_record_run cached _ _ _ _ z w2 r s' Hcall)
  end.
  destruct r as [change_id|e]; cbn.
  - by rewrite <- !app_assoc.
  - rewrite (Hcaught e eq_refl). cbn. by rewrite <- !app_assoc.
Qed.

(** X13.  [upload_record] catches [ClientError] only, and the loop
    catches [KeyError] and [ValueError] only: any other exception of the
    change call, [NoCredentialsError] for one, leaves the processing of
    the row after the call, with no row counted and no pause. *)
Theorem process_row_upload_uncaught (row_num : Z) (row : gmap string (option string))
    (w : world S) (l : locals)
    (env zone record_type name value ttl : string) (z : Z) (cached : string)
    (e : exn) (s' : S) :
  let change_batch :=
    create_change_batch (upper (strip record_type)) (strip name) (strip zone)
      (strip value) z in
  row !! "env" = Some (Some env) ->
  row !! "zone" = Some (Some zone) ->
  row !! "type" = Some (Some record_type) ->
  row !! "name" = Some (Some name) ->
  row !! "value" = Some (Some value) ->
  row !! "ttl" = Some (Some ttl) ->
  int (strip ttl) = Some z ->
  upper (strip record_type) ∈ supported_types ->
  zone_id_cache l !! strip zone = Some cached ->
  cached <> EmptyString ->
  change_resource_record_sets self cached change_batch (provider w) = (Raise e, s') ->
  caught_client_error e = false ->
  caught_row_error e = false ->
  process_row self false row_num row (w, l) =
    (Raise e,
     ({| provider := s';
         trace := trace w ++
           [Print (MsgProcessingRow row_num (strip env) (strip zone)
                     (upper (strip record_type)) (strip name) (strip value) z);
            Print (MsgFoundZone cached (strip zone));
            ChangeResourceRecordSets cached change_batch] |},
      l)).
Proof.
  intros change_batch Henv Hzone Htype Hname Hvalue Httl Hint Hsup Hcache Hne Hcall
    Hclient Hrow.
  rewrite (process_row_live_cached row_num row w l env zone record_type name value ttl z
             cached) by done.
  unfold try_except, mbind, Py_bind, bind, lift.
  match goal with
  | |- context [upload_record self _ _ _ _ _ _ ?w2] =>
      rewrite (upload_record_run cached _ _ _ _ z w2 (Raise e) s' Hcall)
  end.
  rewrite Hclient. cbn. rewrite Hrow. by rewrite <- !app_assoc.
Qed.

End Client.
Import Examples.Dns.

Lemma process_row_live_upload_witness :
  process_row (static_client [example_zone]) false 2 example_row (w0, cached_locals) =
    (Ok tt,
     ({| provider := tt;
         trace := [Print (MsgProcessingRow 2 "prod" "example.com" "CNAME" "www"
                            "target.example.com" 300);
                   Print (MsgFoundZone "Z1" "example.com");
                   ChangeResourceRecordSets "Z1"
                     (create_change_batch "CNAME" "www" "example.com"
                        "target.example.com" 300);
                   Print (MsgSubmitted "C123");
                   Sleep 500] |},
      incr_successes cached_locals)).
Proof.
  apply (process_row_live_upload (static_client [example_zone]) 2 example_row
           w0 cached_locals "prod" "example.com" "cname" "www" "target.example.com"
           "300" 300 "Z1" (Ok "C123") tt); try reflexivity; done.
Defined.

Lemma process_row_upload_uncaught_witness :
  process_row (no_credentials_client [example_zone]) false 2 example_row
    (w0, cached_locals) =
    (Raise NoCredentialsError,
     ({| provider := tt;
         trace := [Print (MsgProcessingRow 2 "prod" "example.com" "CNAME" "www"
                            "target.example.com" 300);
                   Print (MsgFoundZone "Z1" "example.com");
                   ChangeResourceRecordSets "Z1"
                     (create_change_batch "CNAME" "www" "example.com"
                        "target.example.com" 300)] |},
      cached_locals)).
Proof.
  apply (process_row_upload_uncaught (no_credentials_client [example_zone]) 2
           example_row w0 cached_locals "prod" "example.com" "cname" "www"
           "target.example.com" "300" 300 "Z1" NoCredentialsError tt);
    try reflexivity; done.
Defined.

End Uploading.

(** ** More on the upload driver: the counters *)

Module DriverCounts.
Import PyStr PyStrFacts DnsUpload MonadFacts UploadDriver DriverCalls.

Lemma same_counts_refl (l : locals) : same_counts l l.
Proof. by repeat split. Qed.

Lemma same_counts_trans (l1 l2 l3 : locals) :
  same_counts l1 l2 -> same_counts l2 l3 -> same_counts l1 l3.
Proof. unfold same_counts. intros (? & ? & ?) (? & ? & ?). repeat split; congruence. Qed.

Lemma same_one_more (l1 l2 l3 : locals) :
  same_counts l1 l2 -> one_more l2 l3 -> one_more l1 l3.
Proof.
  unfold same_counts, one_more. intros (-> & -> & ->) H. exact H.
Qed.

Lemma one_more_tally (l l' : locals) :
  one_more l l' ->
  tally l' = tally l + 1 /\
  successes l <= successes l' /\ failures l <= failures l' /\ skipped l <= skipped l'.
Proof. unfold one_more, tally. intros [H | [H | H]]; lia. Qed.

Section Rules.
Context {S : Type}.

Lemma counts_ret {A} (a : A) : counts (S:=S) false (ret a).
Proof. intros w l. apply same_counts_refl. Qed.

Lemma counts_raise {A} (b : bool) (e : exn) : counts (S:=S) (A:=A) b (raise e).
Proof. intros w l. apply same_counts_refl. Qed.

Lemma counts_lift {A} (m : Py (world S) A) : counts false (lift m).
Proof.
  intros w l. unfold lift. destruct (m w) as [[a|e] w']; apply same_counts_refl.
Qed.

Lemma counts_get_locals : counts (S:=S) false get_locals.
Proof. intros w l. apply same_counts_refl. Qed.

Lemma counts_cache_zone (zone id : string) :
  counts (S:=S) false (modify (cache_zone zone id)).
Proof. intros w l. by repeat split. Qed.

Lemma counts_incr_successes : counts (S:=S) true (modify incr_successes).
Proof. intros w l. left. by repeat split. Qed.

Lemma counts_incr_failures : counts (S:=S) true (modify incr_failures).
Proof. intros w l. right; left. by repeat split. Qed.

Lemma counts_incr_skipped : counts (S:=S) true (modify incr_skipped).
Proof. intros w l. right; right. by repeat split. Qed.

(** A step that counts nothing, then the rest. *)
Lemma counts_bind {A B} (b : bool) (m : Py (world S * locals) A)
    (k : A -> Py (world S * locals) B) :
  counts false m -> (forall a, counts b (k a)) -> counts b (m ≫= k).
Proof.
  intros Hm Hk w l. unfold mbind, Py_bind, bind.
  specialize (Hm w l). destruct (m (w, l)) as [[a|e] [w1 l1]]; simpl in *; [|done].
  specialize (Hk a w1 l1).
  destruct (k a (w1, l1)) as [[c|e] [w2 l2]]; simpl in *.
  - destruct b; [by eapply same_one_more | by eapply same_counts_trans].
  - by eapply same_counts_trans.
Qed.

(** An event after the count changes nothing. *)
Lemma counts_then_emit {A} (b : bool) (m : Py (world S * locals) A) (e : event) :
  counts b m -> counts b (m ≫= fun _ => lift (emit e)).
Proof.
  intros Hm w l. unfold mbind, Py_bind, bind, lift, emit.
  specialize (Hm w l). by destruct (m (w, l)) as [[a|e'] [w1 l1]].
Qed.

Lemma counts_try_except {A} (b : bool) (m : Py (world S * locals) A)
    (caught : exn -> bool) (h : exn -> Py (world S * locals) A) :
  counts b m -> (forall e, counts b (h e)) -> counts b (try_except m caught h).
Proof.
  intros Hm Hh w l. unfold try_except.
  specialize (Hm w l). destruct (m (w, l)) as [[a|e] [w1 l1]]; simpl in *; [done |].
  destruct (caught e); simpl; [|done].
  specialize (Hh e w1 l1).
  destruct (h e (w1, l1)) as [[c|e'] [w2 l2]]; simpl in *.
  - destruct b; [by eapply same_one_more | by eapply same_counts_trans].
  - by eapply same_counts_trans.
Qed.

Lemma counts_if {A} (b c : bool) (m1 m2 : Py (world S * locals) A) :
  counts b m1 -> counts b m2 -> counts b (if c then m1 else m2).
Proof. by destruct c. Qed.
End Rules.

Section Client.
Context {S : Type}.
Variable self : Route53Client S.

(** The processing of a row counts the row once when it returns, and
    leaves the counters as they are when it raises. *)
Lemma process_row_counts (dry_run : bool) (row_num : Z)
    (row : gmap string (option string)) :
  counts true (process_row self dry_run row_num row).
Proof.
  unfold process_row. apply counts_try_except.
  2: { intros e. apply counts_bind; [apply counts_lift | intros; apply counts_incr_failures]. }
  destruct (row !! "env") as [[env|]|] eqn:Henv;
    [ rewrite (field_present row "env" env Henv), bind_ret_l
    | rewrite (field_is_None row "env" Henv), bind_raise_l; apply counts_raise
    | rewrite (field_absent row "env" Henv), bind_raise_l; apply counts_raise ].
  destruct (row !! "zone") as [[zone|]|] eqn:Hzone;
    [ rewrite (field_present row "zone" zone Hzone), bind_ret_l
    | rewrite (field_is_None row "zone" Hzone), bind_raise_l; apply counts_raise
    | rewrite (field_absent row "zone" Hzone), bind_raise_l; apply counts_raise ].
  destruct (row !! "type") as [[type|]|] eqn:Htype;
    [ rewrite (field_present row "type" type Htype), fmap_ret, bind_ret_l
    | rewrite (field_is_None row "type" Htype), fmap_raise, bind_raise_l;
      apply counts_raise
    | rewrite (field_absent row "type" Htype), fmap_raise, bind_raise_l;
      apply counts_raise ].
  destruct (row !! "name") as [[name|]|] eqn:Hname;
    [ rewrite (field_present row "name" name Hname), bind_ret_l
    | rewrite (field_is_None row "name" Hname), bind_raise_l; apply counts_raise
    | rewrite (field_absent row "name" Hname), bind_raise_l; apply counts_raise ].
  destruct (row !! "value") as [[value|]|] eqn:Hvalue;
    [ rewrite (field_present row "value" value Hvalue), bind_ret_l
    | rewrite (field_is_None row "value" Hvalue), bind_raise_l; apply counts_raise
    | rewrite (field_absent row "value" Hvalue), bind_raise_l; apply counts_raise ].
  destruct (row !! "ttl") as [[ttl|]|] eqn:Httl;
    [ rewrite (field_present row "ttl" ttl Httl), bind_ret_l
    | rewrite (field_is_None row "ttl" Httl), !bind_raise_l; apply counts_raise
    | rewrite (field_absent row "ttl" Httl), !bind_raise_l; apply counts_raise ].
  unfold py_int. destruct (int (strip ttl)) as [z|] eqn:Hint;
    [rewrite bind_ret_l | rewrite bind_raise_l; apply counts_raise].
  apply counts_bind; [apply counts_lift | intros _].
  apply counts_if.
  { apply counts_bind; [apply counts_lift | intros _]. apply counts_incr_skipped. }
  apply counts_bind; [apply counts_get_locals | intros l].
  apply counts_bind.
  { destruct (zone_id_cache l !! strip zone); [apply counts_ret |].
    apply counts_bind; [apply counts_lift |].
    intros [found|]; [|apply counts_ret].
    apply counts_if; [|apply counts_ret].
    apply counts_bind; [apply counts_cache_zone | intros; apply counts_ret]. }
  intros [found|].
  - apply counts_if.
    + apply counts_bind; [apply counts_lift | intros _].
      destruct dry_run.
      * apply counts_bind; [apply counts_lift | intros _].
        apply counts_bind; [apply counts_lift | intros; apply counts_incr_successes].
      * apply counts_bind; [apply counts_lift | intros result].
        apply counts_then_emit.
        destruct result; [apply counts_incr_successes | apply counts_incr_failures].
    + apply counts_bind; [apply counts_lift | intros _]. apply counts_incr_failures.
  - apply counts_bind; [apply counts_lift | intros _]. apply counts_incr_failures.
Qed.

(** When the loop returns, every row has been counted once. *)
Lemma process_rows_tally (dry_run : bool) (rows : list (gmap string (option string)))
    (row_num : Z) (w : world S) (l : locals) :
  (process_rows self dry_run row_num rows (w, l)).1 = Ok tt ->
  let l' := (process_rows self dry_run row_num rows (w, l)).2.2 in
  tally l' = tally l + Z.of_nat (length rows) /\
  successes l <= successes l' /\ failures l <= failures l' /\ skipped l <= skipped l'.
Proof.
  revert row_num w l. induction rows as [|row rest IH]; intros row_num w l.
  - simpl. lia.
  - cbn [process_rows]. unfold mbind, Py_bind, bind.
    pose proof (process_row_counts dry_run row_num row w l) as Hrow.
    destruct (process_row self dry_run row_num row (w, l)) as [[[]|e] [w1 l1]];
      simpl in Hrow; [|done].
    intros Hok. specialize (IH (row_num + 1) w1 l1 Hok).
    apply one_more_tally in Hrow. cbn [length]. cbv zeta in *. lia.
Qed.

(** X14.  When [process_csv] returns, the last line it printed is the
    summary, and its three counts are not negative and add up to the
    number of data rows of the file that are not empty: every row is
    counted once, as succeeded, failed or skipped. *)
Theorem process_csv_summary (fs : gmap string (list (list string)))
    (csv_file : string) (rows : list (list string)) (dry_run : bool) (w : world S) :
  fs !! csv_file = Some rows ->
  (process_csv self fs csv_file dry_run w).1 = Ok tt ->
  exists evs s f k,
    trace (process_csv self fs csv_file dry_run w).2 =
      trace w ++ evs ++ [Print (MsgSummary s f k)] /\
    s + f + k = Z.of_nat (length (dict_rows rows)) /\
    0 <= s /\ 0 <= f /\ 0 <= k.
Proof.
  intros Hfs. unfold process_csv, process_csv_driver. rewrite Hfs.
  destruct (bad_header (fieldnames rows)); [done |].
  unfold mbind, Py_bind, bind.
  pose proof (process_rows_tally dry_run (dict_rows rows) 2 w initial_locals) as Htally.
  destruct (process_rows_events self (fun _ => True) dry_run 2 (dict_rows rows))
    with (w := (w, initial_locals)) as (evs & Htr & _); [done.. |].
  destruct (process_rows self dry_run 2 (dict_rows rows) (w, initial_locals))
    as [[[]|e] [w1 l1]]; [|done].
  intros _. specialize (Htally eq_refl). unfold driver_trace in Htr.
  cbn in Htally, Htr |- *.
  exists evs, (successes l1), (failures l1), (skipped l1).
  rewrite Htr, <- app_assoc. unfold tally in Htally. cbn in Htally.
  repeat split; lia.
Qed.

End Client.
Import Examples.Dns.

Lemma process_csv_summary_witness :
  exists evs s f k,
    trace (process_csv (static_client [example_zone]) fs_two_rows "records.csv"
             true w0).2 = trace w0 ++ evs ++ [Print (MsgSummary s f k)] /\
    s + f + k = 2 /\ 0 <= s /\ 0 <= f /\ 0 <= k.
Proof.
  apply (process_csv_summary (static_client [example_zone]) fs_two_rows "records.csv"
           [header;
            ["prod"; "example.com"; "CNAME"; "www"; "target.example.com"; "300"];
            ["prod"; "example.com"; "TXT"; "_verification"; "verification-code-here";
             "300"]]
           true w0).
  - reflexivity.
  - vm_compute. reflexivity.
Defined.

End DriverCounts.

(** ** More on the upload driver: rows, complete and short *)

Module DriverRows.
Import PyStr PyStrFacts DnsUpload MonadFacts Raising UploadDriver DriverCalls.

(** *** The dictionary of a row *)

Lemma foldl_insert_some (l : list (string * option string))
    (d : gmap string (option string)) (key : string) :
  (forall kv, kv ∈ l -> is_Some kv.2) ->
  (key ∈ l.*1 \/ exists v, d !! key = Some (Some v)) ->
  exists v, foldl (fun d kv => <[kv.1 := kv.2]> d) d l !! key = Some (Some v).
Proof.
  revert d. induction l as [|[k o] l IH]; intros d Hall Hkey; simpl.
  - destruct Hkey as [Hin | Hd]; [by apply not_elem_of_nil in Hin | exact Hd].
  - apply IH; [intros kv Hkv; apply Hall; by right |].
    destruct (decide (key ∈ l.*1)) as [Hin | Hnotin]; [by left | right].
    destruct (decide (key = k)) as [-> | Hne].
    + destruct (Hall (k, o)) as [v Hv]; [by left |]. simpl in Hv. subst o.
      exists v. apply lookup_insert_eq.
    + rewrite lookup_insert_ne by done.
      destruct Hkey as [Hin | Hd]; [|exact Hd].
      simpl in Hin. apply elem_of_cons in Hin as [-> | Hin]; done.
Qed.

Lemma foldl_insert_present (l : list (string * option string))
    (d : gmap string (option string)) (key : string) :
  (key ∈ l.*1 \/ is_Some (d !! key)) ->
  is_Some (foldl (fun d kv => <[kv.1 := kv.2]> d) d l !! key).
Proof.
  revert d. induction l as [|[k o] l IH]; intros d Hkey; simpl.
  - destruct Hkey as [Hin | Hd]; [by apply not_elem_of_nil in Hin | exact Hd].
  - apply IH.
    destruct (decide (key ∈ l.*1)) as [Hin | Hnotin]; [by left | right].
    destruct (decide (key = k)) as [-> | Hne].
    + rewrite lookup_insert_eq. eauto.
    + rewrite lookup_insert_ne by done.
      destruct Hkey as [Hin | Hd]; [|exact Hd].
      simpl in Hin. apply elem_of_cons in Hin as [-> | Hin]; done.
Qed.

(** A row with as many fields as the header, or more, gives a string
    under each field name. *)
Lemma dict_row_long (fieldnames row : list string) (key : string) :
  key ∈ fieldnames -> (length fieldnames <= length row)%nat ->
  exists v, dict_row fieldnames row !! key = Some (Some v).
Proof.
  intros Hkey Hlen. unfold dict_row.
  replace (length fieldnames - length row)%nat with 0%nat by lia.
  simpl. rewrite app_nil_r.
  apply foldl_insert_some.
  - intros [k o] Hkv. apply elem_of_zip_r in Hkv.
    apply list_elem_of_fmap in Hkv as (v & -> & _). by eexists.
  - left. rewrite fst_zip; [done |]. rewrite length_fmap. lia.
Qed.

(** Every field name is a key of the dictionary. *)
Lemma dict_row_present (fieldnames row : list string) (key : string) :
  key ∈ fieldnames -> is_Some (dict_row fieldnames row !! key).
Proof.
  intros Hkey. unfold dict_row. apply foldl_insert_present. left.
  rewrite fst_zip; [done |].
  rewrite length_app, length_fmap, length_replicate. lia.
Qed.

(** A row with fewer fields than the header gives [None] under the last
    field name. *)
Lemma dict_row_short (fieldnames row : list string) :
  (length row < length fieldnames)%nat ->
  exists key, key ∈ fieldnames /\ dict_row fieldnames row !! key = Some None.
Proof.
  intros Hlen. destruct fieldnames as [|k0 fns0] using rev_ind; [simpl in Hlen; lia |].
  clear IHfns0. rename fns0 into names, k0 into key.
  exists key. split; [apply elem_of_app; right; by left |].
  unfold dict_row. rewrite length_app in *. simpl in *.
  replace (length names + 1 - length row)%nat
    with (S (length names - length row)) by lia.
  rewrite replicate_S_end, app_assoc.
  rewrite zip_with_app.
  - rewrite foldl_app. simpl. apply lookup_insert_eq.
  - rewrite length_app, length_fmap, length_replicate. lia.
Qed.

Lemma header_keys (fieldnames : list string) :
  bad_header (Some fieldnames) = false ->
  forall key, key ∈ fieldnames <-> key ∈ expected_header.
Proof.
  intros Hgood key.
  assert (Hset : (list_to_set fieldnames : gset string) = expected_header).
  { destruct fieldnames as [|n ns]; [done |]. simpl in Hgood.
    apply bool_decide_eq_false in Hgood. by apply dec_stable. }
  by rewrite <- Hset, elem_of_list_to_set.
Qed.

Lemma dict_row_complete (fieldnames row : list string) :
  bad_header (Some fieldnames) = false ->
  (length fieldnames <= length row)%nat ->
  complete (dict_row fieldnames row).
Proof.
  intros Hgood Hlen key Hkey. apply dict_row_long; [|done].
  by apply (header_keys fieldnames Hgood).
Qed.

(** *** What leaves the processing of a row *)

Lemma expected_keys :
  "env" ∈ expected_header /\ "zone" ∈ expected_header /\ "type" ∈ expected_header /\
  "name" ∈ expected_header /\ "value" ∈ expected_header /\ "ttl" ∈ expected_header.
Proof. unfold expected_header. repeat split; apply elem_of_list_to_set; set_solver. Qed.

Section Client.
Context {S : Type}.
Variable self : Route53Client S.

Lemma raises_only_lift {A} (E : exn -> Prop) (m : Py (world S) A) :
  raises_only E m -> raises_only E (lift (S:=S) m).
Proof.
  intros Hm [w l] e. unfold lift. specialize (Hm w e).
  destruct (m w) as [r w']. exact Hm.
Qed.

Lemma raises_only_emit (E : exn -> Prop) (ev : event) : raises_only E (emit (S:=S) ev).
Proof. intros w e H. discriminate H. Qed.

Lemma raises_only_modify (E : exn -> Prop) (f : locals -> locals) :
  raises_only E (modify (S:=S) f).
Proof. intros [w l] e H. discriminate H. Qed.

Lemma raises_only_get_locals (E : exn -> Prop) : raises_only E (get_locals (S:=S)).
Proof. intros [w l] e H. discriminate H. Qed.

Hypothesis Hwb : well_behaved self.

(** With a provider that raises only what the uploader catches, the
    resolver and the submission always return. *)
Lemma get_hosted_zone_id_returns (zone_name : string) :
  raises_only (fun _ => False) (get_hosted_zone_id self zone_name).
Proof.
  unfold get_hosted_zone_id.
  apply (raises_only_try_except _ (fun e => caught_zone_error e = true)).
  - apply raises_only_bind.
    + intros w e. unfold call_list_hosted_zones.
      pose proof (proj1 Hwb (provider w) e) as H.
      destruct (list_hosted_zones self (provider w)) as [r s]. exact H.
    + intros zones. repeat case_match; apply raises_only_ret.
  - intros e He Hc. congruence.
  - intros e _ _. apply raises_only_bind; [apply raises_only_emit |].
    intros; apply raises_only_ret.
Qed.

Lemma upload_record_returns
    (hosted_zone_id record_type record_name zone_name value : string) (ttl : Z) :
  raises_only (fun _ => False)
    (upload_record self hosted_zone_id record_type record_name zone_name value ttl).
Proof.
  unfold upload_record.
  apply (raises_only_try_except _ (fun e => caught_client_error e = true)).
  - apply raises_only_bind.
    + intros w e. unfold call_change_resource_record_sets.
      pose proof (proj2 Hwb hosted_zone_id
                    (create_change_batch record_type record_name zone_name value ttl)
                    (provider w) e) as H.
      destruct (change_resource_record_sets self _ _ (provider w)) as [r s]. exact H.
    + intros id. apply raises_only_bind; [apply raises_only_emit |].
      intros; apply raises_only_ret.
  - intros e He Hc. congruence.
  - intros e _ _. apply raises_only_bind; [apply raises_only_emit |].
    intros; apply raises_only_ret.
Qed.

(** Only [AttributeError] leaves the processing of a row, and only for a
    row that lacks a field. *)
Lemma process_row_raises (dry_run : bool) (row_num : Z)
    (row : gmap string (option string)) :
  raises_only (fun e => e = AttributeError /\ ~ complete row)
    (process_row self dry_run row_num row).
Proof.
  destruct expected_keys as (Kenv & Kzone & Ktype & Kname & Kvalue & Kttl).
  set (E := fun e => e = AttributeError /\ ~ complete row).
  set (E0 := fun e => e = ValueError \/
                      ((e = AttributeError \/ e = KeyError) /\ ~ complete row)).
  assert (Hmissing : forall key, key ∈ expected_header ->
            (row !! key = Some None \/ row !! key = None) -> ~ complete row).
  { intros key Hkey Hrow Hc. destruct (Hc key Hkey) as [v Hv].
    destruct Hrow as [Hrow | Hrow]; congruence. }
  assert (Hsay : forall m, raises_only E0 (lift (S:=S) (print m)))
    by (intros m; apply raises_only_lift, raises_only_emit).
  unfold process_row. apply (raises_only_try_except _ E0).
  2: { intros e [-> | [[-> | ->] Hc]] Hcaught; try discriminate Hcaught.
       by split. }
  2: { intros e _ _. apply raises_only_bind; [|intros; apply raises_only_modify].
       apply raises_only_lift, raises_only_emit. }
  destruct (row !! "env") as [[env|]|] eqn:Henv;
    [ rewrite (field_present row "env" env Henv), bind_ret_l
    | rewrite (field_is_None row "env" Henv), bind_raise_l;
      apply raises_only_raise; right; split; [by left | eauto]
    | rewrite (field_absent row "env" Henv), bind_raise_l;
      apply raises_only_raise; right; split; [by right | eauto] ].
  destruct (row !! "zone") as [[zone|]|] eqn:Hzone;
    [ rewrite (field_present row "zone" zone Hzone), bind_ret_l
    | rewrite (field_is_None row "zone" Hzone), bind_raise_l;
      apply raises_only_raise; right; split; [by left | eauto]
    | rewrite (field_absent row "zone" Hzone), bind_raise_l;
      apply raises_only_raise; right; split; [by right | eauto] ].
  destruct (row !! "type") as [[type|]|] eqn:Htype;
    [ rewrite (field_present row "type" type Htype), fmap_ret, bind_ret_l
    | rewrite (field_is_None row "type" Htype), fmap_raise, bind_raise_l;
      apply raises_only_raise; right; split; [by left | eauto]
    | rewrite (field_absent row "type" Htype), fmap_raise, bind_raise_l;
      apply raises_only_raise; right; split; [by right | eauto] ].
  destruct (row !! "name") as [[name|]|] eqn:Hname;
    [ rewrite (field_present row "name" name Hname), bind_ret_l
    | rewrite (field_is_None row "name" Hname), bind_raise_l;
      apply raises_only_raise; right; split; [by left | eauto]
    | rewrite (field_absent row "name" Hname), bind_raise_l;
      apply raises_only_raise; right; split; [by right | eauto] ].
  destruct (row !! "value") as [[value|]|] eqn:Hvalue;
    [ rewrite (field_present row "value" value Hvalue), bind_ret_l
    | rewrite (field_is_None row "value" Hvalue), bind_raise_l;
      apply raises_only_raise; right; split; [by left | eauto]
    | rewrite (field_absent row "value" Hvalue), bind_raise_l;
      apply raises_only_raise; right; split; [by right | eauto] ].
  destruct (row !! "ttl") as [[ttl|]|] eqn:Httl;
    [ rewrite (field_present row "ttl" ttl Httl), bind_ret_l
    | rewrite (field_is_None row "ttl" Httl), !bind_raise_l;
      apply raises_only_raise; right; split; [by left | eauto]
    | rewrite (field_absent row "ttl" Httl), !bind_raise_l;
      apply raises_only_raise; right; split; [by right | eauto] ].
  unfold py_int. destruct (int (strip ttl)) as [z|] eqn:Hint;
    [rewrite bind_ret_l | rewrite bind_raise_l; apply raises_only_raise; by left].
  assert (Hzone_id : forall zn, raises_only E0 (lift (get_hosted_zone_id self zn))).
  { intros zn. apply raises_only_lift.
    apply (raises_only_mono (fun _ => False)); [done | apply get_hosted_zone_id_returns]. }
  assert (Hupload : forall a b c d e f,
            raises_only E0 (lift (upload_record self a b c d e f))).
  { intros. apply raises_only_lift.
    apply (raises_only_mono (fun _ => False)); [done | apply upload_record_returns]. }
  apply raises_only_bind; [apply Hsay | intros _].
  apply raises_only_if.
  { apply raises_only_bind; [apply Hsay | intros _]. apply raises_only_modify. }
  apply raises_only_bind; [apply raises_only_get_locals | intros l].
  apply raises_only_bind.
  { destruct (zone_id_cache l !! strip zone); [apply raises_only_ret |].
    apply raises_only_bind; [apply Hzone_id |].
    intros [found|]; [|apply raises_only_ret].
    apply raises_only_if; [|apply raises_only_ret].
    apply raises_only_bind; [apply raises_only_modify | intros; apply raises_only_ret]. }
  intros [found|].
  - apply raises_only_if.
    + apply raises_only_bind; [apply Hsay | intros _].
      destruct dry_run.
      * apply raises_only_bind; [apply Hsay | intros _].
        apply raises_only_bind; [apply Hsay | intros; apply raises_only_modify].
      * apply raises_only_bind; [apply Hupload | intros result].
        apply raises_only_bind.
        { destruct result; apply raises_only_modify. }
        intros _. apply raises_only_lift, raises_only_emit.
    + apply raises_only_bind; [apply Hsay | intros _]. apply raises_only_modify.
  - apply raises_only_bind; [apply Hsay | intros _]. apply raises_only_modify.
Qed.

Lemma process_rows_raises (dry_run : bool) (rows : list (gmap string (option string)))
    (row_num : Z) :
  raises_only (fun e => e = AttributeError /\ exists row, row ∈ rows /\ ~ complete row)
    (process_rows self dry_run row_num rows).
Proof.
  revert row_num. induction rows as [|row rest IH]; intros row_num; simpl.
  - apply raises_only_ret.
  - apply raises_only_bind.
    + eapply raises_only_mono; [|apply process_row_raises].
      intros e [-> Hc]. split; [done |]. exists row. split; [by left | done].
    + intros _. eapply raises_only_mono; [|apply IH].
      intros e [-> (row' & Hin & Hc)]. split; [done |]. exists row'.
      split; [by right | done].
Qed.

End Client.

(** A row that has every column but [None] under one of them stops the
    run: [AttributeError] is raised before anything is printed. *)
Lemma process_row_lacking_field {S} (self : Route53Client S) (dry_run : bool)
    (row_num : Z) (row : gmap string (option string)) (w : world S) (l : locals) :
  (forall key, key ∈ expected_header -> is_Some (row !! key)) ->
  (exists key, key ∈ expected_header /\ row !! key = Some None) ->
  process_row self dry_run row_num row (w, l) = (Raise AttributeError, (w, l)).
Proof.
  intros Hpresent (key & Hkey & Hnone).
  destruct expected_keys as (Kenv & Kzone & Ktype & Kname & Kvalue & Kttl).
  unfold process_row.
  destruct (Hpresent "env" Kenv) as [[env|] Henv];
    [rewrite (field_present row "env" env Henv), bind_ret_l
    | by rewrite (field_is_None row "env" Henv), bind_raise_l].
  destruct (Hpresent "zone" Kzone) as [[zone|] Hzone];
    [rewrite (field_present row "zone" zone Hzone), bind_ret_l
    | by rewrite (field_is_None row "zone" Hzone), bind_raise_l].
  destruct (Hpresent "type" Ktype) as [[type|] Htype];
    [rewrite (field_present row "type" type Htype), fmap_ret, bind_ret_l
    | by rewrite (field_is_None row "type" Htype), fmap_raise, bind_raise_l].
  destruct (Hpresent "name" Kname) as [[name|] Hname];
    [rewrite (field_present row "name" name Hname), bind_ret_l
    | by rewrite (field_is_None row "name" Hname), bind_raise_l].
  destruct (Hpresent "value" Kvalue) as [[value|] Hvalue];
    [rewrite (field_present row "value" value Hvalue), bind_ret_l
    | by rewrite (field_is_None row "value" Hvalue), bind_raise_l].
  destruct (Hpresent "ttl" Kttl) as [[ttl|] Httl];
    [| by rewrite (field_is_None row "ttl" Httl), !bind_raise_l].
  exfalso. unfold expected_header in Hkey. rewrite elem_of_list_to_set in Hkey.
  repeat (apply elem_of_cons in Hkey as [-> | Hkey]; [congruence |]).
  by apply not_elem_of_nil in Hkey.
Qed.

Lemma process_row_short {S} (self : Route53Client S) (dry_run : bool)
    (row_num : Z) (fieldnames row : list string) (w : world S) (l : locals) :
  bad_header (Some fieldnames) = false ->
  (length row < length fieldnames)%nat ->
  process_row self dry_run row_num (dict_row fieldnames row) (w, l) =
    (Raise AttributeError, (w, l)).
Proof.
  intros Hgood Hshort. apply process_row_lacking_field.
  - intros key Hkey. apply dict_row_present. by apply (header_keys fieldnames Hgood).
  - destruct (dict_row_short fieldnames row Hshort) as (key & Hkey & Hnone).
    exists key. split; [by apply (header_keys fieldnames Hgood) | done].
Qed.

(** X15.  Under an accepted header, a data row with fewer fields than the
    header stops the run, whatever the provider: [csv.DictReader] gives
    [None] for the fields that lack, and the processing of the row raises
    [AttributeError] before it prints, counts or calls anything. *)
Theorem process_row_short_row {S} (self : Route53Client S) (dry_run : bool)
    (row_num : Z) (fieldnames row : list string) (w : world S) (l : locals) :
  bad_header (Some fieldnames) = false ->
  (length row < length fieldnames)%nat ->
  (process_row self dry_run row_num (dict_row fieldnames row) (w, l)).1 =
    Raise AttributeError /\
  (process_row self dry_run row_num (dict_row fieldnames row) (w, l)).2 = (w, l) /\
  exists key, key ∈ fieldnames /\ dict_row fieldnames row !! key = Some None.
Proof.
  intros Hgood Hshort.
  rewrite (process_row_short self dry_run row_num fieldnames row w l Hgood Hshort).
  repeat split. by apply dict_row_short.
Qed.

Lemma elem_of_dict_rows (fieldnames : list string) (data : list (list string))
    (d : gmap string (option string)) :
  d ∈ dict_rows (fieldnames :: data) <->
  exists row, row ∈ data /\ row <> [] /\ d = dict_row fieldnames row.
Proof.
  unfold dict_rows. rewrite list_elem_of_fmap. split.
  - intros (row & -> & Hin). apply list_elem_of_filter in Hin as [Hne Hin]. eauto.
  - intros (row & Hin & Hne & ->). exists row. split; [done |].
    by apply list_elem_of_filter.
Qed.

Lemma process_rows_stop {S} (self : Route53Client S) (dry_run : bool)
    (fieldnames : list string) (rows : list (gmap string (option string)))
    (row_num : Z) (w : world S) (l : locals) :
  bad_header (Some fieldnames) = false ->
  (exists row, dict_row fieldnames row ∈ rows /\ (length row < length fieldnames)%nat) ->
  (process_rows self dry_run row_num rows (w, l)).1 <> Ok tt.
Proof.
  intros Hgood. revert row_num w l.
  induction rows as [|d rest IH]; intros row_num w l (row & Hin & Hshort).
  - by apply not_elem_of_nil in Hin.
  - cbn [process_rows]. unfold mbind, Py_bind, bind.
    apply elem_of_cons in Hin as [<- | Hin].
    + by rewrite (process_row_short self dry_run row_num fieldnames row w l).
    + destruct (process_row self dry_run row_num d (w, l)) as [[[]|e] [w1 l1]];
        [|done].
      apply IH. eauto.
Qed.

(** X16.  With a provider that raises only what the uploader catches, and
    a file whose header is accepted, [process_csv] returns exactly when
    every data row that is not empty has as many fields as the header, or
    more; and when it does not return, what it raises is
    [AttributeError]. *)
Theorem process_csv_returns_iff {S} (self : Route53Client S)
    (fs : gmap string (list (list string))) (csv_file : string)
    (fieldnames : list string) (data : list (list string)) (dry_run : bool)
    (w : world S) :
  well_behaved self ->
  fs !! csv_file = Some (fieldnames :: data) ->
  bad_header (Some fieldnames) = false ->
  ((process_csv self fs csv_file dry_run w).1 = Ok tt <->
   forall row, row ∈ data -> row <> [] -> (length fieldnames <= length row)%nat) /\
  (forall e, (process_csv self fs csv_file dry_run w).1 = Raise e -> e = AttributeError).
Proof.
  intros Hwb Hfs Hgood.
  unfold process_csv, process_csv_driver. rewrite Hfs. cbn [DnsUpload.fieldnames head].
  rewrite Hgood. unfold mbind, Py_bind, bind.
  pose proof (process_rows_raises self Hwb dry_run
                (dict_rows (fieldnames :: data)) 2 (w, initial_locals)) as Hraise.
  pose proof (process_rows_stop self dry_run fieldnames
                (dict_rows (fieldnames :: data)) 2 w initial_locals Hgood) as Hstop.
  destruct (process_rows self dry_run 2 (dict_rows (fieldnames :: data))
              (w, initial_locals)) as [[[]|e] [w1 l1]]; cbn in *.
  - split; [|done]. split; [|done]. intros _ row Hin Hne.
    destruct (decide (length fieldnames <= length row)%nat) as [|Hshort]; [done |].
    exfalso. apply Hstop; [|done]. exists row. split; [|lia].
    apply elem_of_dict_rows. eauto.
  - destruct (Hraise e eq_refl) as [-> (d & Hd & Hincomplete)].
    split; [|by intros ? [= <-]]. split; [done |]. intros Hall. exfalso.
    apply Hincomplete. apply elem_of_dict_rows in Hd as (row & Hin & Hne & ->).
    apply dict_row_complete; [done |]. by apply Hall.
Qed.

Import Examples.Dns.

Lemma process_row_short_row_witness :
  (process_row (static_client [example_zone]) false 2 (dict_row header short_row)
     (w0, initial_locals)).1 = Raise AttributeError /\
  (process_row (static_client [example_zone]) false 2 (dict_row header short_row)
     (w0, initial_locals)).2 = (w0, initial_locals) /\
  exists key, key ∈ header /\ dict_row header short_row !! key = Some None.
Proof.
  apply (process_row_short_row (static_client [example_zone]) false 2 header short_row
           w0 initial_locals).
  - vm_compute. reflexivity.
  - simpl. lia.
Defined.

Lemma process_csv_returns_iff_witness :
  ((process_csv (static_client [example_zone]) fs_short_row "records.csv" false w0).1
     = Ok tt <->
   forall row, row ∈ [short_row; full_row] -> row <> [] ->
               (length header <= length row)%nat) /\
  (forall e,
     (process_csv (static_client [example_zone]) fs_short_row "records.csv" false w0).1
       = Raise e -> e = AttributeError).
Proof.
  apply (process_csv_returns_iff (static_client [example_zone]) fs_short_row
           "records.csv" header [short_row; full_row] false w0).
  - split; intros; discriminate.
  - reflexivity.
  - vm_compute. reflexivity.
Defined.

End DriverRows.

Module MainDns.
Import DnsUpload MonadFacts Raising.

Section Client.
Context {S : Type}.
Variable self : Route53Client S.

Lemma run_result {A} (m : Py (world S) A) (sh : shell S) :
  (run m sh).1 = (m {| provider := sh_provider sh; trace := [] |}).1 /\
  sh_provider (run m sh).2 = provider (m {| provider := sh_provider sh; trace := [] |}).2 /\
  sh_trace (run m sh).2 =
    sh_trace sh ++ (Core <$> trace (m {| provider := sh_provider sh; trace := [] |}).2).
Proof.
  unfold run. by destruct (m {| provider := sh_provider sh; trace := [] |}) as [r w].
Qed.

(** [main] in the third case, where it hands over to [process_csv]. *)
Lemma main_process_csv (fs : gmap string (list (list string))) (args : Args)
    (csv_file : string) (sh : shell S) :
  a_create_template args = false ->
  a_csv_file args = Some csv_file ->
  csv_file <> EmptyString ->
  main self fs args sh =
    run (process_csv self fs csv_file (a_dry_run args))
      {| sh_provider := sh_provider sh; sh_trace := sh_trace sh ++ banner |}.
Proof.
  intros Hflag Hfile Hne. unfold main. rewrite Hflag, Hfile. cbn [truthy default].
  rewrite bool_decide_eq_false_2 by done. cbn [negb].
  unfold mbind, Py_bind, bind, say. cbn. by rewrite <- !app_assoc.
Qed.

Lemma main_without_file (fs : gmap string (list (list string))) (args : Args)
    (sh : shell S) :
  a_create_template args = false ->
  truthy (a_csv_file args) = false ->
  main self fs args sh =
    (Raise (SystemExit 1),
     {| sh_provider := sh_provider sh;
        sh_trace := sh_trace sh ++ banner ++ [Say SayHelp; Say SayNoCsvFile] |}).
Proof.
  intros Hflag Hfile. unfold main. rewrite Hflag, Hfile. cbn [negb].
  unfold mbind, Py_bind, bind, say, sys_exit, raise. cbn.
  by rewrite <- !app_assoc.
Qed.

Lemma main_cases (fs : gmap string (list (list string))) (args : Args) (sh : shell S) :
  (exists evs,
     sh_trace (main self fs args sh).2 = sh_trace sh ++ evs /\
     Forall (fun e => forall c, e <> Core c) evs /\
     ((main self fs args sh).1 = Ok tt \/ (main self fs args sh).1 = Raise (SystemExit 1)))
  \/ (exists csv_file,
        a_create_template args = false /\
        a_csv_file args = Some csv_file /\
        csv_file <> EmptyString /\
        main self fs args sh =
          run (process_csv self fs csv_file (a_dry_run args))
            {| sh_provider := sh_provider sh; sh_trace := sh_trace sh ++ banner |}).
Proof.
  destruct (a_create_template args) eqn:Hflag.
  - left. unfold main. rewrite Hflag. eexists. split; [|split; [|by left]].
    + unfold create_template, mbind, Py_bind, bind, say, write_file. cbn.
      rewrite <- !app_assoc. reflexivity.
    + repeat constructor; done.
  - destruct (truthy (a_csv_file args)) eqn:Hfile.
    + right. destruct (a_csv_file args) as [csv_file|] eqn:Hsome; [|done].
      exists csv_file. cbn in Hfile. apply negb_true_iff, bool_decide_eq_false in Hfile.
      repeat split; try done. by apply main_process_csv.
    + left. rewrite (main_without_file fs args sh Hflag Hfile).
      eexists. split; [reflexivity |]. split; [|by right].
      repeat constructor; done.
Qed.

(** X17.  [--create-template] comes first: with it [main] writes the
    three lines of the template to [dns_records_template.csv], prints its
    two lines and returns, whatever the CSV file and [--dry-run] are; the
    provider is not called and no file is read. *)
Theorem main_create_template_first (fs : gmap string (list (list string)))
    (args : Args) (sh : shell S) :
  a_create_template args = true ->
  main self fs args sh =
    (Ok tt,
     {| sh_provider := sh_provider sh;
        sh_trace := sh_trace sh ++ banner ++
          [WriteFile "dns_records_template.csv" template_content;
           Say (SayTemplateCreated "dns_records_template.csv");
           Say SayFillTemplate] |}).
Proof.
  intros Hflag. unfold main. rewrite Hflag.
  unfold create_template, mbind, Py_bind, bind, say, write_file. cbn.
  by rewrite <- !app_assoc.
Qed.

(** X18.  [main] calls the provider only through [process_csv] on a file
    that exists and has the six columns as its header: a call in its
    trace means that [--create-template] was not given, and that the
    CSV file was named, is there and passed the check of its header. *)
Theorem main_calls_need_file (fs : gmap string (list (list string)))
    (args : Args) (sh : shell S) :
  exists evs,
    sh_trace (main self fs args sh).2 = sh_trace sh ++ evs /\
    ((exists c, Core c ∈ evs /\ is_provider_call c) ->
     a_create_template args = false /\
     exists csv_file rows,
       a_csv_file args = Some csv_file /\ csv_file <> EmptyString /\
       fs !! csv_file = Some rows /\ bad_header (fieldnames rows) = false).
Proof.
  destruct (main_cases fs args sh)
    as [(evs & Htr & Hquiet & _) | (csv_file & Hflag & Hfile & Hne & ->)].
  - exists evs. split; [done |]. intros (c & Hin & _).
    rewrite Forall_forall in Hquiet. by destruct (Hquiet _ Hin c).
  - set (sh' := {| sh_provider := sh_provider sh; sh_trace := sh_trace sh ++ banner |}).
    destruct (run_result (process_csv self fs csv_file (a_dry_run args)) sh')
      as (_ & _ & ->).
    cbn [sh_trace sh_provider sh']. rewrite <- app_assoc. eexists. split; [done |].
    intros (c & Hin & Hcall). split; [done |]. exists csv_file.
    apply elem_of_app in Hin as [Hin | Hin].
    { exfalso. unfold banner in Hin.
      repeat (apply elem_of_cons in Hin as [? | Hin]; [done |]).
      by apply not_elem_of_nil in Hin. }
    apply list_elem_of_fmap in Hin as (c' & [= <-] & Hin).
    revert Hin. unfold process_csv, process_csv_driver.
    destruct (fs !! csv_file) as [rows|] eqn:Hfs.
    + destruct (bad_header (fieldnames rows)) eqn:Hbad.
      * cbn. intros Hin. apply list_elem_of_singleton in Hin as ->. done.
      * intros _. by exists rows.
    + cbn. intros Hin. apply list_elem_of_singleton in Hin as ->. done.
Qed.

(** X19.  With [--dry-run], whatever the other arguments and the file
    are, [main] submits no change and does not pause: all it does to the
    provider is to list the hosted zones. *)
Theorem main_dry_run_changes_nothing (fs : gmap string (list (list string)))
    (args : Args) (sh : shell S) :
  a_dry_run args = true ->
  exists evs,
    sh_trace (main self fs args sh).2 = sh_trace sh ++ evs /\
    forall c, Core c ∈ evs -> is_print c \/ c = ListHostedZones.
Proof.
  intros Hdry.
  destruct (main_cases fs args sh)
    as [(evs & Htr & Hquiet & _) | (csv_file & Hflag & Hfile & Hne & ->)].
  - exists evs. split; [done |]. intros c Hin.
    rewrite Forall_forall in Hquiet. by destruct (Hquiet _ Hin c).
  - set (sh' := {| sh_provider := sh_provider sh; sh_trace := sh_trace sh ++ banner |}).
    destruct (run_result (process_csv self fs csv_file (a_dry_run args)) sh')
      as (_ & _ & ->).
    cbn [sh_trace sh_provider sh']. rewrite <- app_assoc. eexists. split; [done |].
    intros c Hin. apply elem_of_app in Hin as [Hin | Hin].
    { exfalso. unfold banner in Hin.
      repeat (apply elem_of_cons in Hin as [? | Hin]; [done |]).
      by apply not_elem_of_nil in Hin. }
    apply list_elem_of_fmap in Hin as (c' & [= <-] & Hin). rewrite Hdry in Hin.
    destruct (DriverCalls.process_csv_events self
                (fun e => is_print e \/ e = ListHostedZones) fs csv_file true)
      with (w := {| provider := sh_provider sh; trace := [] |})
      as (evs & Htr & Hall); [by left | by right | done |].
    rewrite Htr in Hin. cbn in Hin. rewrite Forall_forall in Hall. by apply Hall.
Qed.



(** X21.  Without [--create-template], a CSV file that is not named, or
    named by the empty string, makes [main] print its help and exit with
    code 1: no file is read and the provider is not called. *)
Theorem main_no_csv_file (fs : gmap string (list (list string))) (args : Args)
    (sh : shell S) :
  a_create_template args = false ->
  a_csv_file args = None \/ a_csv_file args = Some EmptyString ->
  main self fs args sh =
    (Raise (SystemExit 1),
     {| sh_provider := sh_provider sh;
        sh_trace := sh_trace sh ++ banner ++ [Say SayHelp; Say SayNoCsvFile] |}).
Proof.
  intros Hflag Hfile. apply main_without_file; [done |].
  by destruct Hfile as [-> | ->].
Qed.

End Client.
Import Examples.Dns.

Lemma main_create_template_first_witness :
  main (static_client [example_zone]) fs_two_rows args_template s0 =
    (Ok tt,
     {| sh_provider := tt;
        sh_trace := sh_trace s0 ++ banner ++
          [WriteFile "dns_records_template.csv" template_content;
           Say (SayTemplateCreated "dns_records_template.csv");
           Say SayFillTemplate] |}).
Proof.
  apply (main_create_template_first (static_client [example_zone]) fs_two_rows
           args_template s0).
  reflexivity.
Defined.

Lemma main_dry_run_changes_nothing_witness :
  exists evs,
    sh_trace (main (static_client [example_zone]) fs_two_rows (args_upload true) s0).2
      = sh_trace s0 ++ evs /\
    forall c, Core c ∈ evs -> is_print c \/ c = ListHostedZones.
Proof.
  apply (main_dry_run_changes_nothing (static_client [example_zone]) fs_two_rows
           (args_upload true) s0).
  reflexivity.
Defined.


Lemma main_no_csv_file_witness :
  main (static_client [example_zone]) fs_two_rows args_nothing s0 =
    (Raise (SystemExit 1),
     {| sh_provider := tt;
        sh_trace := sh_trace s0 ++ banner ++ [Say SayHelp; Say SayNoCsvFile] |}).
Proof.
  apply (main_no_csv_file (static_client [example_zone]) fs_two_rows args_nothing s0).
  - reflexivity.
  - by left.
Defined.

End MainDns.

Module RebootMore.
Import RebootEc2 MonadFacts Raising Locator.

Section Rebooter.
Context {S : Type}.
Variable self : EC2Rebooter S.

(** *** What leaves the three methods *)







Section WellBehaved.
Hypothesis Hwb : well_behaved (ec2 self).





End WellBehaved.

(** *** The events of the three methods *)

Lemma only_call_reboot_instances (P : event -> Prop) (ids : list (option string))
    (dry : bool) :
  P (RebootInstances ids dry) -> only trace P (call_reboot_instances self ids dry).
Proof.
  intros HP w. exists [RebootInstances ids dry]. unfold call_reboot_instances.
  destruct (reboot_instances (ec2 self) ids dry (provider w)).
  split; [done | by apply Forall_singleton].
Qed.

Lemma only_call_waiter_wait (P : event -> Prop) (ids : list (option string))
    (delay attempts : Z) :
  P (WaitInstanceStatusOk ids delay attempts) ->
  only trace P (call_waiter_wait self ids delay attempts).
Proof.
  intros HP w. exists [WaitInstanceStatusOk ids delay attempts]. unfold call_waiter_wait.
  destruct (instance_status_ok_wait (ec2 self) ids delay attempts (provider w)).
  split; [done | by apply Forall_singleton].
Qed.

Ltac emits :=
  repeat first
    [ apply only_ret
    | apply only_raise
    | apply only_emit_event; by auto
    | apply only_print_each; by auto
    | apply only_call_describe_instances; by auto
    | apply only_if
    | apply only_bind; [| intros ?] ].

Lemma get_instance_by_name_emits (P : event -> Prop) (name : string) :
  (forall m, P (Print m)) ->
  P (DescribeInstances (Filters (name_filters name))) ->
  only trace P (get_instance_by_name self name).
Proof.
  intros Hprint Hdescribe. unfold get_instance_by_name. apply only_try_except.
  - apply only_bind; [by apply only_call_describe_instances |].
    intros response. destruct (instance_ids response); unfold print; emits.
  - intros e. unfold print. emits.
Qed.

Lemma post_check_emits (P : event -> Prop) (instance_id instance_state : option string) :
  (forall m, P (Print m)) ->
  P (DescribeInstances (InstanceIds [instance_id])) ->
  only trace P (post_check self instance_id instance_state).
Proof.
  intros Hprint Hdescribe. unfold post_check. apply only_try_except.
  - apply only_bind; [by apply only_call_describe_instances |].
    intros response. destruct (first_instance response); unfold print; emits.
  - intros e. unfold print. emits.
Qed.

Lemma reboot_instance_emits (P : event -> Prop) (instance_id : option string)
    (dry_run : bool) :
  (forall m, P (Print m)) ->
  P (DescribeInstances (InstanceIds [instance_id])) ->
  P (RebootInstances [instance_id] dry_run) ->
  (dry_run = false -> P (Sleep 5)) ->
  only trace P (reboot_instance self instance_id dry_run).
Proof.
  intros Hprint Hdescribe Hreboot Hsleep. unfold reboot_instance. apply only_try_except.
  - apply only_bind; [by apply only_emit_event | intros _].
    apply only_bind; [by apply only_call_describe_instances |].
    intros response. destruct (first_instance response) as [instance|];
      [|unfold print; emits].
    apply only_bind; [by apply only_emit_event | intros _].
    apply only_bind; [unfold print; emits | intros _].
    apply only_bind; [by apply only_call_reboot_instances |].
    intros response'. destruct dry_run; [unfold print; emits |].
    apply only_if; [|unfold print; emits].
    apply only_bind; [by apply only_emit_event | intros _].
    apply only_bind; [unfold print; emits | intros _].
    apply only_bind; [by apply only_emit_event | intros _].
    apply only_bind; [by apply only_emit_event, Hsleep | intros _].
    apply only_bind; [by apply post_check_emits | intros _]. apply only_ret.
  - intros e. destruct e; try apply only_raise. unfold print. emits.
Qed.

Lemma wait_for_instance_ok_emits (P : event -> Prop) (instance_id : option string)
    (timeout : Z) :
  (forall m, P (Print m)) ->
  P (WaitInstanceStatusOk [instance_id] 15 (timeout `div` 15)) ->
  only trace P (wait_for_instance_ok self instance_id timeout).
Proof.
  intros Hprint Hwait. unfold wait_for_instance_ok. apply only_try_except.
  - cbv zeta.
    apply only_bind; [by apply only_emit_event | intros _].
    apply only_bind; [by apply only_emit_event | intros _].
    apply only_bind; [by apply only_call_waiter_wait | intros _].
    unfold print. emits.
  - intros e. unfold print. emits.
Qed.

(** *** reboot_instance *)

(** X22.  When the describe call before the reboot finds no instance in
    the first reservation, [reboot_instance] says so and returns [False]
    in both modes: the reboot operation is not called. *)
Theorem reboot_instance_not_found (instance_id : option string) (dry_run : bool)
    (w : world S) (response : DescribeResponse) (s1 : S) :
  describe_instances (ec2 self) (InstanceIds [instance_id]) (provider w)
    = (Ok response, s1) ->
  first_instance response = None ->
  reboot_instance self instance_id dry_run w =
    (Ok false,
     {| provider := s1;
        trace := trace w ++
          [Print (MsgRebooting instance_id (region self));
           DescribeInstances (InstanceIds [instance_id]);
           Print (MsgNotFound instance_id)] |}).
Proof.
  intros Hd Hnone.
  unfold reboot_instance, try_except, mbind, Py_bind, bind, print, emit,
    call_describe_instances.
  cbn. rewrite Hd. cbn. rewrite Hnone. cbn. by rewrite <- !app_assoc.
Qed.

Lemma pre_check_plain (instance_id : option string) (instance : Instance) :
  Forall plain (pre_check_events self instance_id instance).
Proof.
  unfold pre_check_events. destruct (unexpected_state _); by repeat constructor.
Qed.

(** X23.  A reboot call answered with a status other than 200, or with
    none, makes a live [reboot_instance] return [False] although the
    request was sent: it prints the code and neither pauses nor
    describes the instance again. *)
Theorem reboot_instance_unexpected_status (instance_id : option string) (w : world S)
    (response : DescribeResponse) (s1 : S) (instance : Instance)
    (answer : ResponseMetadata) (s2 : S) :
  describe_instances (ec2 self) (InstanceIds [instance_id]) (provider w)
    = (Ok response, s1) ->
  first_instance response = Some instance ->
  reboot_instances (ec2 self) [instance_id] false s1 = (Ok answer, s2) ->
  HTTPStatusCode answer <> Some 200 ->
  reboot_instance self instance_id false w =
    (Ok false,
     {| provider := s2;
        trace := trace w ++ pre_check_events self instance_id instance ++
          [RebootInstances [instance_id] false;
           Print (MsgUnexpectedCode (HTTPStatusCode answer))] |}).
Proof.
  intros Hd Hfirst Hr Hcode.
  unfold reboot_instance, pre_check_events, try_except, mbind, Py_bind, bind, print,
    emit, call_describe_instances, call_reboot_instances.
  cbn. rewrite Hd. cbn. rewrite Hfirst. cbn.
  destruct (unexpected_state (state_name instance)); cbn; rewrite Hr; cbn;
    rewrite bool_decide_eq_false_2 by done; cbn; by rewrite <- !app_assoc.
Qed.

(** X24.  A [ClientError] of the reboot call is told apart by its code
    alone, in both modes: [DryRunOperation] makes [reboot_instance]
    print the line of a dry run and return [True], any other code makes
    it print the error and its code and return [False]. *)
Theorem reboot_instance_client_error (instance_id : option string) (dry_run : bool)
    (w : world S) (response : DescribeResponse) (s1 : S) (instance : Instance)
    (code : string) (s2 : S) :
  describe_instances (ec2 self) (InstanceIds [instance_id]) (provider w)
    = (Ok response, s1) ->
  first_instance response = Some instance ->
  reboot_instances (ec2 self) [instance_id] dry_run s1 = (Raise (ClientError code), s2) ->
  reboot_instance self instance_id dry_run w =
    (Ok (bool_decide (code = "DryRunOperation")),
     {| provider := s2;
        trace := trace w ++ pre_check_events self instance_id instance ++
          RebootInstances [instance_id] dry_run ::
          (if bool_decide (code = "DryRunOperation")
           then [Print (MsgDryRunWouldReboot instance_id)]
           else [Print (MsgRebootError instance_id (ClientError code));
                 Print (MsgErrorCode code)]) |}).
Proof.
  intros Hd Hfirst Hr.
  unfold reboot_instance, pre_check_events, try_except, mbind, Py_bind, bind, print,
    emit, call_describe_instances, call_reboot_instances.
  cbn. rewrite Hd. cbn. rewrite Hfirst. cbn.
  destruct (unexpected_state (state_name instance)); cbn; rewrite Hr; cbn;
    destruct (bool_decide (code = "DryRunOperation")); cbn; by rewrite <- !app_assoc.
Qed.

(** The describe call after the reboot request: whatever it answers,
    and whatever exception but [SystemExit] it raises, [post_check]
    returns after it has printed. *)
Lemma post_check_run (instance_id instance_state : option string) (w : world S)
    (r : outcome DescribeResponse) (s3 : S) :
  describe_instances (ec2 self) (InstanceIds [instance_id]) (provider w) = (r, s3) ->
  (forall e, r = Raise e -> caught_exception e = true) ->
  exists msgs,
    post_check self instance_id instance_state w =
      (Ok tt,
       {| provider := s3;
          trace := trace w ++
            DescribeInstances (InstanceIds [instance_id]) :: (Print <$> msgs) |}).
Proof.
  intros Hd Hcaught.
  unfold post_check, try_except, mbind, Py_bind, bind, print, emit,
    call_describe_instances.
  rewrite Hd. destruct r as [post_response|e]; cbn.
  - destruct (first_instance post_response) as [instance|]; cbn.
    + destruct (bool_decide (state_name instance = Some "running")
                && bool_decide (instance_state = Some "running")); cbn.
      * exists [MsgPostState (state_name instance); MsgNoteRunning; MsgNoteInProgress].
        by rewrite <- !app_assoc.
      * exists [MsgPostState (state_name instance)]. by rewrite <- !app_assoc.
    + by exists [].
  - rewrite (Hcaught e eq_refl). cbn. exists [MsgUnableToVerify e].
    by rewrite <- !app_assoc.
Qed.

(** X25.  A live reboot answered with status 200 succeeds whatever the
    describe call after it does: [reboot_instance] sends one reboot
    request, pauses five seconds, describes the instance once more and
    returns [True], also when that last call raises. *)
Theorem reboot_instance_live_success (instance_id : option string) (w : world S)
    (response : DescribeResponse) (s1 : S) (instance : Instance)
    (answer : ResponseMetadata) (s2 : S) (r : outcome DescribeResponse) (s3 : S) :
  describe_instances (ec2 self) (InstanceIds [instance_id]) (provider w)
    = (Ok response, s1) ->
  first_instance response = Some instance ->
  reboot_instances (ec2 self) [instance_id] false s1 = (Ok answer, s2) ->
  HTTPStatusCode answer = Some 200 ->
  describe_instances (ec2 self) (InstanceIds [instance_id]) s2 = (r, s3) ->
  (forall e, r = Raise e -> caught_exception e = true) ->
  exists msgs,
    reboot_instance self instance_id false w =
      (Ok true,
       {| provider := s3;
          trace := trace w ++ pre_check_events self instance_id instance ++
            [RebootInstances [instance_id] false] ++
            (Print <$> initiated_msgs self instance_id answer) ++
            [Sleep 5; DescribeInstances (InstanceIds [instance_id])] ++
            (Print <$> msgs) |}).
Proof.
  intros Hd Hfirst Hr Hcode Hpost Hcaught.
  set (w2 := {| provider := s2;
                trace := trace w ++ pre_check_events self instance_id instance ++
                  [RebootInstances [instance_id] false] ++
                  (Print <$> initiated_msgs self instance_id answer) ++ [Sleep 5] |}).
  destruct (post_check_run instance_id (state_name instance) w2 r s3 Hpost Hcaught)
    as (msgs & Hrun).
  exists msgs.
  unfold reboot_instance, try_except, mbind, Py_bind, bind, print, sleep,
    emit, call_describe_instances, call_reboot_instances.
  cbn -[post_check]. rewrite Hd. cbn -[post_check]. rewrite Hfirst. cbn -[post_check].
  assert (Hgo : forall tr,
    tr = trace w2 ->
    post_check self instance_id (state_name instance)
      {| provider := s2; trace := tr |} =
    (Ok tt,
     {| provider := s3;
        trace := trace w ++ pre_check_events self instance_id instance ++
          [RebootInstances [instance_id] false] ++
          (Print <$> initiated_msgs self instance_id answer) ++
          [Sleep 5; DescribeInstances (InstanceIds [instance_id])] ++
          (Print <$> msgs) |})).
  { intros tr ->. change {| provider := s2; trace := trace w2 |} with w2.
    rewrite Hrun. cbn [trace w2]. f_equal. f_equal.
    rewrite <- !app_assoc. reflexivity. }
  unfold pre_check_events, initiated_msgs in *.
  destruct (unexpected_state (state_name instance)); cbn -[post_check];
    rewrite Hr; cbn -[post_check]; rewrite Hcode;
    rewrite bool_decide_eq_true_2 by done; cbn -[post_check];
    destruct (verbose self); cbn -[post_check] in *.
  all: lazymatch goal with
       | |- context [post_check _ _ _ {| provider := _; trace := ?tr |}] =>
           rewrite (Hgo tr); [reflexivity | by rewrite <- ?app_assoc]
       end.
Qed.

(** *** wait_for_instance_ok *)

(** X26.  [wait_for_instance_ok] asks the waiter for one check every 15
    seconds and [timeout // 15] checks, so that the checks stay within
    the timeout and a timeout under 15 seconds asks for no check; it
    returns [True] when the waiter returns, [False] when the waiter
    raises [WaiterError], and lets any other exception through. *)
Theorem wait_for_instance_ok_request (instance_id : option string) (timeout : Z)
    (w : world S) :
  let attempts := timeout `div` 15 in
  attempts * 15 <= timeout < attempts * 15 + 15 /\
  (wait_for_instance_ok self instance_id timeout w).1 =
    match (instance_status_ok_wait (ec2 self) [instance_id] 15 attempts (provider w)).1 with
    | Ok _ => Ok true
    | Raise e => if caught_waiter_error e then Ok false else Raise e
    end /\
  exists last,
    trace (wait_for_instance_ok self instance_id timeout w).2 =
      trace w ++ [Print (MsgWaiting instance_id); Print (MsgWillCheck 15 timeout);
                  WaitInstanceStatusOk [instance_id] 15 attempts] ++ last /\
    Forall is_print last.
Proof.
  cbv zeta. split; [|].
  { pose proof (Z.div_mod timeout 15 ltac:(lia)).
    pose proof (Z.mod_pos_bound timeout 15 ltac:(lia)). unfold Z.div in *. lia. }
  unfold wait_for_instance_ok, try_except, mbind, Py_bind, bind, print, emit,
    call_waiter_wait.
  cbn. destruct (instance_status_ok_wait (ec2 self) [instance_id] 15
                   (timeout `div` 15) (provider w)) as [[[]|e] s']; cbn.
  - split; [done |]. exists [Print (MsgInstanceOk instance_id)].
    split; [by rewrite <- !app_assoc | by repeat constructor].
  - destruct (caught_waiter_error e); cbn.
    + split; [done |]. exists [Print (MsgWaitError instance_id e)].
      split; [by rewrite <- !app_assoc | by repeat constructor].
    + split; [done |]. exists []. split; [by rewrite <- !app_assoc | done].
Qed.

(** *** get_instance_by_name *)

(** X27.  The locator gives an identifier exactly when the describe call
    answers and its answer holds one instance, over all reservations:
    that instance is the one it gives. *)
Theorem get_instance_by_name_unique (name : string) (w : world S)
    (instance_id : string) :
  (get_instance_by_name self name w).1 = Ok (Some instance_id) <->
  exists response,
    (describe_instances (ec2 self) (Filters (name_filters name)) (provider w)).1
      = Ok response /\
    instance_ids response = [instance_id].
Proof.
  destruct (describe_instances (ec2 self) (Filters (name_filters name)) (provider w))
    as [[response|e] s'] eqn:Hd.
  - rewrite (get_instance_by_name_described self name w response s' Hd). cbn.
    destruct (instance_ids response) as [|id [|id' ids]] eqn:Hids; cbn.
    + split; [done | intros (? & [= <-] & ?); congruence].
    + split.
      * intros [= ->]. by exists response.
      * intros (? & [= <-] & ?). congruence.
    + split; [done | intros (? & [= <-] & ?); congruence].
  - cbn. unfold get_instance_by_name, try_except, mbind, Py_bind, bind,
      call_describe_instances.
    rewrite Hd. split; [|by intros (? & ? & ?)].
    destruct (caught_client_error e); cbn; done.
Qed.

End Rebooter.

(** *** __init__ *)


(** *** main *)

Lemma main_emits {S} (client : EC2Client S) (session_region : option string)
    (args : Args) (P : event -> Prop) :
  (forall m, P (Print m)) ->
  (forall name, a_name args = Some name ->
                P (DescribeInstances (Filters (name_filters name)))) ->
  (forall id, P (DescribeInstances (InstanceIds [id]))) ->
  (forall id, P (RebootInstances [id] (a_dry_run args))) ->
  (a_dry_run args = false -> P (Sleep 5)) ->
  (a_wait args = true -> a_dry_run args = false ->
   forall id, P (WaitInstanceStatusOk [id] 15 (a_timeout args `div` 15))) ->
  only trace P (main client session_region args).
Proof.
  intros Hprint Hfilters Hids Hreboot Hsleep Hwait. unfold main. cbv zeta.
  apply only_bind; [by apply only_emit_event | intros _].
  apply only_bind; [by apply only_emit_event | intros _].
  apply only_bind; [by apply only_emit_event | intros _].
  apply only_bind.
  { destruct (a_name args) as [name|] eqn:Hname; cbn [truthy]; [|apply only_ret].
    apply only_if; [|apply only_ret].
    apply only_bind; [apply get_instance_by_name_emits; auto |].
    intros id. apply only_if; [apply only_raise | apply only_ret]. }
  intros instance_id.
  apply only_bind; [by apply reboot_instance_emits |].
  intros result.
  apply only_bind; [apply only_if; [apply only_raise | apply only_ret] | intros _].
  apply only_bind.
  { destruct (a_wait args) eqn:Hw, (a_dry_run args) eqn:Hdry; cbn [andb negb];
      try apply only_ret.
    apply only_bind; [apply wait_for_instance_ok_emits; auto |].
    intros wait_result. apply only_if; [apply only_raise | apply only_ret]. }
  intros _.
  apply only_bind; [by apply only_emit_event | intros _].
  apply only_if; [by apply only_emit_event | apply only_ret].
Qed.

(** X29.  Every request of [main] follows its arguments: a reboot call
    names one instance and carries the [--dry-run] flag as given; a
    wait is asked only with [--wait] in a live run, every 15 seconds
    and within [--timeout]; the pause of five seconds belongs to live
    runs; a search by name uses the name given. *)
Theorem main_requests {S} (client : EC2Client S) (session_region : option string)
    (args : Args) (w : world S) :
  exists evs,
    trace (main client session_region args w).2 = trace w ++ evs /\
    Forall (expected_request args) evs.
Proof.
  apply (main_emits client session_region args (expected_request args)); cbn; try done.
  - intros name Hname. by exists name.
  - intros Hw Hdry id. repeat split; try done.
    + pose proof (Z.div_mod (a_timeout args) 15 ltac:(lia)).
      pose proof (Z.mod_pos_bound (a_timeout args) 15 ltac:(lia)). lia.
    + pose proof (Z.div_mod (a_timeout args) 15 ltac:(lia)).
      pose proof (Z.mod_pos_bound (a_timeout args) 15 ltac:(lia)). lia.
Qed.



Import Examples.Ec2.

Lemma reboot_instance_not_found_witness :
  reboot_instance (init (static_ec2 []) None (Some "us-west-2") false)
    (Some "i-0abc") false e0 =
    (Ok false,
     {| provider := tt;
        trace := trace e0 ++
          [Print (MsgRebooting (Some "i-0abc") "us-west-2");
           DescribeInstances (InstanceIds [Some "i-0abc"]);
           Print (MsgNotFound (Some "i-0abc"))] |}).
Proof.
  apply (reboot_instance_not_found
           (init (static_ec2 []) None (Some "us-west-2") false)
           (Some "i-0abc") false e0 (found []) tt); reflexivity.
Defined.

Lemma reboot_instance_unexpected_status_witness :
  reboot_instance
    (init (answering_ec2 [running "i-0abc"] (Some 503)) None (Some "us-west-2") false)
    (Some "i-0abc") false e0 =
    (Ok false,
     {| provider := tt;
        trace := [Print (MsgRebooting (Some "i-0abc") "us-west-2");
                  DescribeInstances (InstanceIds [Some "i-0abc"]);
                  Print (MsgCurrentState (Some "running"));
                  RebootInstances [Some "i-0abc"] false;
                  Print (MsgUnexpectedCode (Some 503))] |}).
Proof.
  apply (reboot_instance_unexpected_status
           (init (answering_ec2 [running "i-0abc"] (Some 503)) None
              (Some "us-west-2") false)
           (Some "i-0abc") e0 (found [running "i-0abc"]) tt (running "i-0abc")
           {| HTTPStatusCode := Some 503; RequestId := None |} tt);
    try reflexivity.
  done.
Defined.

Lemma reboot_instance_client_error_witness :
  reboot_instance
    (init (refusing_ec2 [running "i-0abc"] "UnauthorizedOperation") None
       (Some "us-west-2") false)
    (Some "i-0abc") false e0 =
    (Ok false,
     {| provider := tt;
        trace := [Print (MsgRebooting (Some "i-0abc") "us-west-2");
                  DescribeInstances (InstanceIds [Some "i-0abc"]);
                  Print (MsgCurrentState (Some "running"));
                  RebootInstances [Some "i-0abc"] false;
                  Print (MsgRebootError (Some "i-0abc")
                           (ClientError "UnauthorizedOperation"));
                  Print (MsgErrorCode "UnauthorizedOperation")] |}).
Proof.
  apply (reboot_instance_client_error
           (init (refusing_ec2 [running "i-0abc"] "UnauthorizedOperation") None
              (Some "us-west-2") false)
           (Some "i-0abc") false e0 (found [running "i-0abc"]) tt (running "i-0abc")
           "UnauthorizedOperation" tt); reflexivity.
Defined.

Lemma reboot_instance_live_success_witness :
  exists msgs,
    reboot_instance (init (static_ec2 [running "i-0abc"]) None (Some "us-west-2") false)
      (Some "i-0abc") false e0 =
      (Ok true,
       {| provider := tt;
          trace := [Print (MsgRebooting (Some "i-0abc") "us-west-2");
                    DescribeInstances (InstanceIds [Some "i-0abc"]);
                    Print (MsgCurrentState (Some "running"));
                    RebootInstances [Some "i-0abc"] false;
                    Print (MsgInitiated (Some "i-0abc"));
                    Print MsgVerifying;
                    Sleep 5;
                    DescribeInstances (InstanceIds [Some "i-0abc"])] ++
                   (Print <$> msgs) |}).
Proof.
  apply (reboot_instance_live_success
           (init (static_ec2 [running "i-0abc"]) None (Some "us-west-2") false)
           (Some "i-0abc") e0 (found [running "i-0abc"]) tt (running "i-0abc")
           {| HTTPStatusCode := Some 200; RequestId := Some "req-1" |} tt
           (Ok (found [running "i-0abc"])) tt); try reflexivity.
  intros e H. discriminate H.
Defined.


End RebootMore.
